(** * The webhook server of src/webhooks: signature check, dispatch, handlers

  A shallow embedding of [src/webhooks/src/index.ts], of
  [src/webhooks/src/handlers/index.ts] and of the six handlers under
  [src/webhooks/src/handlers/], with the properties the design document
  states about them.

  Conventions of the embedding.
  - A JavaScript string is represented by its UTF-8 encoding, as a
    [string] of bytes; [Buffer.from(s)] is then the list of its bytes.
  - A [Buffer] is a [list byte].
  - Code that can throw, log or call the platform API runs in the monad
    [M]: a result (a value or a thrown error) and the trace of events
    it produced.
  - Library code (Node's crypto, JSON.parse, Express, @octokit/webhooks)
    is modelled by its documented behaviour, in the modules that precede
    the program. *)

From Stdlib Require Import ZArith List String Ascii Bool Lia.
From Stdlib Require Import Init.Byte DecimalString.
Import ListNotations.
Set Warnings "-register-all".
Local Open Scope string_scope.
Local Open Scope list_scope.
Local Open Scope Z_scope.

(* ===================================================================== *)
(** ** Bytes, buffers and hexadecimal text *)
(* ===================================================================== *)

Module Buf.

Definition byte_Z (b : byte) : Z := Z.of_N (Byte.to_N b).

Definition Z_byte (z : Z) : byte :=
  match Byte.of_N (Z.to_N (z mod 256)) with
  | Some b => b
  | None => x00
  end.

(** [Buffer.from(s)] for a string [s] (UTF-8 is the default encoding). *)
Definition from (s : string) : list byte := list_byte_of_string s.

Definition hex_digit (n : Z) : ascii :=
  if n <? 10 then ascii_of_N (Z.to_N (48 + n))
  else ascii_of_N (Z.to_N (87 + n)).

(** [.digest('hex')] / [buf.toString('hex')]: two lowercase digits a byte. *)
Fixpoint hex (bs : list byte) : string :=
  match bs with
  | [] => EmptyString
  | b :: r =>
      String (hex_digit (byte_Z b / 16))
        (String (hex_digit (byte_Z b mod 16)) (hex r))
  end.

Definition byte_eqb (a b : byte) : bool := Byte.eqb a b.

Fixpoint eqb (a b : list byte) : bool :=
  match a, b with
  | [], [] => true
  | x :: a', y :: b' => byte_eqb x y && eqb a' b'
  | _, _ => false
  end.

End Buf.

(* ===================================================================== *)
(** ** Node's crypto: SHA-256 (FIPS 180-4) and HMAC (RFC 2104) *)
(* ===================================================================== *)

Module SHA256.
Import Buf.

Definition w32 (x : Z) : Z := x mod 2 ^ 32.
Definition add32 (a b : Z) : Z := w32 (a + b).
Definition rotr (n x : Z) : Z :=
  Z.lor (Z.shiftr x n) (w32 (Z.shiftl x (32 - n))).
Definition not32 (x : Z) : Z := Z.lxor x 0xffffffff.

Definition Ch (x y z : Z) := Z.lxor (Z.land x y) (Z.land (not32 x) z).
Definition Maj (x y z : Z) :=
  Z.lxor (Z.lxor (Z.land x y) (Z.land x z)) (Z.land y z).
Definition bsig0 x := Z.lxor (Z.lxor (rotr 2 x) (rotr 13 x)) (rotr 22 x).
Definition bsig1 x := Z.lxor (Z.lxor (rotr 6 x) (rotr 11 x)) (rotr 25 x).
Definition ssig0 x := Z.lxor (Z.lxor (rotr 7 x) (rotr 18 x)) (Z.shiftr x 3).
Definition ssig1 x := Z.lxor (Z.lxor (rotr 17 x) (rotr 19 x)) (Z.shiftr x 10).

(** The first sixty-four primes. *)
Definition primes : list Z :=
  [2; 3; 5; 7; 11; 13; 17; 19; 23; 29; 31; 37; 41; 43; 47; 53; 59; 61;
   67; 71; 73; 79; 83; 89; 97; 101; 103; 107; 109; 113; 127; 131; 137;
   139; 149; 151; 157; 163; 167; 173; 179; 181; 191; 193; 197; 199; 211;
   223; 227; 229; 233; 239; 241; 251; 257; 263; 269; 271; 277; 281; 283;
   293; 307; 311].

(** The largest [y >= x] with [y ^ k <= n], found bit by bit below
    [2 ^ bits]. *)
Fixpoint iroot (k : Z) (bits : nat) (n x : Z) : Z :=
  match bits with
  | O => x
  | S b =>
      let y := x + 2 ^ Z.of_nat b in
      iroot k b n (if y ^ k <=? n then y else x)
  end.

(** The first 32 bits of the fractional part of the [k]-th root of [p]. *)
Definition frac_root (k p : Z) : Z :=
  w32 (iroot k 40 (p * 2 ^ (32 * k)) 0).

(** The round constants: from the cube roots of the primes. *)
Definition K : list Z := Eval vm_compute in map (frac_root 3) primes.

(** The eight working variables / the intermediate hash value. *)
Record state := mkState {
  ha : Z; hb : Z; hc : Z; hd : Z; he : Z; hf : Z; hg : Z; hh : Z }.

(** The initial hash value: from the square roots of the first eight
    primes. *)
Definition H0 : state :=
  Eval vm_compute in
  match map (frac_root 2) (firstn 8 primes) with
  | [a; b; c; d; e; f; g; h] => mkState a b c d e f g h
  | _ => mkState 0 0 0 0 0 0 0 0
  end.

(** Padding: one 0x80 byte, zeros up to 56 mod 64, the bit length on
    eight bytes, big endian. *)
Definition be_bytes (n : nat) (x : Z) : list byte :=
  map (fun i => Z_byte (Z.shiftr x (8 * Z.of_nat i))) (rev (seq 0 n)).

Definition pad (msg : list byte) : list byte :=
  let len := Z.of_nat (List.length msg) in
  msg ++ [x80]
      ++ repeat x00 (Z.to_nat ((55 - len) mod 64))
      ++ be_bytes 8 (8 * len).

Fixpoint be_word (bs : list byte) (acc : Z) : Z :=
  match bs with
  | [] => acc
  | b :: r => be_word r (acc * 256 + byte_Z b)
  end.

(** The sixteen words of a 64-byte block. *)
Fixpoint words (n : nat) (bs : list byte) : list Z :=
  match n with
  | O => []
  | S n' => be_word (firstn 4 bs) 0 :: words n' (skipn 4 bs)
  end.

(** Message schedule: [w] holds W[t-16..t-1]; [n] more words follow. *)
Fixpoint schedule (n : nat) (w : list Z) : list Z :=
  match n with
  | O => []
  | S n' =>
      let x := add32 (add32 (ssig1 (nth 14 w 0)) (nth 9 w 0))
                     (add32 (ssig0 (nth 1 w 0)) (nth 0 w 0)) in
      x :: schedule n' (tl w ++ [x])
  end.

Definition round (s : state) (kw : Z * Z) : state :=
  let t1 := add32 (add32 (add32 (hh s) (bsig1 (he s)))
                         (add32 (Ch (he s) (hf s) (hg s)) (fst kw)))
                  (snd kw) in
  let t2 := add32 (bsig0 (ha s)) (Maj (ha s) (hb s) (hc s)) in
  mkState (add32 t1 t2) (ha s) (hb s) (hc s)
          (add32 (hd s) t1) (he s) (hf s) (hg s).

Definition compress (h : state) (block : list byte) : state :=
  let w16 := words 16 block in
  let w := w16 ++ schedule 48 w16 in
  let s := fold_left round (combine K w) h in
  mkState (add32 (ha h) (ha s)) (add32 (hb h) (hb s))
          (add32 (hc h) (hc s)) (add32 (hd h) (hd s))
          (add32 (he h) (he s)) (add32 (hf h) (hf s))
          (add32 (hg h) (hg s)) (add32 (hh h) (hh s)).

Fixpoint blocks (n : nat) (h : state) (bs : list byte) : state :=
  match n with
  | O => h
  | S n' => blocks n' (compress h (firstn 64 bs)) (skipn 64 bs)
  end.

Definition digest_bytes (s : state) : list byte :=
  flat_map (be_bytes 4)
    [ha s; hb s; hc s; hd s; he s; hf s; hg s; hh s].

Definition sha256 (msg : list byte) : list byte :=
  let p := pad msg in
  digest_bytes (blocks (Nat.div (List.length p) 64) H0 p).

Definition xor_pad (c : Z) (k : list byte) : list byte :=
  map (fun b => Z_byte (Z.lxor (byte_Z b) c)) k.

(** [createHmac('sha256', key).update(msg).digest()] *)
Definition hmac (key msg : list byte) : list byte :=
  let k0 := if Nat.ltb 64 (List.length key) then sha256 key else key in
  let k := k0 ++ repeat x00 (64 - List.length k0)%nat in
  sha256 (xor_pad 0x5c k ++ sha256 (xor_pad 0x36 k ++ msg)).

(** [createHmac('sha256', secret).update(payload).digest('hex')] with a
    string [secret] and a Buffer [payload]. *)
Definition hmac_hex (secret : string) (payload : list byte) : string :=
  hex (hmac (from secret) payload).

End SHA256.

(* ===================================================================== *)
(** ** Numbers: binary64 and Number::toString *)
(* ===================================================================== *)

(** A number of a payload is kept as the decimal [m * 10^e] its JSON
  literal writes. What the program sees of it is the binary64 number
  nearest to it: whether it is zero, and its text. Both are computed
  here with integer arithmetic. *)
Module Num.

(** A binary64 number, by its magnitude: zero, the finite [M * 2^q]
    (with [M < 2^53] and [-1074 <= q <= 971], and [2^52 <= M] unless
    [q = -1074]), or infinity. *)
Inductive binary64 :=
| Zero
| Finite (M q : Z)
| Infinity.

(** [a * 2^k] when [0 <= k], and [a] otherwise: a power of two is put
    on the side of a comparison of fractions where its exponent is not
    negative. *)
Definition scale (a k : Z) : Z :=
  if 0 <=? k then a * 2 ^ k else a.

(** The magnitude [a / b] of a positive fraction, rounded to the nearest
    binary64, ties to the even significand. *)
Definition round_fraction (a b : Z) : binary64 :=
  let l := Z.log2 a - Z.log2 b in
  (* floor (log2 (a / b)) is l or l - 1 *)
  let lg := if scale b l <=? scale a (- l) then l else l - 1 in
  let q := Z.max (lg - 52) (-1074) in
  let num := scale a (- q) in
  let den := scale b q in
  let M0 := num / den in
  let r := num mod den in
  let M := if (den <? 2 * r) || ((den =? 2 * r) && Z.odd M0)
           then M0 + 1 else M0 in
  let (M', q') := if M =? 2 ^ 53 then (2 ^ 52, q + 1) else (M, q) in
  if M' =? 0 then Zero
  else if 971 <? q' then Infinity
  else Finite M' q'.

(** The number of decimal digits of [n], for [0 < n]. *)
Definition digits (n : Z) : Z :=
  Z.of_nat (String.length (NilZero.string_of_uint (N.to_uint (Z.to_N n)))).

(** The binary64 nearest to the magnitude of the decimal [m * 10^e], as
    a number literal of JSON denotes it. *)
Definition of_decimal (m e : Z) : binary64 :=
  let a := Z.abs m in
  if a =? 0 then Zero
  else if 310 <? e + digits a then Infinity
  else if e + digits a <? -330 then Zero
  else if 0 <=? e then round_fraction (a * 10 ^ e) 1
  else round_fraction a (10 ^ (- e)).

Definition is_zero (m e : Z) : bool :=
  match of_decimal m e with Zero => true | _ => false end.

(** [10^j <= M * 2^q] *)
Definition pow10_le (j M q : Z) : bool :=
  scale 1 (- q) * (if 0 <=? j then 10 ^ j else 1)
  <=? scale M q * (if 0 <=? j then 1 else 10 ^ (- j)).

(** floor (log10 (M * 2^q)) *)
Definition log10_floor (M q : Z) : Z :=
  let est := ((Z.log2 M + q) * 30103) / 100000 in
  if pow10_le (est + 1) M q then est + 1
  else if pow10_le est M q then est
  else est - 1.

(** Does the decimal [c * 10^t] denote [M * 2^q]? *)
Definition denotes (c t M q : Z) : bool :=
  match of_decimal c t with
  | Finite M' q' => (M' =? M) && (q' =? q)
  | _ => false
  end.

(** The candidates with [k] digits: the two decimals [c * 10^t] next to
    [M * 2^q], for [t = n - k]; the one that denotes the number, the
    closer one if both do (the even one on a tie). *)
Definition candidate (M q n k : Z) : option (Z * Z) :=
  let t := n - k in
  (* x / 10^t = (M * 2^q * 10^-t) as num / den *)
  let num := scale M q * (if 0 <=? t then 1 else 10 ^ (- t)) in
  let den := scale 1 (- q) * (if 0 <=? t then 10 ^ t else 1) in
  let c := num / den in
  let r := num mod den in
  let lo := denotes c t M q in
  let hi := denotes (c + 1) t M q in
  if lo && hi then
    if 2 * r <? den then Some (c, t)
    else if den <? 2 * r then Some (c + 1, t)
    else Some (if Z.even c then c else c + 1, t)
  else if lo then Some (c, t)
  else if hi then Some (c + 1, t)
  else None.

Fixpoint shortest (fuel : nat) (M q n k : Z) : Z * Z :=
  match fuel with
  | O => (M, q)     (* not reached: 17 digits always suffice *)
  | S fuel' =>
      match candidate M q n k with
      | Some ct => ct
      | None => shortest fuel' M q n (k + 1)
      end
  end.

Fixpoint strip_zeros (fuel : nat) (c t : Z) : Z * Z :=
  match fuel with
  | O => (c, t)
  | S fuel' =>
      if (c mod 10 =? 0) && negb (c =? 0)
      then strip_zeros fuel' (c / 10) (t + 1)
      else (c, t)
  end.

Definition dec (n : Z) : string := NilZero.string_of_uint (N.to_uint (Z.to_N n)).

Fixpoint zeros (n : nat) : string :=
  match n with
  | O => EmptyString
  | S n' => String "0" (zeros n')
  end.

(** Number::toString, for the digits [s] (with [k] of them) and the
    exponent [n] of the shortest decimal [0.s * 10^n]. *)
Definition layout (s : string) (n : Z) : string :=
  let k := Z.of_nat (String.length s) in
  if (k <=? n) && (n <=? 21)
  then String.append s (zeros (Z.to_nat (n - k)))
  else if (0 <? n) && (n <=? 21)
  then String.append (substring 0 (Z.to_nat n) s)
         (String.append "." (substring (Z.to_nat n) (Z.to_nat (k - n)) s))
  else if (-6 <? n) && (n <=? 0)
  then String.append "0." (String.append (zeros (Z.to_nat (- n))) s)
  else
    let e := n - 1 in
    let exponent :=
      String.append (if 0 <=? e then "e+" else "e-") (dec (Z.abs e)) in
    match s with
    | String d EmptyString => String d exponent
    | String d r => String d (String.append "." (String.append r exponent))
    | EmptyString => exponent
    end.

(** [String(x)] for the number the decimal [m * 10^e] denotes. *)
Definition to_string (m e : Z) : string :=
  match of_decimal m e with
  | Zero => "0"
  | Infinity => if m <? 0 then "-Infinity" else "Infinity"
  | Finite M q =>
      let n := log10_floor M q + 1 in
      let (c, t) := shortest 17 M q n 1 in
      let (c', t') := strip_zeros 17 c t in
      let s := dec c' in
      String.append (if m <? 0 then "-" else EmptyString)
        (layout s (t' + Z.of_nat (String.length s)))
  end.

End Num.

(* ===================================================================== *)
(** ** JavaScript values, errors and the effects of the program *)
(* ===================================================================== *)

Module JS.

(** The values a decoded payload, an API answer or a response body is
    made of. A number is kept as the decimal [m * 10^e] its literal
    writes and stands for the binary64 number nearest to it (see
    [Num]). An object is the list
    of its own properties in source order; a later duplicate of a key
    overrides an earlier one. *)
Inductive value :=
| VUndef
| VNull
| VBool (b : bool)
| VNum (m e : Z)
| VStr (s : string)
| VArr (l : list value)
| VObj (fs : list (string * value)).

(** What can be thrown. [RequestError] is the rejection of an Octokit
    request, [Failure msg] is [new Error(msg)], and [AggregateError] is
    what @octokit/webhooks rejects with. *)
Inductive error :=
| TypeError
| RangeError
| SyntaxError
| RequestError
| Failure (message : string)
| AggregateError (errors : list error).

Inductive level := Debug | Info | Warn | Err.

Inductive handler_name :=
| Push | PullRequest | Release | WorkflowRun | Issues | Repository.

(** What a delivery can be observed to do. [Handled h v] records that
    the [handle] method of handler [h] was entered with argument [v]. *)
Inductive event :=
| Logged (l : level) (msg : string)
| Handled (h : handler_name) (arg : value)
| ApiCall (endpoint : string) (args : value).

(** A computation: its completion (a thrown error or a value) and the
    events it produced, in order. *)
Definition M (A : Type) : Type := (error + A) * list event.

Definition ret {A} (a : A) : M A := (inr a, []).
Definition throw {A} (e : error) : M A := (inl e, []).
Definition emit (ev : event) : M unit := (inr tt, [ev]).

Definition bind {A B} (m : M A) (k : A -> M B) : M B :=
  match m with
  | (inl e, t) => (inl e, t)
  | (inr a, t) => let (r, t') := k a in (r, t ++ t')
  end.

(** [try { m } catch (error) { h error }] *)
Definition try_catch {A} (m : M A) (h : error -> M A) : M A :=
  match m with
  | (inl e, t) => let (r, t') := h e in (r, t ++ t')
  | (inr a, t) => (inr a, t)
  end.

Definition result {A} (m : M A) : error + A := fst m.
Definition trace {A} (m : M A) : list event := snd m.

Definition truthy (v : value) : bool :=
  match v with
  | VUndef | VNull => false
  | VBool b => b
  | VNum m e => negb (Num.is_zero m e)
  | VStr s => negb (String.eqb s EmptyString)
  | VArr _ | VObj _ => true
  end.

Definition nullish (v : value) : bool :=
  match v with VUndef | VNull => true | _ => false end.

Definition has_field (k : string) (fs : list (string * value)) : bool :=
  existsb (fun kv => String.eqb k (fst kv)) fs.

(** The value of own property [k]: the last entry with that key. *)
Fixpoint field (k : string) (fs : list (string * value)) : value :=
  match fs with
  | [] => VUndef
  | (k', v) :: r =>
      if has_field k r then field k r
      else if String.eqb k k' then v else VUndef
  end.

(** [v.k] for a property name [k] that no built-in prototype defines:
    a TypeError on undefined and null, the own property of an object,
    undefined on anything else. *)
Definition get (v : value) (k : string) : M value :=
  match v with
  | VUndef | VNull => throw TypeError
  | VObj fs => ret (field k fs)
  | _ => ret VUndef
  end.

(** [v?.k] *)
Definition get_opt (v : value) (k : string) : M value :=
  if nullish v then ret VUndef else get v k.

End JS.

Declare Scope js_scope.
Delimit Scope js_scope with js.
Notation "x <- m ;; k" := (JS.bind m (fun x => k))
(at level 61, m at next level, right associativity) : js_scope.
Notation "m ;; k" := (JS.bind m (fun _ => k))
(at level 61, right associativity) : js_scope.

(* ===================================================================== *)
(** ** [buf.toString()]: UTF-8 decoding with replacement *)
(* ===================================================================== *)

Module Utf8.
Import Buf.

Inductive lead_class :=
| Single                         (* 00..7F *)
| Lead (need : nat) (lo hi : Z)  (* continuation bytes to come, and the
                                    range allowed for the next one *)
| Bad.

Definition classify (z : Z) : lead_class :=
  if z <=? 0x7f then Single
  else if (0xc2 <=? z) && (z <=? 0xdf) then Lead 1 0x80 0xbf
  else if z =? 0xe0 then Lead 2 0xa0 0xbf
  else if z =? 0xed then Lead 2 0x80 0x9f
  else if (0xe1 <=? z) && (z <=? 0xef) then Lead 2 0x80 0xbf
  else if z =? 0xf0 then Lead 3 0x90 0xbf
  else if z =? 0xf4 then Lead 3 0x80 0x8f
  else if (0xf1 <=? z) && (z <=? 0xf3) then Lead 3 0x80 0xbf
  else Bad.

(** U+FFFD, as it is re-encoded. *)
Definition replacement : list byte := [xef; xbf; xbd].

(** The decoder of the Encoding standard, with its output re-encoded:
    a well-formed sequence is copied, every maximal ill-formed part
    becomes U+FFFD. [need] continuation bytes are awaited, [pend] holds
    the bytes of the sequence read so far (last first). *)
Fixpoint sanitize (bs : list byte) (need : nat) (pend : list byte)
         (lo hi : Z) : list byte :=
  match bs with
  | [] => match need with O => [] | S _ => replacement end
  | b :: r =>
      let z := byte_Z b in
      let start :=
        match classify z with
        | Single => b :: sanitize r 0 [] 0x80 0xbf
        | Lead n l h => sanitize r n [b] l h
        | Bad => replacement ++ sanitize r 0 [] 0x80 0xbf
        end in
      match need with
      | O => start
      | S n =>
          if (lo <=? z) && (z <=? hi) then
            match n with
            | O => rev (b :: pend) ++ sanitize r 0 [] 0x80 0xbf
            | S _ => sanitize r n (b :: pend) 0x80 0xbf
            end
          else replacement ++ start
      end
  end.

(** [buf.toString()], the string being represented by its encoding. *)
Definition toString (bs : list byte) : string :=
  string_of_list_byte (sanitize bs 0 [] 0x80 0xbf).

(** The encoding of a code point (of a lone surrogate too, which a JSON
    escape can denote). *)
Definition encode (cp : Z) : string :=
  let ch (z : Z) := ascii_of_N (Z.to_N z) in
  let cont (z : Z) := ch (0x80 + z mod 64) in
  if cp <? 0x80 then String (ch cp) EmptyString
  else if cp <? 0x800 then
    String (ch (0xc0 + cp / 64)) (String (cont cp) EmptyString)
  else if cp <? 0x10000 then
    String (ch (0xe0 + cp / 4096))
      (String (cont (cp / 64)) (String (cont cp) EmptyString))
  else
    String (ch (0xf0 + cp / 262144))
      (String (cont (cp / 4096))
         (String (cont (cp / 64)) (String (cont cp) EmptyString))).

End Utf8.

(* ===================================================================== *)
(** ** [JSON.parse] (ECMA-404) *)
(* ===================================================================== *)

Module JSON.
Import JS.

Definition code (c : ascii) : Z := Z.of_N (N_of_ascii c).

Definition is_ws (c : ascii) : bool :=
  let n := code c in
  (n =? 32) || (n =? 9) || (n =? 10) || (n =? 13).

Fixpoint skip_ws (s : string) : string :=
  match s with
  | String c r => if is_ws c then skip_ws r else s
  | EmptyString => s
  end.

Definition digit (c : ascii) : option Z :=
  let n := code c in
  if (48 <=? n) && (n <=? 57) then Some (n - 48) else None.

Definition hexval (c : ascii) : option Z :=
  let n := code c in
  if (48 <=? n) && (n <=? 57) then Some (n - 48)
  else if (65 <=? n) && (n <=? 70) then Some (n - 55)
  else if (97 <=? n) && (n <=? 102) then Some (n - 87)
  else None.

(** A run of digits: its value after [acc], how many, and the rest. *)
Fixpoint digits (s : string) (acc : Z) (cnt : Z) : Z * Z * string :=
  match s with
  | String c r =>
      match digit c with
      | Some d => digits r (acc * 10 + d) (cnt + 1)
      | None => (acc, cnt, s)
      end
  | EmptyString => (acc, cnt, s)
  end.

(** number = [-] int [frac] [exp] *)
Definition parse_number (s : string) : option (value * string) :=
  let '(neg, s1) :=
    match s with String "-" r => (true, r) | _ => (false, s) end in
  let int_part :=
    match s1 with
    | String "0" r => Some (0, r)
    | _ => let '(v, n, r) := digits s1 0 0 in
           if n =? 0 then None else Some (v, r)
    end in
  match int_part with
  | None => None
  | Some (i, s2) =>
      let frac :=
        match s2 with
        | String "." r =>
            let '(v, n, r') := digits r i 0 in
            if n =? 0 then None else Some (v, n, r')
        | _ => Some (i, 0, s2)
        end in
      match frac with
      | None => None
      | Some (m, fd, s3) =>
          let expo :=
            match s3 with
            | String c r =>
                if (code c =? 101) || (code c =? 69) then
                  let '(eneg, r1) :=
                    match r with
                    | String "-" r' => (true, r')
                    | String "+" r' => (false, r')
                    | _ => (false, r)
                    end in
                  let '(v, n, r2) := digits r1 0 0 in
                  if n =? 0 then None
                  else Some ((if eneg then - v else v), r2)
                else Some (0, s3)
            | EmptyString => Some (0, s3)
            end in
          match expo with
          | None => None
          | Some (e, s4) =>
              Some (VNum (if neg then - m else m) (e - fd), s4)
          end
      end
  end.

Definition hex4 (s : string) : option (Z * string) :=
  match s with
  | String a (String b (String c (String d r))) =>
      match hexval a, hexval b, hexval c, hexval d with
      | Some x, Some y, Some z, Some w =>
          Some (((x * 16 + y) * 16 + z) * 16 + w, r)
      | _, _, _, _ => None
      end
  | _ => None
  end.

Definition simple_escape (c : ascii) : option ascii :=
  let n := code c in
  if n =? 34 then Some c                      (* quote *)
  else if n =? 92 then Some c                 (* backslash *)
  else if n =? 47 then Some c                 (* slash *)
  else if n =? 98 then Some "008"%char             (* escape b *)
  else if n =? 102 then Some "012"%char            (* escape f *)
  else if n =? 110 then Some "010"%char            (* escape n *)
  else if n =? 114 then Some "013"%char            (* escape r *)
  else if n =? 116 then Some "009"%char            (* escape t *)
  else None.

Definition cons_str (c : ascii) (r : option (string * string)) :=
  match r with
  | Some (t, rest) => Some (String c t, rest)
  | None => None
  end.

Definition app_str (p : string) (r : option (string * string)) :=
  match r with
  | Some (t, rest) => Some (String.append p t, rest)
  | None => None
  end.

(** The characters of a string literal after its opening quote, up to
    and including the closing one. *)
Fixpoint parse_chars (fuel : nat) (s : string) : option (string * string) :=
  match fuel with
  | O => None
  | S f =>
      match s with
      | EmptyString => None
      | String c r =>
          if code c =? 34 then Some (EmptyString, r)
          else if code c =? 92 then
            match r with
            | EmptyString => None
            | String e r2 =>
                match simple_escape e with
                | Some ch => cons_str ch (parse_chars f r2)
                | None =>
                    if code e =? 117 then
                      match hex4 r2 with
                      | None => None
                      | Some (u, r3) =>
                          let lone := app_str (Utf8.encode u) (parse_chars f r3) in
                          if (0xd800 <=? u) && (u <=? 0xdbff) then
                            match r3 with
                            | String "\" (String "u" r4) =>
                                match hex4 r4 with
                                | Some (l, r5) =>
                                    if (0xdc00 <=? l) && (l <=? 0xdfff) then
                                      app_str
                                        (Utf8.encode
                                           (0x10000 + (u - 0xd800) * 1024
                                            + (l - 0xdc00)))
                                        (parse_chars f r5)
                                    else lone
                                | None => lone
                                end
                            | _ => lone
                            end
                          else lone
                      end
                    else None
                end
            end
          else if code c <? 32 then None
          else cons_str c (parse_chars f r)
      end
  end.

Fixpoint parse_value (fuel : nat) (s : string) : option (value * string) :=
  match fuel with
  | O => None
  | S f =>
      match skip_ws s with
      | EmptyString => None
      | String c r =>
          if code c =? 123 then                         (* { *)
            match skip_ws r with
            | String "}" r' => Some (VObj [], r')
            | _ =>
                match parse_members f r with
                | Some (ms, r') => Some (VObj ms, r')
                | None => None
                end
            end
          else if code c =? 91 then                     (* [ *)
            match skip_ws r with
            | String "]" r' => Some (VArr [], r')
            | _ =>
                match parse_elements f r with
                | Some (vs, r') => Some (VArr vs, r')
                | None => None
                end
            end
          else if code c =? 34 then                     (* string *)
            match parse_chars (String.length s) r with
            | Some (t, r') => Some (VStr t, r')
            | None => None
            end
          else
            match String c r with
            | String "t" (String "r" (String "u" (String "e" r'))) =>
                Some (VBool true, r')
            | String "f" (String "a" (String "l" (String "s" (String "e" r')))) =>
                Some (VBool false, r')
            | String "n" (String "u" (String "l" (String "l" r'))) =>
                Some (VNull, r')
            | t => parse_number t
            end
      end
  end

with parse_members (fuel : nat) (s : string)
     : option (list (string * value) * string) :=
  match fuel with
  | O => None
  | S f =>
      match skip_ws s with
      | String "034" r =>
          match parse_chars (String.length s) r with
          | None => None
          | Some (k, r1) =>
              match skip_ws r1 with
              | String ":" r2 =>
                  match parse_value f r2 with
                  | None => None
                  | Some (v, r3) =>
                      match skip_ws r3 with
                      | String "," r4 =>
                          match parse_members f r4 with
                          | Some (ms, r5) => Some ((k, v) :: ms, r5)
                          | None => None
                          end
                      | String "}" r4 => Some ([(k, v)], r4)
                      | _ => None
                      end
                  end
              | _ => None
              end
          end
      | _ => None
      end
  end

with parse_elements (fuel : nat) (s : string)
     : option (list value * string) :=
  match fuel with
  | O => None
  | S f =>
      match parse_value f s with
      | None => None
      | Some (v, r1) =>
          match skip_ws r1 with
          | String "," r2 =>
              match parse_elements f r2 with
              | Some (vs, r3) => Some (v :: vs, r3)
              | None => None
              end
          | String "]" r2 => Some ([v], r2)
          | _ => None
          end
      end
  end.

(** [JSON.parse(text)]: [None] stands for the SyntaxError it throws. *)
Definition parse (text : string) : option value :=
  match parse_value (S (String.length text)) text with
  | Some (v, r) =>
      match skip_ws r with
      | EmptyString => Some v
      | _ => None
      end
  | None => None
  end.

End JSON.

(* ===================================================================== *)
(** ** String and array methods the handlers call *)
(* ===================================================================== *)

Module Str.

(** [s.startsWith(p)] is [String.prefix p s]. *)

(** [s.includes(sub)] *)
Fixpoint includes (sub s : string) : bool :=
  String.prefix sub s ||
  match s with
  | EmptyString => false
  | String _ r => includes sub r
  end.

(** [s.endsWith(suf)] *)
Definition ends_with (suf s : string) : bool :=
  let n := String.length suf in
  let m := String.length s in
  Nat.leb n m && String.eqb (substring (m - n) n s) suf.

Fixpoint drop (n : nat) (s : string) : string :=
  match n, s with
  | S n', String _ r => drop n' r
  | _, _ => s
  end.

(** [s.replace(pat, rep)] for a non-empty string pattern: the first
    occurrence only. *)
Fixpoint replace (pat rep s : string) : string :=
  if String.prefix pat s then String.append rep (drop (String.length pat) s)
  else match s with
       | EmptyString => EmptyString
       | String c r => String c (replace pat rep r)
       end.

Definition code (c : ascii) : Z := Z.of_N (N_of_ascii c).

Definition of_codes (l : list Z) : string :=
  fold_right (fun n s => String (ascii_of_N (Z.to_N n)) s) EmptyString l.

Definition lower (c : ascii) : ascii :=
  if (65 <=? code c) && (code c <=? 90)
  then ascii_of_N (Z.to_N (code c + 32)) else c.

(** [s.toLowerCase()] as far as it bears on ASCII: the letters A to Z,
    and the two characters outside ASCII whose lower case has an ASCII
    letter, U+212A (the Kelvin sign, to k) and U+0130 (to i and
    U+0307). Every other character outside ASCII is left as it is: its
    lower case is outside ASCII as well, and the program only searches
    the lowered text for ASCII words. *)
Fixpoint to_lower (s : string) : string :=
  match s with
  | EmptyString => EmptyString
  | String c r =>
      let plain := String (lower c) (to_lower r) in
      match r with
      | String d r' =>
          if (code c =? 196) && (code d =? 176)
          then String.append (of_codes [105; 204; 135]) (to_lower r')
          else
            match r' with
            | String e r'' =>
                if (code c =? 226) && (code d =? 132) && (code e =? 170)
                then String "k" (to_lower r'')
                else plain
            | EmptyString => plain
            end
      | EmptyString => plain
      end
  end.

(** The longest prefix without a slash, and what follows it. *)
Fixpoint segment (s : string) : string * string :=
  match s with
  | EmptyString => (EmptyString, EmptyString)
  | String c r =>
      if Ascii.eqb c "/" then (EmptyString, s)
      else let (a, b) := segment r in (String c a, b)
  end.

(** [path.match(/^src\/([^\/]+)\//)]: the captured group, if any. *)
Definition server_of_path (path : string) : option string :=
  match path with
  | String "s" (String "r" (String "c" (String "/" rest))) =>
      match segment rest with
      | (EmptyString, _) => None
      | (name, String _ _) => Some name
      | (_, EmptyString) => None
      end
  | _ => None
  end.

(** The code points of a string, each as a string (what iterating a
    string yields). A continuation byte stays with its lead byte. *)
Fixpoint code_points (s : string) : list string :=
  match s with
  | EmptyString => []
  | String c r =>
      let continues (b : ascii) :=
        (128 <=? code b) && (code b <? 192) in
      match code_points r with
      | p :: ps =>
          match r with
          | String d _ =>
              if continues d then String c p :: ps
              else String c EmptyString :: p :: ps
          | EmptyString => String c EmptyString :: p :: ps
          end
      | [] => [String c EmptyString]
      end
  end.

(** [s.length]: UTF-16 code units. *)
Fixpoint utf16_length (s : string) : Z :=
  match s with
  | EmptyString => 0
  | String c r =>
      (if (128 <=? code c) && (code c <? 192) then 0
       else if 240 <=? code c then 2 else 1) + utf16_length r
  end.

Definition is_word (c : ascii) : bool :=
  let n := code c in
  ((48 <=? n) && (n <=? 57)) || ((65 <=? n) && (n <=? 90))
  || ((97 <=? n) && (n <=? 122)) || (n =? 95).

(** The white space outside ASCII that [\s] matches, by its UTF-8
    encoding: U+00A0, U+1680, U+2000 to U+200A, U+2028, U+2029, U+202F,
    U+205F, U+3000 and U+FEFF. *)
Definition white_space_2 (a b : Z) : bool :=
  (a =? 194) && (b =? 160).

Definition white_space_3 (a b c : Z) : bool :=
  ((a =? 225) && (b =? 154) && (c =? 128))
  || ((a =? 226) && (b =? 128)
      && (((128 <=? c) && (c <=? 138)) || (c =? 168) || (c =? 169)
          || (c =? 175)))
  || ((a =? 226) && (b =? 129) && (c =? 159))
  || ((a =? 227) && (b =? 128) && (c =? 128))
  || ((a =? 239) && (b =? 187) && (c =? 191)).

(** The number of bytes of the character [[:\s]] matches at the head of
    [s]: [:], the white space of ASCII (tab to carriage return, and
    space), or white space outside ASCII; 0 if there is none. *)
Definition sep_len (s : string) : nat :=
  match s with
  | String c r =>
      let n := code c in
      if (n =? 58) || (n =? 32) || ((9 <=? n) && (n <=? 13)) then 1%nat
      else
        match r with
        | String d r' =>
            if white_space_2 n (code d) then 2%nat
            else
              match r' with
              | String e _ =>
                  if white_space_3 n (code d) (code e) then 3%nat
                  else 0%nat
              | EmptyString => 0%nat
              end
        | EmptyString => 0%nat
        end
  | EmptyString => 0%nat
  end.

Fixpoint skip_seps (fuel : nat) (s : string) : string :=
  match fuel with
  | O => s
  | S fuel' =>
      match sep_len s with
      | O => s
      | n => skip_seps fuel' (drop n s)
      end
  end.

(** What follows the separators at the head of [s]. *)
Definition skip_sep (s : string) : string :=
  skip_seps (String.length s) s.

Fixpoint word (s : string) : string :=
  match s with
  | String c r => if is_word c then String c (word r) else EmptyString
  | EmptyString => EmptyString
  end.

(** [s.match(/server[:\s]+(\w+)/)]: the captured group of the leftmost
    match, if any. *)
Fixpoint server_mention (s : string) : option string :=
  let here :=
    if String.prefix "server" s then
      match sep_len (drop 6 s) with
      | O => None
      | _ =>
          match word (skip_sep (drop 6 s)) with
          | EmptyString => None
          | w => Some w
          end
      end
    else None in
  match here with
  | Some w => Some w
  | None =>
      match s with
      | EmptyString => None
      | String _ r => server_mention r
      end
  end.

Fixpoint join (sep : string) (l : list string) : string :=
  match l with
  | [] => EmptyString
  | [x] => x
  | x :: r => String.append x (String.append sep (join sep r))
  end.

End Str.

(* ===================================================================== *)
(** ** Operations on values, and the collaborators of the handlers *)
(* ===================================================================== *)

Module Op.
Import JS.
Local Open Scope js_scope.

(** The receiver of a String.prototype method ([replace], [match],
    [toLowerCase], [endsWith]): anything but a string has no such
    method, and calling it is a TypeError. *)
Definition as_string (v : value) : M string :=
  match v with
  | VStr s => ret s
  | _ => throw TypeError
  end.

(** The receiver of [map] or [filter]. *)
Definition as_array (v : value) : M (list value) :=
  match v with
  | VArr l => ret l
  | _ => throw TypeError
  end.

(** What [for (const x of v)] and [...v] go through. *)
Definition iterate (v : value) : M (list value) :=
  match v with
  | VArr l => ret l
  | VStr s => ret (map VStr (Str.code_points s))
  | _ => throw TypeError
  end.

(** [v || []] *)
Definition or_empty (v : value) : value :=
  if truthy v then v else VArr [].

(** [v === 'lit'] *)
Definition is_str (lit : string) (v : value) : bool :=
  match v with
  | VStr s => String.eqb s lit
  | _ => false
  end.

(** [v.includes(x)] for a string [x]: strings and arrays have the
    method. *)
Definition includes (v : value) (x : string) : M bool :=
  match v with
  | VStr s => ret (Str.includes x s)
  | VArr l => ret (existsb (is_str x) l)
  | _ => throw TypeError
  end.

(** The evaluation of [v.p] where only a failure matters (the value
    goes to the log metadata). *)
Definition touch (v : value) : M unit :=
  if nullish v then throw TypeError else ret tt.

Fixpoint for_each {A} (l : list A) (f : A -> M unit) : M unit :=
  match l with
  | [] => ret tt
  | x :: r => f x ;; for_each r f
  end.

Fixpoint map_m {A B} (l : list A) (f : A -> M B) : M (list B) :=
  match l with
  | [] => ret []
  | x :: r => y <- f x ;; ys <- map_m r f ;; ret (y :: ys)
  end.

Fixpoint filter_m {A} (l : list A) (f : A -> M bool) : M (list A) :=
  match l with
  | [] => ret []
  | x :: r =>
      b <- f x ;; ys <- filter_m r f ;;
      ret (if b then x :: ys else ys)
  end.

(** [l.some(f)]: stops at the first element that satisfies [f]. *)
Fixpoint some_m {A} (l : list A) (f : A -> M bool) : M bool :=
  match l with
  | [] => ret false
  | x :: r => b <- f x ;; if b then ret true else some_m r f
  end.

Definition when (b : bool) (m : M unit) : M unit :=
  if b then m else ret tt.

(** [String(v)], the conversion of a value to text that a template
    literal [`${v}`] applies, or [None] where it is a TypeError. A plain
    object is converted by the method [toString] it finds: its own
    property of that name, which is no function (the values of a
    decoded text are data), so that neither it nor [valueOf], which
    gives back the object, yields a primitive; or else the one of
    Object.prototype. An array joins the texts of its elements, null
    and undefined counting as empty. *)
Fixpoint to_text (v : value) : option string :=
  match v with
  | VUndef => Some "undefined"
  | VNull => Some "null"
  | VBool true => Some "true"
  | VBool false => Some "false"
  | VNum m e => Some (Num.to_string m e)
  | VStr s => Some s
  | VArr l =>
      option_map (Str.join ",")
        (fold_right
           (fun x acc =>
              match (match x with
                     | VUndef | VNull => Some EmptyString
                     | _ => to_text x
                     end), acc with
              | Some s, Some ss => Some (s :: ss)
              | _, _ => None
              end)
           (Some []) l)
  | VObj fs =>
      if has_field "toString" fs then None else Some "[object Object]"
  end.

(** [`${v}`] *)
Definition text (v : value) : M string :=
  match to_text v with
  | Some s => ret s
  | None => throw TypeError
  end.

End Op.

(** Modelled from the spec: the Logger of [utils/logger.js], which is an
  external collaborator of the handlers (structured log formatting).
  A call records its level and its message and never fails. The
  metadata object is evaluated by the caller (which can throw) and is
  not recorded. *)
Module Logger.
Import JS.

Definition log (l : level) (msg : string) : M unit :=
  emit (Logged l msg).

Definition info := log Info.
Definition warn := log Warn.
Definition error := log Err.
Definition debug := log Debug.

End Logger.

(** The client of the platform's REST API (@octokit/rest), as far as the
  handlers use it: for each endpoint, the answer to a request (its
  [data]) or its rejection. The list endpoints answer with an array. *)
Module Octokit.
Import JS.
Local Open Scope js_scope.

Record client := {
  actions_createWorkflowDispatch : value -> error + unit;
  actions_listJobsForWorkflowRun : value -> error + value;
  pulls_listFiles : value -> error + list value;
  pulls_list : value -> error + list value;
  issues_addLabels : value -> error + unit;
  issues_createComment : value -> error + unit;
  issues_listForRepo : value -> error + list value;
  repos_compareCommits : value -> error + value;
  repos_listReleases : value -> error + list value }.

Definition present (octokit : option client) : bool :=
  match octokit with Some _ => true | None => false end.

(** [await this.octokit.<endpoint>(args)]. With [this.octokit] null the
    member access is a TypeError. *)
Definition request {A} (octokit : option client) (endpoint : string)
           (f : client -> value -> error + A) (args : value) : M A :=
  match octokit with
  | None => throw TypeError
  | Some c =>
      emit (ApiCall endpoint args) ;;
      match f c args with
      | inl e => throw e
      | inr a => ret a
      end
  end.

(** [{ owner: repository.owner.login, repo: repository.name }] *)
Definition repo_args (repository : value) : M (list (string * value)) :=
  owner <- get repository "owner" ;;
  login <- get owner "login" ;;
  name <- get repository "name" ;;
  ret [("owner", login); ("repo", name)].

End Octokit.

(* ===================================================================== *)
(** ** handlers/push.ts *)
(* ===================================================================== *)

Module PushHandler.
Import JS Op Octokit.
Local Open Scope js_scope.

(** [servers.add(name)] on a Set kept in insertion order. *)
Definition set_add (name : string) (servers : list string) : list string :=
  if existsb (String.eqb name) servers then servers else servers ++ [name].

(** [[...(commit.added || []), ...(commit.modified || []),
      ...(commit.removed || [])]] *)
Definition changedFiles (commit : value) : M (list value) :=
  a <- get commit "added" ;;
  xs <- iterate (or_empty a) ;;
  m <- get commit "modified" ;;
  ys <- iterate (or_empty m) ;;
  r <- get commit "removed" ;;
  zs <- iterate (or_empty r) ;;
  ret (xs ++ ys ++ zs).

(** The inner loop of [getAffectedServers]. *)
Fixpoint scan_files (files : list value) (servers : list string)
  : M (list string) :=
  match files with
  | [] => ret servers
  | file :: rest =>
      path <- as_string file ;;
      scan_files rest
        match Str.server_of_path path with
        | Some name => set_add name servers
        | None => servers
        end
  end.

Fixpoint scan_commits (commits : list value) (servers : list string)
  : M (list string) :=
  match commits with
  | [] => ret servers
  | commit :: rest =>
      files <- changedFiles commit ;;
      servers' <- scan_files files servers ;;
      scan_commits rest servers'
  end.

Definition getAffectedServers (commits : value) : M (list string) :=
  cs <- iterate commits ;;
  scan_commits cs [].

Definition importantFiles : list string :=
  ["package.json"; "pyproject.toml"; ".github/workflows/"; "README.md"].

Definition is_important (file : value) : M bool :=
  some_m importantFiles (fun important => includes file important).

Section WithClient.
Variable octokit : option client.

Definition triggerServerTests (repository : value)
             (servers : list string) : M unit :=
    if negb (present octokit) then ret tt
    else
      touch repository ;;
      Logger.info "Triggering tests for affected servers" ;;
      for_each servers (fun server =>
        Logger.info
          (String.append "Would trigger tests for server: " server)).

Definition handleMainBranchPush (payload : value) : M unit :=
    repository <- get payload "repository" ;;
    commits <- get payload "commits" ;;
    touch repository ;;
    touch commits ;;
    Logger.info "Main branch push detected" ;;
    affectedServers <- getAffectedServers commits ;;
    match affectedServers with
    | [] => ret tt
    | _ :: _ =>
        touch repository ;;
        Logger.info "Server packages affected by push" ;;
        triggerServerTests repository affectedServers
    end.

Definition handleReleaseBranchPush (payload : value) : M unit :=
    repository <- get payload "repository" ;;
    ref <- get payload "ref" ;;
    r <- as_string ref ;;
    let branch := Str.replace "refs/heads/" EmptyString r in
    touch repository ;;
    Logger.info "Release branch push detected" ;;
    if present octokit then
      try_catch
        (ra <- repo_args repository ;;
         request octokit "actions.createWorkflowDispatch"
           actions_createWorkflowDispatch
           (VObj (ra ++ [("workflow_id", VStr "release.yml");
                         ("ref", VStr branch)])) ;;
         Logger.info "Triggered release workflow")
        (fun _ => Logger.error "Failed to trigger release workflow")
    else ret tt.

Definition checkForImportantFileChanges (payload : value) : M unit :=
    commits <- get payload "commits" ;;
    repository <- get payload "repository" ;;
    cs <- iterate commits ;;
    for_each cs (fun commit =>
      files <- changedFiles commit ;;
      importantChanges <- filter_m files is_important ;;
      match importantChanges with
      | [] => ret tt
      | _ :: _ =>
          touch commit ;;
          touch repository ;;
          Logger.info "Important files changed in commit"
      end).

Definition handle (payload : value) : M unit :=
    repository <- get payload "repository" ;;
    ref <- get payload "ref" ;;
    commits <- get payload "commits" ;;
    pusher <- get payload "pusher" ;;
    r <- as_string ref ;;
    let branch := Str.replace "refs/heads/" EmptyString r in
    touch repository ;;
    touch commits ;;
    touch pusher ;;
    Logger.info "Processing push event" ;;
    when (String.eqb branch "main" || String.eqb branch "master")
         (handleMainBranchPush payload) ;;
    when (String.prefix "release/" branch)
         (handleReleaseBranchPush payload) ;;
    checkForImportantFileChanges payload.

End WithClient.

End PushHandler.

(* ===================================================================== *)
(** ** handlers/pullRequest.ts *)
(* ===================================================================== *)

Module PullRequestHandler.
Import JS Op Octokit.
Local Open Scope js_scope.

Fixpoint scan_paths (paths : list value) (servers : list string)
  : M (list string) :=
  match paths with
  | [] => ret servers
  | path :: rest =>
      p <- as_string path ;;
      scan_paths rest
        match Str.server_of_path p with
        | Some name => PushHandler.set_add name servers
        | None => servers
        end
  end.

Definition getAffectedServersFromPaths (paths : list value)
  : M (list string) :=
  scan_paths paths [].

Definition affected_comment (servers : list string) : string :=
  String.append "🔍 **Affected Servers**: "
    (String.append
       (Str.join ", "
          (map (fun s => String.append "`" (String.append s "`")) servers))
       "

This PR modifies the following server packages. Please ensure appropriate testing is performed.").

Definition welcome_comment (login : string) : string :=
  String.append
    "👋 Welcome to the Model Context Protocol servers repository, @"
    (String.append login "!

Thank you for your first contribution! Here are a few things to keep in mind:

- 📋 Please ensure your PR follows our [contribution guidelines](CONTRIBUTING.md)
- 🧪 Run tests locally before pushing: `npm test`
- 📝 Update documentation if you're adding new features
- 🏷️ I've automatically added some labels based on the files you've changed

A maintainer will review your PR soon. Thanks for contributing to MCP! 🚀").

Section WithClient.
Variable octokit : option client.

  (** [{ owner, repo, <key>: pullRequest.number }] *)
Definition pr_args (key : string) (repository pullRequest : value)
    : M (list (string * value)) :=
    ra <- repo_args repository ;;
    number <- get pullRequest "number" ;;
    ret (ra ++ [(key, number)]).

Definition addLabelsBasedOnChanges (repository pullRequest : value)
    : M unit :=
    if negb (present octokit) then ret tt
    else
      try_catch
        (args <- pr_args "pull_number" repository pullRequest ;;
         files <- request octokit "pulls.listFiles" pulls_listFiles
                    (VObj args) ;;
         changedPaths <- map_m files (fun file => get file "filename") ;;
         doc <- some_m changedPaths (fun path =>
                  p <- as_string path ;; ret (Str.ends_with ".md" p)) ;;
         ci <- some_m changedPaths (fun path =>
                 includes path ".github/workflows") ;;
         affectedServers <- getAffectedServersFromPaths changedPaths ;;
         deps <- some_m changedPaths (fun path =>
                   b <- includes path "package.json" ;;
                   if b then ret true else includes path "pyproject.toml") ;;
         let labels :=
           (if doc then ["documentation"] else [])
           ++ (if ci then ["ci/cd"] else [])
           ++ map (String.append "server:") affectedServers
           ++ (if deps then ["dependencies"] else []) in
         match labels with
         | [] => ret tt
         | _ :: _ =>
             args' <- pr_args "issue_number" repository pullRequest ;;
             request octokit "issues.addLabels" issues_addLabels
               (VObj (args' ++ [("labels", VArr (map VStr labels))])) ;;
             touch pullRequest ;;
             Logger.info "Added labels to PR"
         end)
        (fun _ =>
           touch pullRequest ;;
           Logger.error "Failed to add labels to PR").

Definition checkAffectedServers (repository pullRequest : value)
    : M unit :=
    if negb (present octokit) then ret tt
    else
      try_catch
        (args <- pr_args "pull_number" repository pullRequest ;;
         files <- request octokit "pulls.listFiles" pulls_listFiles
                    (VObj args) ;;
         changedPaths <- map_m files (fun file => get file "filename") ;;
         affectedServers <- getAffectedServersFromPaths changedPaths ;;
         match affectedServers with
         | [] => ret tt
         | _ :: _ =>
             touch pullRequest ;;
             Logger.info "PR affects server packages" ;;
             args' <- pr_args "issue_number" repository pullRequest ;;
             request octokit "issues.createComment" issues_createComment
               (VObj (args' ++
                      [("body", VStr (affected_comment affectedServers))]))
         end)
        (fun _ =>
           touch pullRequest ;;
           Logger.error "Failed to check affected servers").

Definition addWelcomeComment (repository pullRequest : value) : M unit :=
    if negb (present octokit) then ret tt
    else
      try_catch
        (ra <- repo_args repository ;;
         user <- get pullRequest "user" ;;
         login <- get user "login" ;;
         contributions <-
           request octokit "pulls.list" pulls_list
             (VObj (ra ++ [("creator", login); ("state", VStr "all")])) ;;
         match contributions with
         | [_] =>
             user' <- get pullRequest "user" ;;
             login' <- get user' "login" ;;
             author <- text login' ;;
             args <- pr_args "issue_number" repository pullRequest ;;
             request octokit "issues.createComment" issues_createComment
               (VObj (args ++ [("body", VStr (welcome_comment author))])) ;;
             touch pullRequest ;;
             user'' <- get pullRequest "user" ;;
             touch user'' ;;
             Logger.info "Added welcome comment for first-time contributor"
         | _ => ret tt
         end)
        (fun _ =>
           touch pullRequest ;;
           Logger.error "Failed to add welcome comment").

Definition requestReviewers (repository pullRequest : value) : M unit :=
    if negb (present octokit) then ret tt
    else
      touch pullRequest ;;
      touch repository ;;
      Logger.info "Would assign reviewers for PR".

  (** [{ pull_request, repository } = payload] and the metadata
      [repository.full_name, pull_request.number] that every
      action-specific method logs first. *)
Definition pr_and_repo (payload : value) : M (value * value) :=
    pull_request <- get payload "pull_request" ;;
    repository <- get payload "repository" ;;
    touch repository ;;
    touch pull_request ;;
    ret (pull_request, repository).

Definition handlePROpened (payload : value) : M unit :=
    pr <- pr_and_repo payload ;;
    let (pull_request, repository) := pr in
    user <- get pull_request "user" ;;
    touch user ;;
    Logger.info "New pull request opened" ;;
    addLabelsBasedOnChanges repository pull_request ;;
    checkAffectedServers repository pull_request ;;
    addWelcomeComment repository pull_request.

Definition handlePRSynchronized (payload : value) : M unit :=
    pr <- pr_and_repo payload ;;
    let (pull_request, repository) := pr in
    Logger.info "Pull request synchronized (new commits)" ;;
    checkAffectedServers repository pull_request.

Definition handlePRMerged (payload : value) : M unit :=
    pr <- pr_and_repo payload ;;
    let (pull_request, repository) := pr in
    base <- get pull_request "base" ;;
    touch base ;;
    Logger.info "Pull request merged" ;;
    base' <- get pull_request "base" ;;
    ref <- get base' "ref" ;;
    when (is_str "main" ref)
      (Logger.info "PR merged to main branch, considering release impact").

Definition handlePRClosed (payload : value) : M unit :=
    pull_request <- get payload "pull_request" ;;
    repository <- get payload "repository" ;;
    merged <- get pull_request "merged" ;;
    touch repository ;;
    Logger.info
      (String.append "Pull request "
         (if truthy merged then "merged" else "closed")) ;;
    when (truthy merged) (handlePRMerged payload).

Definition handlePRReadyForReview (payload : value) : M unit :=
    pr <- pr_and_repo payload ;;
    let (pull_request, repository) := pr in
    Logger.info "Pull request ready for review" ;;
    requestReviewers repository pull_request.

Definition handle (payload : value) : M unit :=
    action <- get payload "action" ;;
    pull_request <- get payload "pull_request" ;;
    repository <- get payload "repository" ;;
    touch repository ;;
    touch pull_request ;;
    user <- get pull_request "user" ;;
    touch user ;;
    Logger.info "Processing pull request event" ;;
    if is_str "opened" action then handlePROpened payload
    else if is_str "synchronize" action then handlePRSynchronized payload
    else if is_str "closed" action then handlePRClosed payload
    else if is_str "ready_for_review" action
    then handlePRReadyForReview payload
    else
      a <- text action ;;
      Logger.debug (String.append "Unhandled PR action: " a).

End WithClient.

End PullRequestHandler.

(* ===================================================================== *)
(** ** handlers/issues.ts *)
(* ===================================================================== *)

Module IssuesHandler.
Import JS Op Octokit.
Local Open Scope js_scope.

Definition welcome_comment (login : string) : string :=
  String.append
    "👋 Welcome to the Model Context Protocol servers repository, @"
    (String.append login "!

Thank you for opening your first issue! Here are a few things to help us help you:

- 🐛 **Bug reports**: Please include steps to reproduce, expected behavior, and actual behavior
- 💡 **Feature requests**: Please describe the use case and why this would be valuable
- ❓ **Questions**: Check our [documentation](README.md) first, and feel free to ask for clarification

A maintainer will review your issue soon. Thanks for contributing to MCP! 🚀").

(** [issue.title.toLowerCase()] and [(issue.body || '').toLowerCase()] *)
Definition title_and_body (issue : value) : M (string * string) :=
  t <- get issue "title" ;;
  title <- as_string t ;;
  b <- get issue "body" ;;
  body <- as_string (if truthy b then b else VStr EmptyString) ;;
  ret (Str.to_lower title, Str.to_lower body).

Definition any_in (words : list string) (text : string) : bool :=
  existsb (fun w => Str.includes w text) words.

(** The labels [autoLabelIssue] derives from the lowered title and
    body, in the order it pushes them. *)
Definition labels_for (title body : string) : list string :=
  (if any_in ["bug"; "error"; "issue"] title
      || any_in ["bug"; "error"; "broken"] body
   then ["bug"] else [])
  ++ (if any_in ["feature"; "enhancement"; "add"] title
         || any_in ["feature request"; "enhancement"] body
      then ["enhancement"] else [])
  ++ (if any_in ["doc"; "readme"] title
         || any_in ["documentation"; "docs"] body
      then ["documentation"] else [])
  ++ (if any_in ["question"; "how to"] title
         || Str.includes "question" body || Str.includes "?" title
      then ["question"] else []).

Section WithClient.
Variable octokit : option client.

Definition issue_args (repository issue : value)
    : M (list (string * value)) :=
    ra <- repo_args repository ;;
    number <- get issue "number" ;;
    ret (ra ++ [("issue_number", number)]).

Definition autoLabelIssue (repository issue : value) : M unit :=
    if negb (present octokit) then ret tt
    else
      tb <- title_and_body issue ;;
      let (title, body) := tb in
      let labels := labels_for title body in
      match labels with
      | [] => ret tt
      | _ :: _ =>
          try_catch
            (args <- issue_args repository issue ;;
             request octokit "issues.addLabels" issues_addLabels
               (VObj (args ++ [("labels", VArr (map VStr labels))])) ;;
             touch issue ;;
             Logger.info "Auto-labeled issue")
            (fun _ => Logger.error "Failed to auto-label issue")
      end.

Definition addWelcomeComment (repository issue : value) : M unit :=
    if negb (present octokit) then ret tt
    else
      try_catch
        (ra <- repo_args repository ;;
         user <- get issue "user" ;;
         login <- get user "login" ;;
         userIssues <-
           request octokit "issues.listForRepo" issues_listForRepo
             (VObj (ra ++ [("creator", login); ("state", VStr "all")])) ;;
         match userIssues with
         | [_] =>
             user' <- get issue "user" ;;
             login' <- get user' "login" ;;
             author <- text login' ;;
             args <- issue_args repository issue ;;
             request octokit "issues.createComment" issues_createComment
               (VObj (args ++ [("body", VStr (welcome_comment author))])) ;;
             touch issue ;;
             user'' <- get issue "user" ;;
             touch user'' ;;
             Logger.info "Added welcome comment for first-time issue creator"
         | _ => ret tt
         end)
        (fun _ => Logger.error "Failed to add welcome comment to issue").

  (** [if (this.octokit) { try { addLabels(labels) } catch { log } }] *)
Definition add_labels_if_client (repository issue : value)
             (labels : list string) (failure : string) : M unit :=
    if present octokit then
      try_catch
        (args <- issue_args repository issue ;;
         request octokit "issues.addLabels" issues_addLabels
           (VObj (args ++ [("labels", VArr (map VStr labels))])))
        (fun _ => Logger.error failure)
    else ret tt.

Definition categorizeIssue (repository issue : value) : M unit :=
    tb <- title_and_body issue ;;
    let (title, body) := tb in
    let serverMatches :=
      match Str.server_mention title with
      | Some m => Some m
      | None => Str.server_mention body
      end in
    match serverMatches with
    | Some serverName =>
        touch issue ;;
        Logger.info "Issue relates to specific server" ;;
        add_labels_if_client repository issue
          [String.append "server:" serverName]
          "Failed to add server label"
    | None => ret tt
    end ;;
    when (any_in ["urgent"; "critical"] title
          || any_in ["urgent"; "critical"] body)
      (touch issue ;;
       Logger.info "High priority issue detected" ;;
       add_labels_if_client repository issue ["priority:high"]
         "Failed to add priority label").

  (** [{ issue, repository } = payload] and the metadata
      [repository.full_name, issue.number]. *)
Definition issue_and_repo (payload : value) : M (value * value) :=
    issue <- get payload "issue" ;;
    repository <- get payload "repository" ;;
    touch repository ;;
    touch issue ;;
    ret (issue, repository).

Definition handleIssueOpened (payload : value) : M unit :=
    ir <- issue_and_repo payload ;;
    let (issue, repository) := ir in
    user <- get issue "user" ;;
    touch user ;;
    Logger.info "New issue opened" ;;
    autoLabelIssue repository issue ;;
    addWelcomeComment repository issue ;;
    categorizeIssue repository issue.

Definition handleIssueClosed (payload : value) : M unit :=
    ir <- issue_and_repo payload ;;
    Logger.info "Issue closed".

Definition handleIssueLabeled (payload : value) : M unit :=
    issue <- get payload "issue" ;;
    label <- get payload "label" ;;
    repository <- get payload "repository" ;;
    touch repository ;;
    touch issue ;;
    touch label ;;
    Logger.info "Issue labeled".

Definition handleIssueAssigned (payload : value) : M unit :=
    issue <- get payload "issue" ;;
    assignee <- get payload "assignee" ;;
    repository <- get payload "repository" ;;
    touch repository ;;
    touch issue ;;
    touch assignee ;;
    Logger.info "Issue assigned".

Definition handle (payload : value) : M unit :=
    action <- get payload "action" ;;
    issue <- get payload "issue" ;;
    repository <- get payload "repository" ;;
    touch repository ;;
    touch issue ;;
    user <- get issue "user" ;;
    touch user ;;
    Logger.info "Processing issues event" ;;
    if is_str "opened" action then handleIssueOpened payload
    else if is_str "closed" action then handleIssueClosed payload
    else if is_str "labeled" action then handleIssueLabeled payload
    else if is_str "assigned" action then handleIssueAssigned payload
    else
      a <- text action ;;
      Logger.debug (String.append "Unhandled issue action: " a).

End WithClient.

End IssuesHandler.

(* ===================================================================== *)
(** ** handlers/repository.ts *)
(* ===================================================================== *)

Module RepositoryHandler.
Import JS Op Octokit.
Local Open Scope js_scope.

Section WithClient.
Variable octokit : option client.

  (** Each action-specific method reads [repository] from the payload,
      logs, and calls a set-up method that logs too; every log takes
      [repository.full_name]. *)
Definition two_logs (payload : value) (first second : string) : M unit :=
    repository <- get payload "repository" ;;
    touch repository ;;
    Logger.info first ;;
    touch repository ;;
    Logger.info second.

Definition handleRepositoryCreated (payload : value) : M unit :=
    two_logs payload "Repository created" "Setting up new repository".

Definition handleRepositoryDeleted (payload : value) : M unit :=
    two_logs payload "Repository deleted" "Cleaning up deleted repository".

Definition handleRepositoryArchived (payload : value) : M unit :=
    two_logs payload "Repository archived" "Handling repository archival".

Definition handleRepositoryUnarchived (payload : value) : M unit :=
    two_logs payload "Repository unarchived"
      "Handling repository reactivation".

Definition handleRepositoryPublicized (payload : value) : M unit :=
    two_logs payload "Repository made public"
      "Setting up public repository".

Definition handleRepositoryPrivatized (payload : value) : M unit :=
    two_logs payload "Repository made private"
      "Setting up private repository".

Definition handle (payload : value) : M unit :=
    action <- get payload "action" ;;
    repository <- get payload "repository" ;;
    touch repository ;;
    Logger.info "Processing repository event" ;;
    if is_str "created" action then handleRepositoryCreated payload
    else if is_str "deleted" action then handleRepositoryDeleted payload
    else if is_str "archived" action then handleRepositoryArchived payload
    else if is_str "unarchived" action
    then handleRepositoryUnarchived payload
    else if is_str "publicized" action
    then handleRepositoryPublicized payload
    else if is_str "privatized" action
    then handleRepositoryPrivatized payload
    else
      a <- text action ;;
      Logger.debug (String.append "Unhandled repository action: " a).

End WithClient.

End RepositoryHandler.

(* ===================================================================== *)
(** ** handlers/release.ts *)
(* ===================================================================== *)

Module ReleaseHandler.
Import JS Op Octokit.
Local Open Scope js_scope.

Definition requiredSections : list string :=
  ["## What's Changed"; "## New Features"; "## Bug Fixes"].

Definition getNpmPackages : list string :=
  ["@modelcontextprotocol/server-webhooks"].

Definition getPyPIPackages : list string := [].

(** [{ release, repository } = payload] and the metadata
    [repository.full_name, release.tag_name]. *)
Definition release_and_repo (payload : value) : M (value * value) :=
  release <- get payload "release" ;;
  repository <- get payload "repository" ;;
  touch repository ;;
  touch release ;;
  ret (release, repository).

Definition validateReleaseNotes (repository release : value) : M unit :=
  body <- get release "body" ;;
  let releaseNotes := if truthy body then body else VStr EmptyString in
  touch repository ;;
  Logger.info "Validating release notes" ;;
  missingSections <-
    filter_m requiredSections (fun section =>
      b <- includes releaseNotes section ;; ret (negb b)) ;;
  match missingSections with
  | [] => ret tt
  | _ :: _ => Logger.warn "Release notes missing recommended sections"
  end ;;
  notes <- as_string releaseNotes ;;
  when (Str.includes "breaking" (Str.to_lower notes)
        && negb (Str.includes "⚠️" notes))
    (Logger.warn "Breaking changes detected but no warning emoji found").

Definition notifyNewRelease (repository release : value) : M unit :=
  touch repository ;;
  touch release ;;
  Logger.info "Notifying about new release" ;;
  prerelease <- get release "prerelease" ;;
  if negb (truthy prerelease)
  then Logger.info "Stable release published - triggering notifications"
  else Logger.info "Pre-release published - limited notifications".

Section WithClient.
Variable octokit : option client.

Definition verifyNpmPackages (repository release : value) : M unit :=
    if negb (present octokit) then ret tt
    else
      try_catch
        (for_each getNpmPackages (fun packageName =>
           touch release ;;
           Logger.info
             (String.append "Verifying npm package: " packageName)))
        (fun _ => Logger.error "Failed to verify npm packages").

Definition verifyPyPIPackages (repository release : value) : M unit :=
    if negb (present octokit) then ret tt
    else
      try_catch
        (for_each getPyPIPackages (fun packageName =>
           touch release ;;
           Logger.info
             (String.append "Verifying PyPI package: " packageName)))
        (fun _ => Logger.error "Failed to verify PyPI packages").

Definition updatePackageRegistries (repository release : value)
    : M unit :=
    touch repository ;;
    touch release ;;
    Logger.info "Checking package registry updates" ;;
    verifyNpmPackages repository release ;;
    verifyPyPIPackages repository release.

Definition getPreviousReleaseTag (repository : value) : M value :=
    if negb (present octokit) then ret (VStr "HEAD~10")
    else
      try_catch
        (ra <- repo_args repository ;;
         releases <-
           request octokit "repos.listReleases" repos_listReleases
             (VObj (ra ++ [("per_page", VNum 2 0)])) ;;
         match releases with
         | _ :: previous :: _ => get previous "tag_name"
         | _ => ret (VStr "HEAD~10")
         end)
        (fun _ =>
           Logger.error "Failed to get previous release tag" ;;
           ret (VStr "HEAD~10")).

Definition generateReleaseMetrics (repository release : value)
    : M unit :=
    touch repository ;;
    touch release ;;
    Logger.info "Generating release metrics" ;;
    if present octokit then
      try_catch
        (ra <- repo_args repository ;;
         base <- getPreviousReleaseTag repository ;;
         head <- get release "tag_name" ;;
         commits <-
           request octokit "repos.compareCommits" repos_compareCommits
             (VObj (ra ++ [("base", base); ("head", head)])) ;;
         cs <- get commits "commits" ;;
         (if nullish cs then ret tt
          else
            l <- as_array cs ;;
            for_each l (fun c => author <- get c "author" ;; ret tt)) ;;
         Logger.info "Release metrics calculated")
        (fun _ => Logger.error "Failed to generate release metrics")
    else ret tt.

Definition handleReleasePublished (payload : value) : M unit :=
    rr <- release_and_repo payload ;;
    let (release, repository) := rr in
    Logger.info "Release published" ;;
    notifyNewRelease repository release ;;
    updatePackageRegistries repository release ;;
    generateReleaseMetrics repository release.

Definition handleReleaseCreated (payload : value) : M unit :=
    rr <- release_and_repo payload ;;
    let (release, repository) := rr in
    Logger.info "Release created (draft)" ;;
    validateReleaseNotes repository release.

Definition handleReleaseEdited (payload : value) : M unit :=
    rr <- release_and_repo payload ;;
    let (release, repository) := rr in
    Logger.info "Release edited" ;;
    validateReleaseNotes repository release.

Definition handleReleaseDeleted (payload : value) : M unit :=
    rr <- release_and_repo payload ;;
    Logger.info "Release deleted".

Definition handle (payload : value) : M unit :=
    action <- get payload "action" ;;
    release <- get payload "release" ;;
    repository <- get payload "repository" ;;
    touch repository ;;
    Logger.info "Processing release event" ;;
    if is_str "published" action then handleReleasePublished payload
    else if is_str "created" action then handleReleaseCreated payload
    else if is_str "edited" action then handleReleaseEdited payload
    else if is_str "deleted" action then handleReleaseDeleted payload
    else
      a <- text action ;;
      Logger.debug (String.append "Unhandled release action: " a).

End WithClient.

End ReleaseHandler.

(* ===================================================================== *)
(** ** handlers/workflow.ts *)
(* ===================================================================== *)

Module WorkflowHandler.
Import JS Op Octokit.
Local Open Scope js_scope.

(** [{ workflow_run, repository } = payload] and the metadata
    [repository.full_name, workflow_run.name]. *)
Definition run_and_repo (payload : value) : M (value * value) :=
  workflow_run <- get payload "workflow_run" ;;
  repository <- get payload "repository" ;;
  touch repository ;;
  touch workflow_run ;;
  ret (workflow_run, repository).

(** [workflowRun.actor.login] *)
Definition actor_login (workflowRun : value) : M unit :=
  actor <- get workflowRun "actor" ;;
  touch actor.

(** [new Date(v)] turns an object or an array into a primitive first,
    which is a TypeError where the conversion to text is one; any
    primitive makes a date, valid or not, and the rest is arithmetic on
    numbers. The duration goes to the log metadata. *)
Definition calculateDuration (startTime endTime : value) : M unit :=
  text startTime ;;
  text endTime ;;
  ret tt.

(** [this.calculateDuration(workflow_run.created_at,
    workflow_run.updated_at)] *)
Definition duration_of (workflowRun : value) : M unit :=
  created_at <- get workflowRun "created_at" ;;
  updated_at <- get workflowRun "updated_at" ;;
  calculateDuration created_at updated_at.

Definition trackWorkflowMetrics (repository workflowRun : value)
           (status : string) : M unit :=
  touch repository ;;
  touch workflowRun ;;
  duration_of workflowRun ;;
  actor_login workflowRun ;;
  Logger.info "Workflow metrics".

Definition notifyWorkflowFailure (repository workflowRun : value)
  : M unit :=
  name <- get workflowRun "name" ;;
  when (is_str "Automatic Release Creation" name
        || is_str "Security Scan" name)
    (touch repository ;;
     Logger.error "Critical workflow failure detected") ;;
  branch <- get workflowRun "head_branch" ;;
  when (is_str "main" branch || is_str "master" branch)
    (touch repository ;;
     Logger.error "Main branch workflow failure").

Definition handleReleaseWorkflowSuccess (payload : value) : M unit :=
  rr <- run_and_repo payload ;;
  Logger.info "Release workflow completed successfully".

Definition handleTestWorkflowSuccess (payload : value) : M unit :=
  rr <- run_and_repo payload ;;
  Logger.info "Test workflow completed successfully".

Definition handleWorkflowSuccess (payload : value) : M unit :=
  rr <- run_and_repo payload ;;
  let (workflow_run, repository) := rr in
  Logger.info "Workflow succeeded" ;;
  name <- get workflow_run "name" ;;
  (if is_str "Automatic Release Creation" name
   then handleReleaseWorkflowSuccess payload
   else if is_str "TypeScript" name || is_str "Python" name
   then handleTestWorkflowSuccess payload
   else
     n <- text name ;;
     Logger.debug
       (String.append "No specific handler for successful workflow: " n)) ;;
  trackWorkflowMetrics repository workflow_run "success".

Definition handleWorkflowCancelled (payload : value) : M unit :=
  rr <- run_and_repo payload ;;
  let (workflow_run, repository) := rr in
  Logger.info "Workflow cancelled" ;;
  trackWorkflowMetrics repository workflow_run "cancelled".

Definition handleWorkflowTimedOut (payload : value) : M unit :=
  rr <- run_and_repo payload ;;
  let (workflow_run, repository) := rr in
  duration_of workflow_run ;;
  Logger.warn "Workflow timed out" ;;
  trackWorkflowMetrics repository workflow_run "timeout".

Definition handleWorkflowRequested (payload : value) : M unit :=
  rr <- run_and_repo payload ;;
  let (workflow_run, repository) := rr in
  actor_login workflow_run ;;
  Logger.info "Workflow requested" ;;
  trackWorkflowMetrics repository workflow_run "requested".

Definition handleWorkflowInProgress (payload : value) : M unit :=
  rr <- run_and_repo payload ;;
  let (workflow_run, repository) := rr in
  Logger.info "Workflow in progress" ;;
  trackWorkflowMetrics repository workflow_run "in_progress".

Section WithClient.
Variable octokit : option client.

Definition analyzeWorkflowFailure (repository workflowRun : value)
    : M unit :=
    if negb (present octokit) then ret tt
    else
      try_catch
        (ra <- repo_args repository ;;
         id <- get workflowRun "id" ;;
         jobs <-
           request octokit "actions.listJobsForWorkflowRun"
             actions_listJobsForWorkflowRun
             (VObj (ra ++ [("run_id", id)])) ;;
         jj <- get jobs "jobs" ;;
         all <- as_array jj ;;
         failedJobs <- filter_m all (fun job =>
                         c <- get job "conclusion" ;;
                         ret (is_str "failure" c)) ;;
         touch workflowRun ;;
         Logger.error "Workflow failure analysis" ;;
         for_each failedJobs (fun job =>
           name <- get job "name" ;;
           n <- text name ;;
           steps <- get job "steps" ;;
           (if nullish steps then ret tt
            else
              l <- as_array steps ;;
              for_each l (fun step =>
                c <- get step "conclusion" ;; ret tt)) ;;
           Logger.error (String.append "Failed job: " n)))
        (fun _ => Logger.error "Failed to analyze workflow failure").

Definition handleWorkflowFailure (payload : value) : M unit :=
    rr <- run_and_repo payload ;;
    let (workflow_run, repository) := rr in
    actor_login workflow_run ;;
    Logger.error "Workflow failed" ;;
    analyzeWorkflowFailure repository workflow_run ;;
    notifyWorkflowFailure repository workflow_run ;;
    trackWorkflowMetrics repository workflow_run "failure".

Definition handleWorkflowCompleted (payload : value) : M unit :=
    rr <- run_and_repo payload ;;
    let (workflow_run, repository) := rr in
    duration_of workflow_run ;;
    Logger.info "Workflow completed" ;;
    conclusion <- get workflow_run "conclusion" ;;
    if is_str "success" conclusion then handleWorkflowSuccess payload
    else if is_str "failure" conclusion then handleWorkflowFailure payload
    else if is_str "cancelled" conclusion
    then handleWorkflowCancelled payload
    else if is_str "timed_out" conclusion
    then handleWorkflowTimedOut payload
    else ret tt.

Definition handle (payload : value) : M unit :=
    action <- get payload "action" ;;
    workflow_run <- get payload "workflow_run" ;;
    repository <- get payload "repository" ;;
    touch repository ;;
    touch workflow_run ;;
    Logger.info "Processing workflow event" ;;
    if is_str "completed" action then handleWorkflowCompleted payload
    else if is_str "requested" action then handleWorkflowRequested payload
    else if is_str "in_progress" action
    then handleWorkflowInProgress payload
    else
      a <- text action ;;
      Logger.debug (String.append "Unhandled workflow action: " a).

End WithClient.

End WorkflowHandler.

(* ===================================================================== *)
(** ** handlers/index.ts *)
(* ===================================================================== *)

Module WebhookHandlers.
Import JS Op.
Local Open Scope js_scope.

(** The six handler objects a [WebhookHandlers] holds, each by its
    [handle] method. *)
Record t := {
  pushHandler : value -> M unit;
  pullRequestHandler : value -> M unit;
  releaseHandler : value -> M unit;
  workflowHandler : value -> M unit;
  issuesHandler : value -> M unit;
  repositoryHandler : value -> M unit }.

(** [new WebhookHandlers(octokit)] *)
Definition create (octokit : option Octokit.client) : t :=
  {| pushHandler := PushHandler.handle octokit;
     pullRequestHandler := PullRequestHandler.handle octokit;
     releaseHandler := ReleaseHandler.handle octokit;
     workflowHandler := WorkflowHandler.handle octokit;
     issuesHandler := IssuesHandler.handle octokit;
     repositoryHandler := RepositoryHandler.handle |}.

Definition handler_of (hs : t) (h : handler_name) : value -> M unit :=
  match h with
  | Push => pushHandler hs
  | PullRequest => pullRequestHandler hs
  | Release => releaseHandler hs
  | WorkflowRun => workflowHandler hs
  | Issues => issuesHandler hs
  | Repository => repositoryHandler hs
  end.

(** [return this.<h>Handler.handle(payload)]; the entry into [handle]
    is recorded. *)
Definition invoke (hs : t) (h : handler_name) (payload : value) : M unit :=
  emit (Handled h payload) ;;
  handler_of hs h payload.

Definition onPush (hs : t) := invoke hs Push.
Definition onPullRequest (hs : t) := invoke hs PullRequest.
Definition onRelease (hs : t) := invoke hs Release.
Definition onWorkflowRun (hs : t) := invoke hs WorkflowRun.
Definition onIssues (hs : t) := invoke hs Issues.
Definition onRepository (hs : t) := invoke hs Repository.

(** The [switch (eventName)] of [handleEvent]. *)
Definition registered (eventName : value) : option handler_name :=
  if is_str "push" eventName then Some Push
  else if is_str "pull_request" eventName then Some PullRequest
  else if is_str "release" eventName then Some Release
  else if is_str "workflow_run" eventName then Some WorkflowRun
  else if is_str "issues" eventName then Some Issues
  else if is_str "repository" eventName then Some Repository
  else None.

Definition handleEvent (hs : t) (eventName payload deliveryId : value)
  : M unit :=
  name <- text eventName ;;
  repository <- get payload "repository" ;;
  full_name <- get_opt repository "full_name" ;;
  action <- get payload "action" ;;
  Logger.info (String.append "Processing " (String.append name " event")) ;;
  try_catch
    match registered eventName with
    | Some Push => onPush hs payload
    | Some PullRequest => onPullRequest hs payload
    | Some Release => onRelease hs payload
    | Some WorkflowRun => onWorkflowRun hs payload
    | Some Issues => onIssues hs payload
    | Some Repository => onRepository hs payload
    | None =>
        name <- text eventName ;;
        Logger.warn (String.append "Unhandled event type: " name)
    end
    (fun error =>
       name <- text eventName ;;
       Logger.error
         (String.append "Error handling " (String.append name " event")) ;;
       throw error).

End WebhookHandlers.

(* ===================================================================== *)
(** ** @octokit/webhooks *)
(* ===================================================================== *)

(** The [Webhooks] class, by its documented behaviour and, for the
  table of the callbacks, by its code: [on] files a handler under an
  event name and [onError] files a callback under the key [error], both
  in [state.hooks], a plain object; [verifyAndReceive] checks the
  signature of the payload text, decodes it, and runs what
  [state.hooks] holds for the event's name, each with the event object
  [{ id, name, payload }]; it rejects with an AggregateError when the
  signature does not match or when a callback fails, after calling the
  error callbacks. *)
Module Webhooks.
Import JS Op.
Local Open Scope js_scope.

(** [hooks] are the handlers filed with [on], by name; [errorHandlers]
    is [state.hooks.error], whose callbacks are applied to an error and,
    when a delivery names the event [error], to its event object. *)
Record state := {
  secret : string;
  hooks : list (string * (value -> M unit));
  errorHandlers : list (error + value -> M unit) }.

(** [new Webhooks({ secret })] *)
Definition create (secret : string) : state :=
  {| secret := secret; hooks := []; errorHandlers := [] |}.

(** [on(name, handler)], for a name [state.hooks] has nothing under
    yet or has handlers under, as the six names of the program. *)
Definition on (name : string) (handler : value -> M unit) (w : state)
  : state :=
  {| secret := secret w;
     hooks := hooks w ++ [(name, handler)];
     errorHandlers := errorHandlers w |}.

Definition onError (handler : error + value -> M unit) (w : state)
  : state :=
  {| secret := secret w;
     hooks := hooks w;
     errorHandlers := errorHandlers w ++ [handler] |}.

(** [sign(secret, payload)]: ["sha256=" + HMAC-SHA-256 of the text]. *)
Definition sign (secret payload : string) : string :=
  String.append "sha256=" (SHA256.hmac_hex secret (Buf.from payload)).

(** [verify(secret, payload, signature)], with a missing argument
    counting as a mismatch. *)
Definition verify (secret payload : string) (signature : value) : bool :=
  match signature with
  | VStr sig =>
      negb (String.eqb secret EmptyString)
      && negb (String.eqb payload EmptyString)
      && negb (String.eqb sig EmptyString)
      && Buf.eqb (Buf.from sig) (Buf.from (sign secret payload))
  | _ => false
  end.

Definition returning : list string := ["constructor"; "toString"].

Definition throwing : list string :=
  ["hasOwnProperty"; "isPrototypeOf"; "propertyIsEnumerable";
   "toLocaleString"; "valueOf"; "__defineGetter__"; "__defineSetter__";
   "__lookupGetter__"; "__lookupSetter__"; "__proto__"].

(** The members of Object.prototype, which a plain object answers with
    for a key it does not own. Each is given by what it does when it is
    called as a hook, that is as a plain function (with [this]
    undefined) on an event object: [constructor], which is [Object],
    and [toString] return; the other methods first make an object of
    [this], a TypeError; and [__proto__] is the prototype itself, which
    is no function, so that calling it is a TypeError as well. *)
Definition inherited (key : string) : option (value -> M unit) :=
  if existsb (String.eqb key) returning then Some (fun _ => ret tt)
  else if existsb (String.eqb key) throwing
  then Some (fun _ => throw TypeError)
  else None.

(** [state.hooks[key]], as the callbacks [[].concat(...)] makes of it:
    the handlers filed under the key; for [error], the error callbacks;
    for another key, the member of Object.prototype of that name, if
    any. *)
Definition hooks_for (w : state) (key : string) : list (value -> M unit) :=
  match map snd (filter (fun p => String.eqb (fst p) key) (hooks w)) with
  | h :: hs => h :: hs
  | [] =>
      if String.eqb key "error"
      then map (fun h event => h (inr event)) (errorHandlers w)
      else
        match inherited key with
        | Some f => [f]
        | None => []
        end
  end.

(** The callbacks for [name.action], for [name] and for ["*"]. The
    key [`${name}.${action}`] is built when the action is truthy. *)
Definition getHooks (w : state) (action name : value)
  : M (list (value -> M unit)) :=
  n <- text name ;;
  keyed <-
    (if truthy action
     then
       a <- text action ;;
       ret (hooks_for w (String.append n (String.append "." a)))
     else ret []) ;;
  ret (keyed ++ hooks_for w n ++ hooks_for w "*").

(** Every handler runs; the errors of those that fail are collected. *)
Fixpoint run_hooks (hs : list (value -> M unit)) (event : value)
  : M (list error) :=
  match hs with
  | [] => ret []
  | h :: rest =>
      e <- try_catch (h event ;; ret []) (fun err => ret [err]) ;;
      es <- run_hooks rest event ;;
      ret (e ++ es)
  end.

(** An error callback that fails is ignored. *)
Definition notify (w : state) (err : error) : M unit :=
  for_each (errorHandlers w) (fun h =>
    try_catch (h (inl err)) (fun _ => ret tt)).

Definition receive (w : state) (id name payload : value) : M unit :=
  if negb (truthy name)
  then throw (AggregateError [Failure "Event name not passed"])
  else if negb (truthy payload)
  then throw (AggregateError [Failure "Event payload not passed"])
  else
    action <-
      match payload with
      | VObj fs => ret (if has_field "action" fs
                        then field "action" fs else VNull)
      | VArr _ => ret VNull
      | _ => throw TypeError        (* ["action" in payload] *)
      end ;;
    let event := VObj [("id", id); ("name", name); ("payload", payload)] in
    hs <- getHooks w action name ;;
    errors <- run_hooks hs event ;;
    match errors with
    | [] => ret tt
    | _ :: _ =>
        notify w (AggregateError errors) ;;
        throw (AggregateError errors)
    end.

Definition verifyAndReceive (w : state) (id name signature : value)
           (payload : string) : M unit :=
  if negb (verify (secret w) payload signature) then
    let err :=
      AggregateError
        [Failure "signature does not match event payload and secret"] in
    notify w err ;;
    throw err
  else
    match JSON.parse payload with
    | None => throw (AggregateError [SyntaxError])
    | Some p => receive w id name p
    end.

End Webhooks.

(* ===================================================================== *)
(** ** index.ts *)
(* ===================================================================== *)

Module Server.
Import JS Op.
Local Open Scope js_scope.

(** [req.body] after [express.raw({ type: 'application/json' })]: a
    Buffer when the request has a body of that content type, and the
    empty object it is left as otherwise. *)
Inductive body :=
| Buffer (bytes : list byte)
| Unparsed.

(** A request as the middleware and the callback of the route receive
    it, that is, once [express.raw] has dealt with the body (a request
    that the body parser refuses does not reach them). [req.headers] has
    one entry for a header name, in lower case. *)
Record request := {
  headers : list (string * string);
  req_body : body }.

Fixpoint lookup (name : string) (hs : list (string * string))
  : option string :=
  match hs with
  | [] => None
  | (k, v) :: r => if String.eqb k name then Some v else lookup name r
  end.

(** [req.headers[name]] *)
Definition header (req : request) (name : string) : value :=
  match lookup name (headers req) with
  | Some v => VStr v
  | None => VUndef
  end.

(** What a request comes to: a response sent by the program with
    [res.status(s).json(b)]; an exception thrown out of the middleware;
    or the rejection of the promise of the route's callback, in which
    case the program has sent nothing. *)
Inductive outcome :=
| Sent (status : Z) (json : value)
| Thrown (e : error)
| Rejected (e : error).

Inductive step :=
| Done (o : outcome)
| Next.

(** [crypto.timingSafeEqual(a, b)]: a RangeError unless both have the
    same byte length. *)
Definition timingSafeEqual (a b : list byte) : error + bool :=
  if Nat.eqb (List.length a) (List.length b)
  then inr (Buf.eqb a b)
  else inl RangeError.

Definition expectedSignature (webhookSecret : string) (payload : list byte)
  : string :=
  String.append "sha256=" (SHA256.hmac_hex webhookSecret payload).

Definition error_json (reason : string) : value :=
  VObj [("error", VStr reason)].

Definition verifySignature (webhookSecret : string) (req : request) : step :=
  match header req "x-hub-signature-256" with
  | VStr (String c s) =>
      let signature := String c s in
      match req_body req with
      | Unparsed => Done (Thrown TypeError)       (* [.update(payload)] *)
      | Buffer payload =>
          match timingSafeEqual (Buf.from signature)
                  (Buf.from (expectedSignature webhookSecret payload)) with
          | inl e => Done (Thrown e)
          | inr false => Done (Sent 401 (error_json "Invalid signature"))
          | inr true => Next
          end
      end
  | _ => Done (Sent 401 (error_json "Missing signature"))  (* [!signature] *)
  end.

(** [req.body.toString()] *)
Definition body_text (b : body) : string :=
  match b with
  | Buffer bytes => Utf8.toString bytes
  | Unparsed => "[object Object]"
  end.

Record app := {
  webhookSecret : string;
  webhooks : Webhooks.state;
  handlers : WebhookHandlers.t }.

(** The [webhooks.on(...)] and [webhooks.onError(...)] calls. *)
Definition register (hs : WebhookHandlers.t) (w : Webhooks.state)
  : Webhooks.state :=
  Webhooks.onError (fun _ => Logger.error "Webhook error")
    (Webhooks.on "repository" (WebhookHandlers.onRepository hs)
    (Webhooks.on "issues" (WebhookHandlers.onIssues hs)
    (Webhooks.on "workflow_run" (WebhookHandlers.onWorkflowRun hs)
    (Webhooks.on "release" (WebhookHandlers.onRelease hs)
    (Webhooks.on "pull_request" (WebhookHandlers.onPullRequest hs)
    (Webhooks.on "push" (WebhookHandlers.onPush hs) w)))))).

Definition make (secret : string) (hs : WebhookHandlers.t) : app :=
  {| webhookSecret := secret;
     webhooks := register hs (Webhooks.create secret);
     handlers := hs |}.

(** The module's start: the secret is required, the API token is
    optional. [api] is the platform as the token gives access to it. *)
Definition start (GITHUB_WEBHOOK_SECRET GITHUB_TOKEN : option string)
           (api : Octokit.client) : error + app :=
  match GITHUB_WEBHOOK_SECRET with
  | None | Some EmptyString =>
      inl (Failure "GITHUB_WEBHOOK_SECRET environment variable is required")
  | Some secret =>
      let octokit :=
        match GITHUB_TOKEN with
        | None | Some EmptyString => None
        | Some _ => Some api
        end in
      inr (make secret (WebhookHandlers.create octokit))
  end.

Definition ok_json : value :=
  VObj [("message", VStr "Webhook processed successfully")].

(** The callback of [app.post('/webhook', verifySignature, ...)]. *)
Definition route (a : app) (req : request) : M outcome :=
  let eventName := header req "x-github-event" in
  let deliveryId := header req "x-github-delivery" in
  payload <-
    match JSON.parse (body_text (req_body req)) with
    | Some v => ret v
    | None => throw SyntaxError
    end ;;
  name <- text eventName ;;
  repository <- get payload "repository" ;;
  full_name <- get_opt repository "full_name" ;;
  Logger.info (String.append "Received " (String.append name " event")) ;;
  try_catch
    (Webhooks.verifyAndReceive (webhooks a) deliveryId eventName
       (header req "x-hub-signature-256") (body_text (req_body req)) ;;
     WebhookHandlers.handleEvent (handlers a) eventName payload
       deliveryId ;;
     ret (Sent 200 ok_json))
    (fun error =>
       Logger.error "Error processing webhook" ;;
       ret (Sent 500 (error_json "Internal server error"))).

(** POST /webhook: the middleware, then the route. *)
Definition post_webhook (a : app) (req : request) : outcome * list event :=
  match verifySignature (webhookSecret a) req with
  | Done o => (o, [])
  | Next =>
      match route a req with
      | (inl e, t) => (Rejected e, t)
      | (inr o, t) => (o, t)
      end
  end.

(** Has the program itself dealt with the request? An exception of the
    middleware goes to Express's error handling; a rejection of the
    route's promise is left to the runtime, as an unhandled rejection. *)
Definition escaped (o : outcome) : bool :=
  match o with
  | Rejected _ => true
  | _ => false
  end.

(** Deliveries handled one after another by one process. Nothing a
    delivery does changes [a]. The run is followed up to the first
    rejection that escapes: what the process does after it is not the
    program's doing. *)
Fixpoint serve (a : app) (reqs : list request)
  : list (outcome * list event) :=
  match reqs with
  | [] => []
  | req :: rest =>
      let r := post_webhook a req in
      r :: (if escaped (fst r) then [] else serve a rest)
  end.

End Server.

(* ===================================================================== *)
(** ** Sample deliveries: those of tests/webhook.test.ts *)
(* ===================================================================== *)

Module Samples.
Import JS Server.

(** Test data is written with ' for the double quote. *)
Definition dq (s : string) : string :=
  (fix go (s : string) : string :=
     match s with
     | EmptyString => EmptyString
     | String c r =>
         String (if Ascii.eqb c "'" then "034"%char else c) (go r)
     end) s.

Definition secret : string := "test-secret".

(** The server of the tests: no GITHUB_TOKEN is set. *)
Definition server : app := make secret (WebhookHandlers.create None).

(** [JSON.stringify(pushPayload)] *)
Definition push_body : list byte :=
  Buf.from (dq "{'ref':'refs/heads/main','repository':{'full_name':'test/repo','owner':{'login':'test'},'name':'repo'},'commits':[{'id':'abc123','added':['src/test.ts'],'modified':[],'removed':[]}],'pusher':{'name':'testuser'}}").

(** [JSON.stringify(mockPayload)] *)
Definition pull_request_body : list byte :=
  Buf.from (dq "{'action':'opened','repository':{'full_name':'test/repo','owner':{'login':'test'},'name':'repo'},'pull_request':{'number':1,'title':'Test PR','user':{'login':'testuser'}}}").

Definition malformed_body : list byte := Buf.from "{bad".

(** A delivery signed with [createSignature]. *)
Definition delivery (eventName : string) (b : list byte) : request :=
  {| headers :=
       [("x-hub-signature-256", expectedSignature secret b);
        ("x-github-event", eventName);
        ("x-github-delivery", "test-delivery-id");
        ("content-type", "application/json")];
     req_body := Buffer b |}.

(** 'should reject requests with invalid signature' *)
Definition invalid_signature_request : request :=
  {| headers :=
       [("x-hub-signature-256", "sha256=invalid");
        ("x-github-event", "pull_request");
        ("x-github-delivery", "test-delivery-id");
        ("content-type", "application/json")];
     req_body := Buffer pull_request_body |}.


(** A signature of the right length that is not the expected one. *)
Definition wrong_signature_request : request :=
  {| headers :=
       [("x-hub-signature-256", expectedSignature secret push_body);
        ("x-github-event", "pull_request")];
     req_body := Buffer pull_request_body |}.

(** The decoded bodies. *)
Definition fields_of (b : list byte) : list (string * value) :=
  match JSON.parse (Utf8.toString b) with
  | Some (VObj fs) => fs
  | _ => []
  end.

Definition push_fields : list (string * value) :=
  Eval vm_compute in fields_of push_body.

Definition pull_request_fields : list (string * value) :=
  Eval vm_compute in fields_of pull_request_body.

(** A push whose payload has no [pusher]. *)
Definition push_without_pusher_body : list byte :=
  Buf.from (dq "{'ref':'refs/heads/main','repository':{'full_name':'test/repo'},'commits':[]}").

Definition push_without_pusher_fields : list (string * value) :=
  Eval vm_compute in fields_of push_without_pusher_body.

(** An empty payload, and a payload whose action is an object with a
    property [toString]. *)
Definition empty_body : list byte := Buf.from "{}".

Definition odd_action_body : list byte :=
  Buf.from (dq "{'action':{'toString':null}}").

(** Spies in place of the six handlers: each returns at once, whatever
    it is given. *)
Definition spies : WebhookHandlers.t :=
  {| WebhookHandlers.pushHandler := fun _ => ret tt;
     WebhookHandlers.pullRequestHandler := fun _ => ret tt;
     WebhookHandlers.releaseHandler := fun _ => ret tt;
     WebhookHandlers.workflowHandler := fun _ => ret tt;
     WebhookHandlers.issuesHandler := fun _ => ret tt;
     WebhookHandlers.repositoryHandler := fun _ => ret tt |}.

(** Two commits; the second has no [added] and no [modified]. *)
Definition commits : list value :=
  [VObj [("id", VStr "c1");
         ("added", VArr [VStr "src/git/a.ts"; VStr "src/fetch/b.ts";
                         VStr "package.json"]);
         ("modified", VArr [VStr "src/git/README.md"; VStr "src/test.ts"]);
         ("removed", VArr [])];
   VObj [("id", VStr "c2");
         ("removed", VArr [VStr "src/time/x/y"; VStr "src//z"])]].

Definition commits_paths : list string :=
  ["src/git/a.ts"; "src/fetch/b.ts"; "package.json"; "src/git/README.md";
   "src/test.ts"; "src/time/x/y"; "src//z"].

End Samples.

(* ===================================================================== *)
(** ** Vocabulary of the properties *)
(* ===================================================================== *)

Module Notions.
Import JS Server.

Definition sig_header : string := "x-hub-signature-256".
Definition event_header : string := "x-github-event".
Definition delivery_header : string := "x-github-delivery".

(** The body is UTF-8 text: decoding it and encoding it again gives
    the same bytes. *)
Definition utf8_text (bytes : list byte) : Prop :=
  Buf.from (Utf8.toString bytes) = bytes.

(** The event object @octokit/webhooks hands to a registered handler
    for a delivery whose body decodes to [payload]. *)
Definition envelope (req : request) (payload : value) : value :=
  VObj [("id", header req delivery_header);
        ("name", header req event_header);
        ("payload", payload)].

(** The header value of each registered event type. *)
Definition event_name (h : handler_name) : string :=
  match h with
  | Push => "push"
  | PullRequest => "pull_request"
  | Release => "release"
  | WorkflowRun => "workflow_run"
  | Issues => "issues"
  | Repository => "repository"
  end.

(** The invocations of [handle] in a trace: which handler, with which
    argument. *)
Definition handled (t : list event) : list (handler_name * value) :=
  flat_map (fun ev => match ev with
                      | Handled h v => [(h, v)]
                      | _ => []
                      end) t.

(** The requests sent to the platform API in a trace. *)
Definition api_calls (t : list event) : list string :=
  flat_map (fun ev => match ev with
                      | ApiCall endpoint _ => [endpoint]
                      | _ => []
                      end) t.

Definition only_logs (t : list event) : Prop :=
  forall ev, In ev t -> exists l msg, ev = Logged l msg.

Definition failed {A} (m : M A) : Prop :=
  exists e, result m = inl e.

Definition succeeded {A} (m : M A) : Prop :=
  exists a, result m = inr a.

Definition internal_error : outcome :=
  Sent 500 (error_json "Internal server error").

Definition accepted : outcome := Sent 200 ok_json.

(** The event name of a request as a template shows it: the header,
    or [undefined] without it. *)
Definition event_text (req : request) : string :=
  match lookup event_header (headers req) with
  | Some name => name
  | None => "undefined"
  end.

(** The log lines of the dispatch, for the event name of a request. *)
Definition received_log (req : request) : event :=
  Logged Info
    (String.append "Received " (String.append (event_text req) " event")).

Definition processing_log (req : request) : event :=
  Logged Info
    (String.append "Processing " (String.append (event_text req) " event")).

Definition unhandled_log (req : request) : event :=
  Logged Warn (String.append "Unhandled event type: " (event_text req)).


Definition webhook_error_log : event := Logged Err "Webhook error".

(** The value has a text: converting it to a string is no TypeError. *)
Definition convertible (v : value) : bool :=
  match Op.to_text v with
  | Some _ => true
  | None => false
  end.

(** The event names under which the table of the library finds a
    member of Object.prototype that throws when it is run as a hook. *)
Definition poisoned (n : string) : bool :=
  existsb (String.eqb n) Webhooks.throwing.

Definition error_processing_log : event :=
  Logged Err "Error processing webhook".

(** The fields of a payload that [handle] of each handler takes from
    it and dereferences before anything else. *)
Definition required_fields (h : handler_name) : list string :=
  match h with
  | Push => ["repository"; "ref"; "commits"; "pusher"]
  | PullRequest => ["repository"; "pull_request"]
  | Release => ["repository"]
  | WorkflowRun => ["repository"; "workflow_run"]
  | Issues => ["repository"; "issue"]
  | Repository => ["repository"]
  end.

Fixpoint has_slash (s : string) : bool :=
  match s with
  | EmptyString => false
  | String c r => Ascii.eqb c "/" || has_slash r
  end.

(** [path] is of the form src/[name]/..., where [name] is a path
    segment: not empty and without a slash. *)
Definition under_server (name path : string) : Prop :=
  name <> EmptyString
  /\ has_slash name = false
  /\ exists rest,
       path = String.append "src/"
                (String.append name (String.append "/" rest)).

(** The strings of an array of strings. *)
Fixpoint strings (l : list value) : option (list string) :=
  match l with
  | [] => Some []
  | VStr s :: r => option_map (cons s) (strings r)
  | _ :: _ => None
  end.

(** The paths a commit lists under one of its keys: none when it lacks
    the array. *)
Definition listed (v : value) : option (list string) :=
  match v with
  | VUndef | VNull => Some []
  | VArr l => strings l
  | _ => None
  end.

(** The paths of a commit as the platform sends it: an object whose
    [added], [modified] and [removed], where present, are arrays of
    strings. *)
Definition commit_paths (commit : value) : option (list string) :=
  match commit with
  | VObj fs =>
      match listed (field "added" fs), listed (field "modified" fs),
            listed (field "removed" fs) with
      | Some a, Some m, Some r => Some (a ++ m ++ r)
      | _, _, _ => None
      end
  | _ => None
  end.

Fixpoint all_paths (commits : list value) : option (list string) :=
  match commits with
  | [] => Some []
  | c :: r =>
      match commit_paths c, all_paths r with
      | Some ps, Some qs => Some (ps ++ qs)
      | _, _ => None
      end
  end.

(** The servers of a list of paths, added to [servers] in order. *)
Fixpoint collect (paths : list string) (servers : list string)
  : list string :=
  match paths with
  | [] => servers
  | p :: r =>
      collect r
        match Str.server_of_path p with
        | Some name => PushHandler.set_add name servers
        | None => servers
        end
  end.

(** The number of constructors of a value. *)
Fixpoint size (v : value) : nat :=
  match v with
  | VArr l => S (list_sum (map size l))
  | VObj fs => S (list_sum (map (fun kv => size (snd kv)) fs))
  | _ => 1%nat
  end.

Fixpoint has_dot (s : string) : bool :=
  match s with
  | EmptyString => false
  | String c r => Ascii.eqb c "." || has_dot r
  end.

End Notions.

(* ===================================================================== *)
(** ** Vocabulary of the further properties *)
(* ===================================================================== *)

Module Shapes.
Import JS Op Server Notions.

(** The endpoints a computation sends requests to, in order. *)
Definition calls {A} (m : M A) : list string := api_calls (trace m).

Definition no_api {A} (m : M A) : Prop := calls m = [].

(** Every request goes to one of [endpoints]. *)
Definition within {A} (endpoints : list string) (m : M A) : Prop :=
  incl (calls m) endpoints.

(** The log lines of a trace. *)
Definition logs (t : list event) : list (level * string) :=
  flat_map (fun ev => match ev with
                      | Logged l msg => [(l, msg)]
                      | _ => []
                      end) t.

(** The payload has field [k] and it is neither null nor undefined. *)
Definition has (k : string) (fs : list (string * value)) : Prop :=
  nullish (field k fs) = false.

(** The branch of a push: [ref.replace('refs/heads/', '')]. *)
Definition branch_of (ref : string) : string :=
  Str.replace "refs/heads/" EmptyString ref.

(** A path names one of the files [checkForImportantFileChanges] looks
    for. *)
Definition important (path : string) : bool :=
  existsb (fun i => Str.includes i path) PushHandler.importantFiles.

(** How many of the commits list an important path. *)
Fixpoint important_commits (commits : list value) : nat :=
  match commits with
  | [] => O
  | c :: r =>
      match commit_paths c with
      | Some ps => if existsb important ps then S (important_commits r)
                   else important_commits r
      | None => important_commits r
      end
  end.

Definition important_log : event :=
  Logged Info "Important files changed in commit".

Definition would_trigger (server : string) : event :=
  Logged Info (String.append "Would trigger tests for server: " server).

(** The labels [addLabelsBasedOnChanges] derives from the changed
    paths, in the order it pushes them. *)
Definition change_labels (paths : list string) : list string :=
  (if existsb (Str.ends_with ".md") paths then ["documentation"] else [])
  ++ (if existsb (Str.includes ".github/workflows") paths
      then ["ci/cd"] else [])
  ++ map (String.append "server:") (collect paths [])
  ++ (if existsb (fun path => Str.includes "package.json" path
                              || Str.includes "pyproject.toml" path) paths
      then ["dependencies"] else []).

(** The files of a pull request as [pulls.listFiles] answers: objects
    with a string [filename]. *)
Definition file_entry (path : string) : value :=
  VObj [("filename", VStr path)].

(** The endpoints each handler sends requests to. *)
Definition pull_request_endpoints : list string :=
  ["pulls.listFiles"; "issues.addLabels"; "issues.createComment";
   "pulls.list"].

Definition issues_endpoints : list string :=
  ["issues.addLabels"; "issues.listForRepo"; "issues.createComment"].

Definition release_endpoints : list string :=
  ["repos.listReleases"; "repos.compareCommits"].

Definition workflow_endpoints : list string :=
  ["actions.listJobsForWorkflowRun"].

Definition missing_sections_log : level * string :=
  (Warn, "Release notes missing recommended sections").

(** [release.body || ''] *)
Definition notes_of (body : value) : value :=
  if truthy body then body else VStr EmptyString.

(** Does the workflow handler come to read [workflow_run.actor.login]
    for this action and conclusion? *)
Definition reads_actor (action conclusion : value) : bool :=
  is_str "requested" action
  || is_str "in_progress" action
  || (is_str "completed" action
      && (is_str "success" conclusion
          || is_str "failure" conclusion
          || is_str "cancelled" conclusion
          || is_str "timed_out" conclusion)).

(** Does the workflow handler come to compute the duration of the run
    for this action? *)
Definition reads_dates (action : value) : bool :=
  is_str "completed" action
  || is_str "requested" action
  || is_str "in_progress" action.

(** The two dates of a run can be made: [created_at] and [updated_at]
    have a text. *)
Definition dated (wfs : list (string * value)) : bool :=
  convertible (field "created_at" wfs)
  && convertible (field "updated_at" wfs).

(** The actions the repository handler has a method for. *)
Definition repository_actions : list string :=
  ["created"; "deleted"; "archived"; "unarchived"; "publicized";
   "privatized"].

(** A job as [listJobsForWorkflowRun] lists it: an object whose
    [name] has a text and whose [steps], where present, is an array
    without null. *)
Definition job_ok (job : value) : bool :=
  match job with
  | VObj js =>
      match to_text (field "name" js) with
      | Some _ =>
          match field "steps" js with
          | VUndef | VNull => true
          | VArr steps => forallb (fun step => negb (nullish step)) steps
          | _ => false
          end
      | None => false
      end
  | _ => false
  end.

Definition failed_job (job : value) : bool :=
  match job with
  | VObj js => is_str "failure" (field "conclusion" js)
  | _ => false
  end.

(** The name of a job, converted to text. *)
Definition job_name (job : value) : option string :=
  match job with
  | VObj js => to_text (field "name" js)
  | _ => None
  end.

Definition failed_job_log (job : value) : event :=
  Logged Err
    (String.append "Failed job: "
       match job_name job with
       | Some n => n
       | None => EmptyString
       end).

(** The outcomes of a request the signature check stops. *)
Definition stopped : list outcome :=
  [Sent 401 (error_json "Missing signature");
   Sent 401 (error_json "Invalid signature");
   Thrown TypeError;
   Thrown RangeError].

End Shapes.

(** Clients and deliveries the further properties are tried on. *)
Module Fixtures.
Import JS Server.

(** A platform that accepts every request; its lists are empty. *)
Definition agreeable : Octokit.client :=
  {| Octokit.actions_createWorkflowDispatch := fun _ => inr tt;
     Octokit.actions_listJobsForWorkflowRun := fun _ => inr (VObj []);
     Octokit.pulls_listFiles := fun _ => inr [];
     Octokit.pulls_list := fun _ => inr [];
     Octokit.issues_addLabels := fun _ => inr tt;
     Octokit.issues_createComment := fun _ => inr tt;
     Octokit.issues_listForRepo := fun _ => inr [];
     Octokit.repos_compareCommits := fun _ => inr (VObj []);
     Octokit.repos_listReleases := fun _ => inr [] |}.

(** A platform that rejects every request. *)
Definition unreachable : Octokit.client :=
  {| Octokit.actions_createWorkflowDispatch := fun _ => inl RequestError;
     Octokit.actions_listJobsForWorkflowRun := fun _ => inl RequestError;
     Octokit.pulls_listFiles := fun _ => inl RequestError;
     Octokit.pulls_list := fun _ => inl RequestError;
     Octokit.issues_addLabels := fun _ => inl RequestError;
     Octokit.issues_createComment := fun _ => inl RequestError;
     Octokit.issues_listForRepo := fun _ => inl RequestError;
     Octokit.repos_compareCommits := fun _ => inl RequestError;
     Octokit.repos_listReleases := fun _ => inl RequestError |}.

(** A delivery whose body is the JSON text null, validly signed. *)
Definition null_delivery : request :=
  Samples.delivery "push" (Buf.from "null").

Definition repository : value :=
  VObj [("full_name", VStr "test/repo");
        ("owner", VObj [("login", VStr "test")]);
        ("name", VStr "repo")].

(** A push to main with the two sample commits. *)
Definition push_fields : list (string * value) :=
  [("ref", VStr "refs/heads/main");
   ("repository", repository);
   ("commits", VArr Samples.commits);
   ("pusher", VObj [("name", VStr "testuser")])].

(** A push to a release branch. *)
Definition release_push_fields : list (string * value) :=
  [("ref", VStr "refs/heads/release/1.2.0");
   ("repository", repository);
   ("commits", VArr []);
   ("pusher", VObj [("name", VStr "testuser")])].

Definition pull_request : value :=
  VObj [("number", VNum 1 0);
        ("title", VStr "Test PR");
        ("user", VObj [("login", VStr "testuser")])].

(** A platform whose pull request changes two servers and a README. *)
Definition changed_paths : list string :=
  ["src/git/index.ts"; "README.md"; "src/time/server.py"].

Definition listing : Octokit.client :=
  {| Octokit.actions_createWorkflowDispatch := fun _ => inr tt;
     Octokit.actions_listJobsForWorkflowRun := fun _ => inr (VObj []);
     Octokit.pulls_listFiles :=
       fun _ => inr (map Shapes.file_entry changed_paths);
     Octokit.pulls_list := fun _ => inr [];
     Octokit.issues_addLabels := fun _ => inr tt;
     Octokit.issues_createComment := fun _ => inl RequestError;
     Octokit.issues_listForRepo := fun _ => inr [];
     Octokit.repos_compareCommits := fun _ => inr (VObj []);
     Octokit.repos_listReleases := fun _ => inr [] |}.

(** A merged pull request, closed. *)
Definition merged_fields : list (string * value) :=
  [("action", VStr "closed");
   ("repository", repository);
   ("pull_request",
    VObj [("number", VNum 7 0);
          ("user", VObj [("login", VStr "testuser")]);
          ("merged", VBool true);
          ("base", VObj [("ref", VStr "main")])])].

(** An issue whose title mentions a server and is urgent. *)
Definition issue_fields : list (string * value) :=
  [("action", VStr "opened");
   ("repository", repository);
   ("issue",
    VObj [("number", VNum 3 0);
          ("title", VStr "Urgent: server: git crashes");
          ("body", VNull);
          ("user", VObj [("login", VStr "testuser")])])].

(** A platform with three releases. *)
Definition released : Octokit.client :=
  {| Octokit.actions_createWorkflowDispatch := fun _ => inr tt;
     Octokit.actions_listJobsForWorkflowRun := fun _ => inr (VObj []);
     Octokit.pulls_listFiles := fun _ => inr [];
     Octokit.pulls_list := fun _ => inr [];
     Octokit.issues_addLabels := fun _ => inr tt;
     Octokit.issues_createComment := fun _ => inr tt;
     Octokit.issues_listForRepo := fun _ => inr [];
     Octokit.repos_compareCommits := fun _ => inl RequestError;
     Octokit.repos_listReleases :=
       fun _ => inr [VObj [("tag_name", VStr "v1.2.0")];
                     VObj [("tag_name", VStr "v1.1.0")];
                     VObj [("tag_name", VStr "v1.0.0")]] |}.

Definition release_notes : string :=
  "## What's Changed
- a fix
## Bug Fixes
- the fix".

Definition release_fields : list (string * value) :=
  [("action", VStr "created");
   ("repository", repository);
   ("release",
    VObj [("tag_name", VStr "v1.2.0"); ("body", VStr release_notes)])].

(** A failed run without an actor. *)
Definition failed_run_fields : list (string * value) :=
  [("action", VStr "completed");
   ("repository", repository);
   ("workflow_run",
    VObj [("id", VNum 42 0); ("name", VStr "TypeScript");
          ("conclusion", VStr "failure"); ("head_branch", VStr "main")])].

Definition jobs : list value :=
  [VObj [("name", VStr "build"); ("conclusion", VStr "success")];
   VObj [("name", VStr "test"); ("conclusion", VStr "failure");
         ("steps", VArr [VObj [("conclusion", VStr "failure")]])];
   VObj [("name", VStr "lint"); ("conclusion", VStr "failure")]].

(** A platform that lists the three jobs of a run. *)
Definition with_jobs : Octokit.client :=
  {| Octokit.actions_createWorkflowDispatch := fun _ => inr tt;
     Octokit.actions_listJobsForWorkflowRun :=
       fun _ => inr (VObj [("total_count", VNum 3 0);
                           ("jobs", VArr jobs)]);
     Octokit.pulls_listFiles := fun _ => inr [];
     Octokit.pulls_list := fun _ => inr [];
     Octokit.issues_addLabels := fun _ => inr tt;
     Octokit.issues_createComment := fun _ => inr tt;
     Octokit.issues_listForRepo := fun _ => inr [];
     Octokit.repos_compareCommits := fun _ => inr (VObj []);
     Octokit.repos_listReleases := fun _ => inr [] |}.

(** A platform on which the author has exactly one issue and one pull
    request, and which accepts comments. *)
Definition first_time : Octokit.client :=
  {| Octokit.actions_createWorkflowDispatch := fun _ => inl RequestError;
     Octokit.actions_listJobsForWorkflowRun := fun _ => inr (VObj []);
     Octokit.pulls_listFiles := fun _ => inr [];
     Octokit.pulls_list := fun _ => inr [pull_request];
     Octokit.issues_addLabels := fun _ => inr tt;
     Octokit.issues_createComment := fun _ => inr tt;
     Octokit.issues_listForRepo := fun _ => inr [VObj issue_fields];
     Octokit.repos_compareCommits := fun _ => inr (VObj []);
     Octokit.repos_listReleases := fun _ => inr [] |}.

Definition published_fields : list (string * value) :=
  [("action", VStr "published");
   ("repository", repository);
   ("release",
    VObj [("tag_name", VStr "v1.2.0"); ("prerelease", VBool false)])].

End Fixtures.

(* ===================================================================== *)
(** * Properties *)
(* ===================================================================== *)

(** ** The library models agree with the published test vectors *)

Example sha256_abc :
Buf.hex (SHA256.sha256 (Buf.from "abc"))
= "ba7816bf8f01cfea414140de5dae2223b00361a396177a9cb410ff61f20015ad".
Proof. vm_compute. reflexivity. Qed.

Example hmac_rfc4231_2 :
SHA256.hmac_hex "Jefe" (Buf.from "what do ya want for nothing?")
= "5bdcc146bf60754e6a042426089575c75a003f089d2739839dec58b964ec3843".
Proof. vm_compute. reflexivity. Qed.

Example utf8_replacement :
Utf8.sanitize [x61; xff; xe2; x82; xac; xe2; x82; x41] 0 [] 0x80 0xbf
= [x61; xef; xbf; xbd; xe2; x82; xac; xef; xbf; xbd; x41].
Proof. reflexivity. Qed.

Example json_parse_sample :
  JSON.parse
    (Samples.dq "{'a': [1, -2.50e3, true, null], 'b': 'x\u00e9y', 'a': {}}")
  = Some (JS.VObj
            [("a", JS.VArr [JS.VNum 1 0; JS.VNum (-250) 1; JS.VBool true;
                            JS.VNull]);
             ("b", JS.VStr "xéy");
             ("a", JS.VObj [])]).
Proof. reflexivity. Qed.

Example json_parse_rejects :
  map JSON.parse
    ["{bad"; "01"; "1."; "[1,]"; "tru"; "nullx"; EmptyString]
  = [None; None; None; None; None; None; None].
Proof. reflexivity. Qed.

Example later_duplicate_wins :
  JS.field "a" [("a", JS.VNum 1 0); ("b", JS.VNull); ("a", JS.VNum 2 0)]
  = JS.VNum 2 0.
Proof. reflexivity. Qed.

Example server_of_path_samples :
  map Str.server_of_path
    ["src/git/index.ts"; "src/git"; "src//x"; "lib/src/git/x"; "src/a/"]
  = [Some "git"; None; None; None; Some "a"].
Proof. reflexivity. Qed.

Example server_mention_sample :
  Str.server_mention "crash in server:  git_2 on start" = Some "git_2".
Proof. reflexivity. Qed.

(** No-break space (U+00A0) and the other white space outside ASCII
    separate as a space does; U+0085 is no white space. *)
Example server_mention_no_break_space :
  map Str.server_mention
    [String.append "server" (String.append (Str.of_codes [194; 160]) "git");
     String.append "server:"
       (String.append (Str.of_codes [226; 128; 131; 227; 128; 128]) "time!");
     String.append "server" (String.append (Str.of_codes [194; 133]) "git")]
  = [Some "git"; Some "time"; None].
Proof. reflexivity. Qed.

(** The Kelvin sign (U+212A) is lowered to the letter k. *)
Example to_lower_kelvin :
  Str.to_lower (String.append "BREA" (Str.of_codes [226; 132; 170; 73; 78; 71]))
  = "breaking".
Proof. reflexivity. Qed.

(** Number::toString on the numbers JSON literals denote. *)
Example number_texts :
  map (fun me => Num.to_string (fst me) (snd me))
    [(1, 0); (15, -1); (1, -1); (30000000000000004, -17); (1, 21);
     (123456789, 12); (1, -6); (1, -7); (5, -324); (2, -324); (1, -400);
     (9007199254740993, 0); (1, 23); (-42, 0); (1, 400); (0, 3)]
  = ["1"; "1.5"; "0.1"; "0.30000000000000004"; "1e+21";
     "123456789000000000000"; "0.000001"; "1e-7"; "5e-324"; "0"; "0";
     "9007199254740992"; "1e+23"; "-42"; "Infinity"; "0"].
Proof. vm_compute. reflexivity. Qed.

Example truthy_numbers :
  map JS.truthy [JS.VNum 1 (-400); JS.VNum 0 7; JS.VNum 5 (-324)]
  = [false; false; true].
Proof. vm_compute. reflexivity. Qed.

(** ** Buffers, hexadecimal text and digests *)

Section BufferFacts.

Lemma buf_eqb_true_iff (a b : list byte) : Buf.eqb a b = true <-> a = b.
Proof.
  revert b. induction a as [|x a IH]; intros [|y b]; simpl;
    try (split; (discriminate || reflexivity)).
  unfold Buf.byte_eqb. rewrite andb_true_iff, IH. split.
  - intros [H1 H2]. apply Byte.byte_dec_bl in H1. congruence.
  - intros H. injection H as -> ->. split; [apply Byte.byte_dec_lb|]; reflexivity.
Qed.

Lemma buf_eqb_refl (a : list byte) : Buf.eqb a a = true.
Proof. apply buf_eqb_true_iff. reflexivity. Qed.

Lemma buf_from_length (s : string) :
  List.length (Buf.from s) = String.length s.
Proof.
  unfold Buf.from, list_byte_of_string.
  induction s as [|c s IH]; simpl; [reflexivity | now rewrite IH].
Qed.

Lemma buf_from_inj (s t : string) : Buf.from s = Buf.from t -> s = t.
Proof.
  intros H. rewrite <- (string_of_list_byte_of_string s),
    <- (string_of_list_byte_of_string t).
  unfold Buf.from in H. now rewrite H.
Qed.

Lemma byte_Z_range (b : byte) : 0 <= Buf.byte_Z b < 256.
Proof.
  unfold Buf.byte_Z. pose proof (Byte.to_N_bounded b). lia.
Qed.

Lemma byte_Z_inj (a b : byte) : Buf.byte_Z a = Buf.byte_Z b -> a = b.
Proof.
  unfold Buf.byte_Z. intros H. apply N2Z.inj in H.
  pose proof (Byte.of_to_N a) as Ha. pose proof (Byte.of_to_N b) as Hb.
  rewrite H in Ha. congruence.
Qed.

Lemma hex_digit_inj (n m : Z) :
  0 <= n < 16 -> 0 <= m < 16 ->
  Buf.hex_digit n = Buf.hex_digit m -> n = m.
Proof.
  intros Hn Hm H. apply (f_equal N_of_ascii) in H. unfold Buf.hex_digit in H.
  destruct (Z.ltb_spec n 10), (Z.ltb_spec m 10);
    rewrite !N_ascii_embedding in H by lia; lia.
Qed.

Lemma hex_inj (a b : list byte) : Buf.hex a = Buf.hex b -> a = b.
Proof.
  revert b. induction a as [|x a IH]; intros [|y b]; simpl;
    try discriminate; [reflexivity|].
  intros H. injection H as H1 H2 H3.
  pose proof (byte_Z_range x). pose proof (byte_Z_range y).
  apply hex_digit_inj in H1;
    [|split; [apply Z.div_pos|apply Z.div_lt_upper_bound]; lia ..].
  apply hex_digit_inj in H2; [|apply Z.mod_pos_bound; lia ..].
  f_equal; [|now apply IH].
  apply byte_Z_inj.
  rewrite (Z.div_mod (Buf.byte_Z x) 16), (Z.div_mod (Buf.byte_Z y) 16) by lia.
  congruence.
Qed.

Lemma append_cancel_l (p a b : string) :
  String.append p a = String.append p b -> a = b.
Proof.
  induction p as [|c p IH]; simpl; intros H; [assumption|].
  injection H as H. now apply IH.
Qed.

Lemma hex_length (bs : list byte) :
  String.length (Buf.hex bs) = (2 * List.length bs)%nat.
Proof. induction bs as [|b bs IH]; simpl; [reflexivity | rewrite IH; lia]. Qed.

Lemma digest_length (st : SHA256.state) :
  List.length (SHA256.digest_bytes st) = 32%nat.
Proof. reflexivity. Qed.

Lemma hmac_length (key msg : list byte) :
  List.length (SHA256.hmac key msg) = 32%nat.
Proof. unfold SHA256.hmac, SHA256.sha256. apply digest_length. Qed.

Lemma hmac_hex_length (secret : string) (payload : list byte) :
  String.length (SHA256.hmac_hex secret payload) = 64%nat.
Proof.
  unfold SHA256.hmac_hex. rewrite hex_length, hmac_length. reflexivity.
Qed.

End BufferFacts.

(** ** The signature check of [verifySignature] *)

Section Signature.
Import JS Server Notions.

Lemma expectedSignature_length (secret : string) (payload : list byte) :
  String.length (expectedSignature secret payload) = 71%nat.
Proof.
  unfold expectedSignature. cbn [String.append String.length].
  now rewrite hmac_hex_length.
Qed.

Lemma expectedSignature_inj (secret : string) (b b' : list byte) :
  expectedSignature secret b = expectedSignature secret b' ->
  SHA256.hmac (Buf.from secret) b = SHA256.hmac (Buf.from secret) b'.
Proof.
  unfold expectedSignature, SHA256.hmac_hex.
  intros H. apply append_cancel_l in H. now apply hex_inj.
Qed.

Lemma expectedSignature_cons (secret : string) (payload : list byte) :
  expectedSignature secret payload
  = String "s" (String.append "ha256=" (SHA256.hmac_hex secret payload)).
Proof. reflexivity. Qed.

(** The middleware on a request that carries signature [sig] and a
    Buffer body. *)
Lemma verifySignature_present (secret sig : string) (payload : list byte)
      (req : request) :
  lookup sig_header (headers req) = Some sig ->
  sig <> EmptyString ->
  req_body req = Buffer payload ->
  verifySignature secret req =
    match timingSafeEqual (Buf.from sig)
            (Buf.from (expectedSignature secret payload)) with
    | inl e => Done (Thrown e)
    | inr false => Done (Sent 401 (error_json "Invalid signature"))
    | inr true => Next
    end.
Proof.
  intros Hl Hne Hb. unfold verifySignature, header.
  fold sig_header. rewrite Hl, Hb.
  destruct sig; [congruence | reflexivity].
Qed.

Lemma timingSafeEqual_same_length (a b : list byte) :
  List.length a = List.length b ->
  timingSafeEqual a b = inr (Buf.eqb a b).
Proof.
  intros H. unfold timingSafeEqual. now rewrite H, Nat.eqb_refl.
Qed.

Lemma timingSafeEqual_other_length (a b : list byte) :
  List.length a <> List.length b ->
  timingSafeEqual a b = inl RangeError.
Proof.
  intros H. unfold timingSafeEqual.
  now destruct (Nat.eqb_spec (List.length a) (List.length b)).
Qed.

Lemma post_webhook_done (a : app) (req : request) (o : outcome) :
  verifySignature (webhookSecret a) req = Done o ->
  post_webhook a req = (o, []).
Proof. intros H. unfold post_webhook. now rewrite H. Qed.

(** C7. For all payload bytes [B] and every secret, the middleware lets
    a request with body [B] pass when it carries the signature computed
    over [B], and answers 401 "Invalid signature" when it carries the
    signature computed over bytes [B'] whose HMAC-SHA-256 under the
    secret differs from that of [B]. *)
Theorem C7_signature_binds_to_exact_bytes (secret : string) (B : list byte) :
  (forall req,
      req_body req = Buffer B ->
      lookup sig_header (headers req) = Some (expectedSignature secret B) ->
      verifySignature secret req = Next)
  /\
  (forall B' req,
      SHA256.hmac (Buf.from secret) B' <> SHA256.hmac (Buf.from secret) B ->
      req_body req = Buffer B ->
      lookup sig_header (headers req) = Some (expectedSignature secret B') ->
      verifySignature secret req
      = Done (Sent 401 (error_json "Invalid signature"))).
Proof.
  split.
  - intros req Hb Hl.
    rewrite (verifySignature_present secret _ B req Hl); try assumption.
    + rewrite timingSafeEqual_same_length by reflexivity.
      now rewrite buf_eqb_refl.
    + rewrite expectedSignature_cons. discriminate.
  - intros B' req Hne Hb Hl.
    rewrite (verifySignature_present secret _ B req Hl); try assumption.
    + rewrite timingSafeEqual_same_length
        by (rewrite !buf_from_length, !expectedSignature_length; reflexivity).
      destruct (Buf.eqb _ _) eqn:E; [|reflexivity].
      apply buf_eqb_true_iff, buf_from_inj, expectedSignature_inj in E.
      contradiction.
    + rewrite expectedSignature_cons. discriminate.
Qed.

Lemma C7_witness :
  verifySignature Samples.secret
    (Samples.delivery "push" Samples.push_body) = Next
  /\ verifySignature Samples.secret Samples.wrong_signature_request
     = Done (Sent 401 (error_json "Invalid signature")).
Proof.
  split.
  - apply (proj1 (C7_signature_binds_to_exact_bytes
                    Samples.secret Samples.push_body)); reflexivity.
  - apply (proj2 (C7_signature_binds_to_exact_bytes
                    Samples.secret Samples.pull_request_body)
             Samples.push_body).
    + vm_compute. discriminate.
    + reflexivity.
    + reflexivity.
Defined.

(** C2 (what the code does). When the provided signature and the
    computed one differ in byte length, [timingSafeEqual] throws a
    RangeError out of the middleware: no 401 is sent. *)
Theorem C2_length_mismatch_throws
        (a : app) (sig : string) (payload : list byte) (req : request) :
  lookup sig_header (headers req) = Some sig ->
  sig <> EmptyString ->
  req_body req = Buffer payload ->
  List.length (Buf.from sig)
  <> List.length (Buf.from (expectedSignature (webhookSecret a) payload)) ->
  post_webhook a req = (Thrown RangeError, []).
Proof.
  intros Hl Hne Hb Hlen. apply post_webhook_done.
  rewrite (verifySignature_present _ sig payload req Hl Hne Hb).
  now rewrite timingSafeEqual_other_length.
Qed.

Lemma C2_witness :
  post_webhook Samples.server Samples.invalid_signature_request
  = (Thrown RangeError, []).
Proof.
  apply (C2_length_mismatch_throws Samples.server "sha256=invalid"
           Samples.pull_request_body).
  - reflexivity.
  - discriminate.
  - reflexivity.
  - rewrite !buf_from_length, expectedSignature_length. simpl. lia.
Defined.



End Signature.

(** ** The monad of effects *)

Section Effects.
Import JS.

Lemma bind_ret_l {A B} (a : A) (k : A -> M B) : bind (ret a) k = k a.
Proof. unfold bind, ret. now destruct (k a). Qed.

Lemma bind_ok {A B} (a : A) (t : list event) (k : A -> M B) :
  bind (inr a, t) k = (fst (k a), t ++ snd (k a)).
Proof. unfold bind. now destruct (k a). Qed.

Lemma bind_err {A B} (e : error) (t : list event) (k : A -> M B) :
  bind (inl e, t) k = (inl e, t).
Proof. reflexivity. Qed.

Lemma bind_emit {B} (ev : event) (k : unit -> M B) :
  bind (emit ev) k = (fst (k tt), ev :: snd (k tt)).
Proof. unfold emit. now rewrite bind_ok. Qed.

Lemma get_object (fs : list (string * value)) (k : string) :
  get (VObj fs) k = ret (field k fs).
Proof. reflexivity. Qed.

Lemma get_opt_ret (v : value) (k : string) :
  exists x, get_opt v k = ret x.
Proof. unfold get_opt, get, ret. destruct v; simpl; eauto. Qed.

Lemma field_absent (k : string) (fs : list (string * value)) :
  has_field k fs = false -> field k fs = VUndef.
Proof.
  induction fs as [|[k' v] fs IH]; simpl; [reflexivity|].
  intros H. apply orb_false_iff in H as [H1 H2].
  unfold has_field in IH. rewrite H2. simpl in H1. now rewrite H1.
Qed.

End Effects.

(** ** The hooks registered with @octokit/webhooks *)

Section Hooks.
Import JS Op Server Notions.

Variable hs : WebhookHandlers.t.
Variable secret : string.

Local Notation "'w'" := (register hs (Webhooks.create secret)).

Lemma has_dot_append (a b : string) :
  has_dot (String.append a (String "." b)) = true.
Proof. induction a as [|c a IH]; simpl; [reflexivity | now rewrite IH, orb_true_r]. Qed.

Lemma eqb_dotted (k a b : string) :
  has_dot k = false ->
  String.eqb k (String.append a (String.append "." b)) = false.
Proof.
  intros H. apply String.eqb_neq. intros ->.
  change (String.append "." b) with (String "." b) in H.
  now rewrite has_dot_append in H.
Qed.

Lemma registered_inv (n : string) (h : handler_name) :
  WebhookHandlers.registered (VStr n) = Some h -> n = event_name h.
Proof.
  unfold WebhookHandlers.registered, is_str.
  repeat match goal with
         | |- context [String.eqb n ?lit] =>
             destruct (String.eqb_spec n lit);
             [intros H; injection H as <-; assumption|]
         end.
  discriminate.
Qed.

Lemma registered_event_name (h : handler_name) :
  WebhookHandlers.registered (VStr (event_name h)) = Some h.
Proof. now destruct h. Qed.

Lemma unregistered_inv (n : string) :
  WebhookHandlers.registered (VStr n) = None ->
  forall h, String.eqb (event_name h) n = false.
Proof.
  unfold WebhookHandlers.registered, is_str. intros H h.
  rewrite String.eqb_sym.
  destruct h; simpl;
    repeat match type of H with
           | context [String.eqb n ?lit] =>
               destruct (String.eqb n lit) eqn:?; try discriminate H
           end; reflexivity || assumption.
Qed.

Lemma own_hooks_none (key : string) :
  (forall h, String.eqb (event_name h) key = false) ->
  map snd (filter (fun p => String.eqb (fst p) key) (Webhooks.hooks w)) = [].
Proof.
  intros H.
  generalize (H Push) (H PullRequest) (H Release) (H WorkflowRun)
    (H Issues) (H Repository).
  cbn. intros -> -> -> -> -> ->. reflexivity.
Qed.

Lemma hooks_for_registered (h : handler_name) :
  Webhooks.hooks_for w (event_name h) = [WebhookHandlers.invoke hs h].
Proof. now destruct h. Qed.

Lemma hooks_for_star : Webhooks.hooks_for w "*" = [].
Proof. reflexivity. Qed.

Lemma dotted_eqb (k a b : string) :
  has_dot k = false ->
  String.eqb (String.append a (String.append "." b)) k = false.
Proof. intros H. rewrite String.eqb_sym. now apply eqb_dotted. Qed.

(** No member of Object.prototype has a dot in its name. *)
Lemma inherited_dotted (a b : string) :
  Webhooks.inherited (String.append a (String.append "." b)) = None.
Proof.
  unfold Webhooks.inherited, Webhooks.returning, Webhooks.throwing.
  cbn [existsb]. now rewrite !dotted_eqb.
Qed.

Lemma hooks_for_dotted (a b : string) :
  Webhooks.hooks_for w (String.append a (String.append "." b)) = [].
Proof.
  unfold Webhooks.hooks_for.
  rewrite own_hooks_none by (intros h; apply eqb_dotted; now destruct h).
  now rewrite dotted_eqb, inherited_dotted.
Qed.

(** What the table holds under a name without a handler: the error
    callback of the program under [error], a member of Object.prototype
    under its name, nothing otherwise. *)
Lemma hooks_for_unregistered (n : string) :
  WebhookHandlers.registered (VStr n) = None ->
  Webhooks.hooks_for w n
  = if String.eqb n "error"
    then [fun _ => Logger.error "Webhook error"]
    else if existsb (String.eqb n) Webhooks.returning
    then [fun _ => ret tt]
    else if poisoned n then [fun _ => throw TypeError]
    else [].
Proof.
  intros H. unfold Webhooks.hooks_for.
  rewrite (own_hooks_none n (unregistered_inv n H)).
  unfold Webhooks.inherited, poisoned.
  destruct (String.eqb n "error"); [reflexivity|].
  destruct (existsb (String.eqb n) Webhooks.returning); [reflexivity|].
  now destruct (existsb (String.eqb n) Webhooks.throwing).
Qed.

Lemma returning_not_poisoned (n : string) :
  existsb (String.eqb n) Webhooks.returning = true -> poisoned n = false.
Proof.
  unfold Webhooks.returning. cbn [existsb]. rewrite orb_false_r.
  intros H. apply orb_true_iff in H as [H|H];
    apply String.eqb_eq in H; subst n; reflexivity.
Qed.

(** Only arrays and objects can lack a text, and they are truthy. *)
Lemma truthy_unconvertible (v : value) :
  to_text v = None -> truthy v = true.
Proof. destruct v as [| |[]| | | |]; simpl; intros H; congruence. Qed.

(** The hooks of a delivery: those filed under its event name, unless
    the key of the action cannot be built. *)
Lemma getHooks_name (action : value) (n : string) :
  Webhooks.getHooks w action (VStr n)
  = if convertible action then ret (Webhooks.hooks_for w n)
    else throw TypeError.
Proof.
  unfold Webhooks.getHooks, text, convertible. cbn [to_text].
  rewrite bind_ret_l.
  destruct (to_text action) as [a|] eqn:E.
  - destruct (truthy action); rewrite !bind_ret_l;
      rewrite ?hooks_for_dotted, hooks_for_star, app_nil_r; reflexivity.
  - now rewrite (truthy_unconvertible action E).
Qed.

End Hooks.

(** ** The dispatch of a verified delivery *)

Section Dispatch.
Import JS Op Server Notions.

Variable hs : WebhookHandlers.t.
Variable secret : string.

Local Notation "'w'" := (register hs (Webhooks.create secret)).

Lemma invoke_run (h : handler_name) (v : value) :
  WebhookHandlers.invoke hs h v
  = (fst (WebhookHandlers.handler_of hs h v),
     Handled h v :: snd (WebhookHandlers.handler_of hs h v)).
Proof. unfold WebhookHandlers.invoke. apply bind_emit. Qed.

Lemma run_single_hook (f : value -> M unit) (event : value) :
  Webhooks.run_hooks [f] event
  = (inr match fst (f event) with
         | inl e => [e]
         | inr _ => []
         end,
     snd (f event)).
Proof.
  simpl. destruct (f event) as [[e|[]] t]; simpl;
    now rewrite ?app_nil_r.
Qed.

Lemma notify_registered (err : error) :
  Webhooks.notify w err = (inr tt, [webhook_error_log]).
Proof. reflexivity. Qed.

Lemma action_convertible (fs : list (string * value)) :
  convertible (if has_field "action" fs then field "action" fs else VNull)
  = convertible (field "action" fs).
Proof.
  destruct (has_field "action" fs) eqn:E; [reflexivity|].
  now rewrite (field_absent _ _ E).
Qed.

(** [receive] on an object payload: the key of the action is built
    first, then the hooks of the event name run on the event object. *)
Lemma receive_object (id : value) (n : string)
      (fs : list (string * value)) :
  n <> EmptyString ->
  let event := VObj [("id", id); ("name", VStr n); ("payload", VObj fs)] in
  Webhooks.receive w id (VStr n) (VObj fs)
  = if convertible (field "action" fs)
    then
      bind (Webhooks.run_hooks (Webhooks.hooks_for w n) event)
        (fun errors =>
           match errors with
           | [] => ret tt
           | _ :: _ =>
               bind (Webhooks.notify w (AggregateError errors))
                 (fun _ => throw (AggregateError errors))
           end)
    else throw TypeError.
Proof.
  intros Hne event. unfold Webhooks.receive.
  replace (truthy (VStr n)) with true
    by (simpl; now destruct (String.eqb_spec n EmptyString)).
  cbn [negb truthy]. rewrite bind_ret_l, getHooks_name, action_convertible.
  destruct (convertible (field "action" fs)); [|reflexivity].
  now rewrite bind_ret_l.
Qed.

Lemma event_name_nonempty (h : handler_name) : event_name h <> EmptyString.
Proof. now destruct h. Qed.

(** What [receive] does for an object payload and a registered event
    type: the handler runs once, on the event object, unless the
    action has no text. *)
Lemma receive_registered (id : value) (h : handler_name)
      (fs : list (string * value)) :
  let event :=
    VObj [("id", id); ("name", VStr (event_name h)); ("payload", VObj fs)] in
  let r := WebhookHandlers.handler_of hs h event in
  Webhooks.receive w id (VStr (event_name h)) (VObj fs)
  = if convertible (field "action" fs)
    then
      match fst r with
      | inr _ => (inr tt, Handled h event :: snd r)
      | inl e => (inl (AggregateError [e]),
                  Handled h event :: snd r ++ [webhook_error_log])
      end
    else throw TypeError.
Proof.
  intros event r.
  rewrite (receive_object id (event_name h) fs (event_name_nonempty h)).
  destruct (convertible (field "action" fs)); [|reflexivity].
  rewrite hooks_for_registered, run_single_hook, invoke_run, bind_ok.
  fold event. fold r. cbn [fst snd].
  destruct (fst r) as [e|[]].
  - rewrite notify_registered. cbn. reflexivity.
  - cbn. now rewrite app_nil_r.
Qed.

(** What [receive] does for an object payload and an event type
    without a handler: nothing, but for the names the table of the
    library answers all the same. *)
Lemma receive_unregistered (id : value) (n : string)
      (fs : list (string * value)) :
  n <> EmptyString ->
  WebhookHandlers.registered (VStr n) = None ->
  Webhooks.receive w id (VStr n) (VObj fs)
  = if convertible (field "action" fs)
    then
      if String.eqb n "error" then (inr tt, [webhook_error_log])
      else if poisoned n
      then (inl (AggregateError [TypeError]), [webhook_error_log])
      else ret tt
    else throw TypeError.
Proof.
  intros Hne Hun. rewrite (receive_object id n fs Hne).
  destruct (convertible (field "action" fs)); [|reflexivity].
  rewrite (hooks_for_unregistered _ _ n Hun).
  destruct (String.eqb n "error"); [reflexivity|].
  destruct (existsb (String.eqb n) Webhooks.returning) eqn:E.
  - now rewrite (returning_not_poisoned n E).
  - now destruct (poisoned n).
Qed.

Lemma parse_nonempty (text : string) (v : value) :
  JSON.parse text = Some v -> text <> EmptyString.
Proof. intros H ->. discriminate H. Qed.

Lemma sign_utf8 (bytes : list byte) :
  utf8_text bytes ->
  Webhooks.sign secret (Utf8.toString bytes)
  = expectedSignature secret bytes.
Proof.
  unfold utf8_text, Webhooks.sign, expectedSignature. now intros ->.
Qed.

(** A delivery the middleware lets pass carries the expected signature
    and a Buffer body. *)
Lemma verifySignature_next (req : request) :
  verifySignature secret req = Next ->
  exists bytes,
    req_body req = Buffer bytes
    /\ lookup sig_header (headers req)
       = Some (expectedSignature secret bytes).
Proof.
  unfold verifySignature, header. fold sig_header.
  destruct (lookup sig_header (headers req)) as [[|c sig]|];
    try discriminate.
  destruct (req_body req) as [bytes|]; try discriminate.
  unfold timingSafeEqual.
  destruct (Nat.eqb _ _); try discriminate.
  destruct (Buf.eqb _ _) eqn:E; try discriminate.
  intros _. exists bytes. split; [reflexivity|].
  apply buf_eqb_true_iff, buf_from_inj in E. now rewrite E.
Qed.

Lemma header_lookup (req : request) (name v : string) :
  lookup name (headers req) = Some v -> header req name = VStr v.
Proof. unfold header. now intros ->. Qed.

(** The library's own verification agrees with the middleware's on a
    body that is UTF-8 text. *)
Lemma verify_after_middleware (req : request) (bytes : list byte)
      (payload : value) :
  secret <> EmptyString ->
  req_body req = Buffer bytes ->
  lookup sig_header (headers req) = Some (expectedSignature secret bytes) ->
  utf8_text bytes ->
  JSON.parse (Utf8.toString bytes) = Some payload ->
  Webhooks.verify secret (Utf8.toString bytes) (header req sig_header)
  = true.
Proof.
  intros Hs Hb Hl Hu Hp. rewrite (header_lookup _ _ _ Hl).
  unfold Webhooks.verify. rewrite sign_utf8 by assumption.
  rewrite buf_eqb_refl, andb_true_r.
  apply parse_nonempty in Hp.
  destruct (String.eqb_spec secret EmptyString); [contradiction|].
  destruct (String.eqb_spec (Utf8.toString bytes) EmptyString);
    [contradiction|].
  now rewrite expectedSignature_cons.
Qed.

Lemma verifyAndReceive_mismatch (id name signature : value) (text : string) :
  Webhooks.verify secret text signature = false ->
  Webhooks.verifyAndReceive w id name signature text
  = (inl (AggregateError
            [Failure "signature does not match event payload and secret"]),
     [webhook_error_log]).
Proof.
  intros H. unfold Webhooks.verifyAndReceive.
  cbn [Webhooks.secret register Webhooks.onError Webhooks.on
       Webhooks.create].
  rewrite H. reflexivity.
Qed.

Lemma verifyAndReceive_match (id name signature : value) (text : string)
      (payload : value) :
  Webhooks.verify secret text signature = true ->
  JSON.parse text = Some payload ->
  Webhooks.verifyAndReceive w id name signature text
  = Webhooks.receive w id name payload.
Proof.
  intros H Hp. unfold Webhooks.verifyAndReceive.
  cbn [Webhooks.secret register Webhooks.onError Webhooks.on
       Webhooks.create].
  now rewrite H, Hp.
Qed.

Lemma text_of (v : value) (s : string) :
  to_text v = Some s -> text v = ret s.
Proof. unfold text. now intros ->. Qed.

Lemma text_str (s : string) : text (VStr s) = ret s.
Proof. reflexivity. Qed.

(** The event name of a request always has a text. *)
Lemma text_header (req : request) :
  text (header req event_header) = ret (event_text req).
Proof.
  unfold header, event_text. now destruct (lookup event_header (headers req)).
Qed.

(** [handleEvent] on an object payload, for an event name that has a
    text. *)
Lemma handleEvent_dispatch (eventName deliveryId : value) (name : string)
      (fs : list (string * value)) :
  to_text eventName = Some name ->
  WebhookHandlers.handleEvent hs eventName (VObj fs) deliveryId
  = let body :=
      match WebhookHandlers.registered eventName with
      | Some h => WebhookHandlers.invoke hs h (VObj fs)
      | None => Logger.warn (String.append "Unhandled event type: " name)
      end in
    let processing :=
      Logged Info
        (String.append "Processing " (String.append name " event")) in
    match fst body with
    | inr _ => (inr tt, processing :: snd body)
    | inl e =>
        (inl e,
         processing :: snd body
         ++ [Logged Err
               (String.append "Error handling "
                  (String.append name " event"))])
    end.
Proof.
  intros Hn. unfold WebhookHandlers.handleEvent.
  rewrite !(text_of _ _ Hn), bind_ret_l.
  rewrite get_object, bind_ret_l.
  destruct (get_opt_ret (field "repository" fs) "full_name") as [x ->].
  rewrite bind_ret_l, get_object, bind_ret_l.
  unfold Logger.info, Logger.log. rewrite bind_emit.
  cbv zeta.
  replace (match WebhookHandlers.registered eventName with
           | Some Push => WebhookHandlers.onPush hs (VObj fs)
           | Some PullRequest => WebhookHandlers.onPullRequest hs (VObj fs)
           | Some Release => WebhookHandlers.onRelease hs (VObj fs)
           | Some WorkflowRun => WebhookHandlers.onWorkflowRun hs (VObj fs)
           | Some Issues => WebhookHandlers.onIssues hs (VObj fs)
           | Some Repository => WebhookHandlers.onRepository hs (VObj fs)
           | None =>
               bind (ret name)
                 (fun name =>
                    Logger.warn
                      (String.append "Unhandled event type: " name))
           end)
    with (match WebhookHandlers.registered eventName with
          | Some h => WebhookHandlers.invoke hs h (VObj fs)
          | None =>
              Logger.warn (String.append "Unhandled event type: " name)
          end)
    by (destruct (WebhookHandlers.registered eventName) as [[]|];
        reflexivity).
  destruct (match WebhookHandlers.registered eventName with
            | Some h => WebhookHandlers.invoke hs h (VObj fs)
            | None => _
            end) as [[e|[]] t]; cbn; reflexivity.
Qed.

Lemma get_non_nullish (v : value) (k : string) :
  nullish v = false -> exists x, get v k = ret x.
Proof. destruct v; simpl; try discriminate; eauto. Qed.

Lemma try_catch_respond {A} (m : M A) (msg : string) (ok ko : outcome) :
  try_catch (bind m (fun _ => ret ok))
    (fun _ => bind (Logger.error msg) (fun _ => ret ko))
  = match fst m with
    | inr _ => (inr ok, snd m)
    | inl _ => (inr ko, snd m ++ [Logged Err msg])
    end.
Proof. destruct m as [[e|x] t]; cbn; now rewrite ?app_nil_r. Qed.

(** The route on a body that decodes to anything but null: whatever
    happens in the library and in the handlers, a response is sent, 200
    or 500. *)
Lemma route_parsed (req : request) (payload : value) :
  JSON.parse (body_text (req_body req)) = Some payload ->
  nullish payload = false ->
  let r :=
    bind (Webhooks.verifyAndReceive w (header req delivery_header)
            (header req event_header) (header req sig_header)
            (body_text (req_body req)))
         (fun _ =>
            WebhookHandlers.handleEvent hs (header req event_header)
              payload (header req delivery_header)) in
  route (make secret hs) req
  = match fst r with
    | inr _ => (inr accepted, received_log req :: snd r)
    | inl _ => (inr internal_error,
                received_log req :: snd r ++ [error_processing_log])
    end.
Proof.
  intros Hp Hn r. unfold route. rewrite Hp, bind_ret_l.
  change (text (header req "x-github-event"))
    with (text (header req event_header)).
  rewrite text_header, bind_ret_l.
  destruct (get_non_nullish payload "repository" Hn) as [x ->].
  rewrite bind_ret_l.
  destruct (get_opt_ret x "full_name") as [y ->].
  rewrite bind_ret_l.
  unfold Logger.info, Logger.log. rewrite bind_emit.
  cbn [webhooks handlers make].
  change (bind (Webhooks.verifyAndReceive w (header req "x-github-delivery")
                  (header req "x-github-event")
                  (header req "x-hub-signature-256")
                  (body_text (req_body req)))
            (fun _ =>
               bind (WebhookHandlers.handleEvent hs (header req "x-github-event")
                       payload (header req "x-github-delivery"))
                    (fun _ => ret (Sent 200 ok_json))))
    with (bind (Webhooks.verifyAndReceive w (header req delivery_header)
                  (header req event_header) (header req sig_header)
                  (body_text (req_body req)))
            (fun _ =>
               bind (WebhookHandlers.handleEvent hs (header req event_header)
                       payload (header req delivery_header))
                    (fun _ => ret accepted))).
  replace (bind (Webhooks.verifyAndReceive w (header req delivery_header)
                   (header req event_header) (header req sig_header)
                   (body_text (req_body req)))
             (fun _ =>
                bind (WebhookHandlers.handleEvent hs (header req event_header)
                        payload (header req delivery_header))
                     (fun _ => ret accepted)))
    with (bind r (fun _ => ret accepted)).
  - rewrite (try_catch_respond r "Error processing webhook"
               accepted (Sent 500 (error_json "Internal server error"))).
    destruct (fst r); reflexivity.
  - unfold r.
    destruct (Webhooks.verifyAndReceive _ _ _ _ _) as [[e|[]] t1];
      [reflexivity|].
    rewrite !bind_ok.
    destruct (WebhookHandlers.handleEvent _ _ _ _) as [[e|[]] t2]; cbn;
      now rewrite ?app_nil_r, ?app_assoc.
Qed.

Lemma route_malformed (req : request) :
  JSON.parse (body_text (req_body req)) = None ->
  route (make secret hs) req = (inl SyntaxError, []).
Proof. intros H. unfold route. now rewrite H. Qed.

Lemma post_webhook_next (req : request) :
  verifySignature secret req = Next ->
  post_webhook (make secret hs) req
  = match route (make secret hs) req with
    | (inl e, t) => (Rejected e, t)
    | (inr o, t) => (o, t)
    end.
Proof. intros H. unfold post_webhook. cbn [webhookSecret make]. now rewrite H. Qed.

End Dispatch.

(** ** Deliveries that pass the signature check *)

Section Deliveries.
Import JS Op Server Notions.

Variable secret : string.

(** The dispatch of a delivery whose body is UTF-8 text decoding to an
    object: the library's verification passes and its [receive] runs,
    then [handleEvent]. *)
Lemma dispatch_object (hs : WebhookHandlers.t) (req : request)
      (bytes : list byte) (fs : list (string * value)) :
  secret <> EmptyString ->
  verifySignature secret req = Next ->
  req_body req = Buffer bytes ->
  utf8_text bytes ->
  JSON.parse (Utf8.toString bytes) = Some (VObj fs) ->
  let r :=
    bind (Webhooks.receive (register hs (Webhooks.create secret))
            (header req delivery_header) (header req event_header)
            (VObj fs))
         (fun _ =>
            WebhookHandlers.handleEvent hs (header req event_header)
              (VObj fs) (header req delivery_header)) in
  post_webhook (make secret hs) req
  = match fst r with
    | inr _ => (accepted, received_log req :: snd r)
    | inl _ => (internal_error,
                received_log req :: snd r ++ [error_processing_log])
    end.
Proof.
  intros Hs Hv Hb Hu Hp r.
  destruct (verifySignature_next secret req Hv) as (bytes' & Hb' & Hl).
  assert (bytes' = bytes) by congruence. subst bytes'.
  rewrite post_webhook_next by assumption.
  rewrite (route_parsed hs secret req (VObj fs))
    by (rewrite ?Hb; cbn [body_text]; auto).
  rewrite Hb. cbn [body_text].
  rewrite (verifyAndReceive_match hs secret _ _ _ _ (VObj fs)
             (verify_after_middleware secret req bytes (VObj fs)
                Hs Hb Hl Hu Hp) Hp).
  fold r. destruct (fst r); reflexivity.
Qed.

Lemma event_text_lookup (req : request) (n : string) :
  lookup event_header (headers req) = Some n -> event_text req = n.
Proof. unfold event_text. now intros ->. Qed.

(** C6 (what the code does). A validly signed delivery whose body is
    UTF-8 JSON text decoding to an object and whose event type is
    present, non-empty and none of the six registered ones invokes no
    handler and makes no API request. It is answered 200, the type
    being only logged, unless the library's own dispatch fails on it,
    which it does in two cases: the event type is the name of a member
    of Object.prototype that throws when run as a hook (hasOwnProperty,
    valueOf, __proto__, ...), or the action of the payload has no text.
    Then the answer is 500. Under the event type [error] the error
    callback of the program runs as a hook, which adds a log line. *)
Theorem C6_unregistered_event_outcome
        (hs : WebhookHandlers.t) (req : request) (bytes : list byte)
        (fs : list (string * value)) (n : string) :
  secret <> EmptyString ->
  verifySignature secret req = Next ->
  req_body req = Buffer bytes ->
  utf8_text bytes ->
  JSON.parse (Utf8.toString bytes) = Some (VObj fs) ->
  lookup event_header (headers req) = Some n ->
  n <> EmptyString ->
  WebhookHandlers.registered (VStr n) = None ->
  post_webhook (make secret hs) req
  = (if convertible (field "action" fs)
     then
       if String.eqb n "error"
       then (accepted,
             [received_log req; webhook_error_log; processing_log req;
              unhandled_log req])
       else if poisoned n
       then (internal_error,
             [received_log req; webhook_error_log; error_processing_log])
       else (accepted,
             [received_log req; processing_log req; unhandled_log req])
     else (internal_error, [received_log req; error_processing_log]))
  /\ handled (snd (post_webhook (make secret hs) req)) = []
  /\ api_calls (snd (post_webhook (make secret hs) req)) = []
  /\ only_logs (snd (post_webhook (make secret hs) req)).
Proof.
  intros Hs Hv Hb Hu Hp Hn Hne Hun.
  assert (Q : forall id,
             WebhookHandlers.handleEvent hs (VStr n) (VObj fs) id
             = (inr tt, [processing_log req; unhandled_log req])).
  { intros id.
    rewrite (handleEvent_dispatch hs (VStr n) id n fs eq_refl).
    rewrite Hun. unfold processing_log, unhandled_log.
    now rewrite (event_text_lookup req n Hn). }
  rewrite (dispatch_object hs req bytes fs) by assumption.
  rewrite (header_lookup _ _ _ Hn).
  rewrite receive_unregistered by assumption.
  assert (L : forall t : list event,
             (forall ev, In ev t ->
                         In ev [received_log req; webhook_error_log;
                                processing_log req; unhandled_log req;
                                error_processing_log]) ->
             handled t = [] /\ api_calls t = [] /\ only_logs t).
  { intros t Ht.
    assert (O : only_logs t).
    { intros ev H. apply Ht in H.
      unfold received_log, processing_log, unhandled_log,
        webhook_error_log, error_processing_log in H.
      simpl in H. decompose [or] H; subst; eauto; contradiction. }
    repeat split; [| |exact O];
      clear Ht; induction t as [|ev t IH]; [reflexivity| |reflexivity|];
      (destruct (O ev (or_introl eq_refl)) as (l & msg & ->);
       apply IH; intros ev' H'; apply O; now right). }
  destruct (convertible (field "action" fs)).
  - destruct (String.eqb n "error").
    + rewrite bind_ok, Q.
      split; [reflexivity|]. apply L. simpl. tauto.
    + destruct (poisoned n).
      * rewrite bind_err. split; [reflexivity|]. apply L. simpl. tauto.
      * rewrite bind_ret_l, Q.
        split; [reflexivity|]. apply L. simpl. tauto.
  - unfold throw. rewrite bind_err.
    split; [reflexivity|]. apply L. simpl. tauto.
Qed.

(** C3 (what the code does). A validly signed request whose body is
    not well-formed JSON gets no response from the program at all:
    [JSON.parse] throws before the [try] block, so the SyntaxError
    leaves the callback of the route as a rejection; nothing is sent
    (neither a 4xx nor the 500 of the [catch]), nothing is logged and
    no handler is invoked. *)
Theorem C3_malformed_json_is_not_answered
        (hs : WebhookHandlers.t) (req : request) :
  verifySignature secret req = Next ->
  JSON.parse (body_text (req_body req)) = None ->
  post_webhook (make secret hs) req = (Rejected SyntaxError, [])
  /\ forall status json,
       fst (post_webhook (make secret hs) req) <> Sent status json.
Proof.
  intros Hv Hp. rewrite post_webhook_next by assumption.
  rewrite route_malformed by assumption.
  split; [reflexivity | discriminate].
Qed.

(** Each handler of the program, given the event object of the
    library instead of a payload, stops with a TypeError before any
    effect: the event object has none of the fields [handle] takes
    from a payload. *)
Lemma handler_on_event_object (octokit : option Octokit.client)
      (h : handler_name) (id name payload : value) :
  WebhookHandlers.handler_of (WebhookHandlers.create octokit) h
    (VObj [("id", id); ("name", name); ("payload", payload)])
  = (inl TypeError, []).
Proof. destruct h; reflexivity. Qed.

Lemma value_in_itself (v : value) (pre post : list (string * value))
      (k : string) :
  v <> VObj (pre ++ (k, v) :: post).
Proof.
  intros H. apply (f_equal size) in H. simpl in H.
  rewrite map_app, list_sum_app in H. simpl in H. lia.
Qed.

Lemma payload_is_not_its_envelope (req : request) (payload : value) :
  payload <> envelope req payload.
Proof.
  unfold envelope.
  apply (value_in_itself payload
           [("id", header req delivery_header);
            ("name", header req event_header)] [] "payload").
Qed.

(** The dispatch of a registered event type by the program's own
    handlers: the library's hook runs [handle] on the event object,
    which throws; [handleEvent] is not reached; the answer is 500.
    When the action of the payload has no text, the library throws
    before it runs any hook. *)
Lemma registered_event_dispatch (octokit : option Octokit.client)
      (req : request) (bytes : list byte) (fs : list (string * value))
      (h : handler_name) :
  secret <> EmptyString ->
  verifySignature secret req = Next ->
  req_body req = Buffer bytes ->
  utf8_text bytes ->
  JSON.parse (Utf8.toString bytes) = Some (VObj fs) ->
  lookup event_header (headers req) = Some (event_name h) ->
  post_webhook (make secret (WebhookHandlers.create octokit)) req
  = (internal_error,
     if convertible (field "action" fs)
     then [received_log req; Handled h (envelope req (VObj fs));
           webhook_error_log; error_processing_log]
     else [received_log req; error_processing_log]).
Proof.
  intros Hs Hv Hb Hu Hp Hn.
  rewrite (dispatch_object _ req bytes fs) by assumption.
  rewrite (header_lookup _ _ _ Hn), receive_registered.
  unfold envelope. rewrite (header_lookup _ _ _ Hn).
  rewrite handler_on_event_object.
  now destruct (convertible (field "action" fs)).
Qed.


Lemma registered_event_is_500 (octokit : option Octokit.client)
      (req : request) (bytes : list byte) (fs : list (string * value))
      (h : handler_name) :
  verifySignature secret req = Next ->
  req_body req = Buffer bytes ->
  JSON.parse (Utf8.toString bytes) = Some (VObj fs) ->
  lookup event_header (headers req) = Some (event_name h) ->
  fst (post_webhook (make secret (WebhookHandlers.create octokit)) req)
  = internal_error
  /\ api_calls
       (snd (post_webhook (make secret (WebhookHandlers.create octokit)) req))
     = [].
Proof.
  intros Hv Hb Hp Hn.
  rewrite post_webhook_next by assumption.
  rewrite (route_parsed _ secret req (VObj fs))
    by (rewrite ?Hb; cbn [body_text]; auto).
  rewrite Hb. cbn [body_text].
  destruct (Webhooks.verify secret (Utf8.toString bytes)
              (header req sig_header)) eqn:E.
  - rewrite (verifyAndReceive_match _ secret _ _ _ _ (VObj fs) E Hp).
    rewrite (header_lookup _ _ _ Hn), receive_registered.
    rewrite handler_on_event_object.
    destruct (convertible (field "action" fs)); split; reflexivity.
  - rewrite (verifyAndReceive_mismatch _ secret _ _ _ _ E).
    split; reflexivity.
Qed.

(** C1 (what the code does). For a validly signed delivery of a
    registered event type whose body is UTF-8 JSON text decoding to an
    object, [handle] of the corresponding handler is entered exactly
    once, by the hook registered with [webhooks.on], and with the event
    object [{ id, name, payload }] of the library, which is not the
    decoded payload; it throws, [handleEvent] is never reached, and the
    delivery is answered 500. (When the action of the payload has no
    text, the library fails before the hook and [handle] is not entered
    at all.) The handler is entered zero times with the decoded
    payload. *)
Theorem C1_handler_gets_event_object_not_payload
        (octokit : option Octokit.client) (req : request)
        (bytes : list byte) (fs : list (string * value))
        (h : handler_name) :
  secret <> EmptyString ->
  verifySignature secret req = Next ->
  req_body req = Buffer bytes ->
  utf8_text bytes ->
  JSON.parse (Utf8.toString bytes) = Some (VObj fs) ->
  lookup event_header (headers req) = Some (event_name h) ->
  let r := post_webhook (make secret (WebhookHandlers.create octokit)) req in
  fst r = internal_error
  /\ handled (snd r)
     = (if convertible (field "action" fs)
        then [(h, envelope req (VObj fs))]
        else [])
  /\ ~ In (h, VObj fs) (handled (snd r)).
Proof.
  intros Hs Hv Hb Hu Hp Hn r. unfold r.
  rewrite (registered_event_dispatch octokit req bytes fs h) by assumption.
  destruct (convertible (field "action" fs)); repeat split;
    [intros [H|[]] | intros []].
  apply (payload_is_not_its_envelope req (VObj fs)). congruence.
Qed.

(** With handlers that accept the event object, the two dispatch paths
    both run: [handle] is entered twice for one delivery, first on the
    event object, then on the payload. *)
Lemma tolerant_handler_runs_twice
      (hs : WebhookHandlers.t) (req : request) (bytes : list byte)
      (fs : list (string * value)) (h : handler_name)
      (t1 t2 : list event) :
  secret <> EmptyString ->
  verifySignature secret req = Next ->
  req_body req = Buffer bytes ->
  utf8_text bytes ->
  JSON.parse (Utf8.toString bytes) = Some (VObj fs) ->
  lookup event_header (headers req) = Some (event_name h) ->
  convertible (field "action" fs) = true ->
  WebhookHandlers.handler_of hs h (envelope req (VObj fs)) = (inr tt, t1) ->
  WebhookHandlers.handler_of hs h (VObj fs) = (inr tt, t2) ->
  handled t1 = [] ->
  handled t2 = [] ->
  fst (post_webhook (make secret hs) req) = accepted
  /\ handled (snd (post_webhook (make secret hs) req))
     = [(h, envelope req (VObj fs)); (h, VObj fs)].
Proof.
  intros Hs Hv Hb Hu Hp Hn Hc H1 H2 Q1 Q2.
  rewrite (dispatch_object hs req bytes fs) by assumption.
  unfold envelope in *. rewrite (header_lookup _ _ _ Hn) in *.
  rewrite receive_registered, Hc, H1. cbn [fst snd].
  rewrite bind_ok,
    (handleEvent_dispatch hs (VStr (event_name h)) _ (event_name h) fs
       eq_refl),
    registered_event_name.
  cbv zeta. rewrite invoke_run, H2. cbn [fst snd].
  split; [reflexivity|].
  unfold handled in *. cbn [flat_map List.app].
  rewrite flat_map_app, Q1. cbn [flat_map List.app]. now rewrite Q2.
Qed.

(** C8 (what the code does). Without a client for the platform API, a
    validly signed delivery of a registered event type whose body
    decodes to an object is answered 500, not 200 (no API request is
    made on the way). *)
Theorem C8_without_client_registered_delivery_fails
        (req : request) (bytes : list byte) (fs : list (string * value))
        (h : handler_name) :
  verifySignature secret req = Next ->
  req_body req = Buffer bytes ->
  JSON.parse (Utf8.toString bytes) = Some (VObj fs) ->
  lookup event_header (headers req) = Some (event_name h) ->
  fst (post_webhook (make secret (WebhookHandlers.create None)) req)
  = internal_error
  /\ api_calls
       (snd (post_webhook (make secret (WebhookHandlers.create None)) req))
     = [].
Proof. apply registered_event_is_500. Qed.






(** A delivery of a registered event type whose handler throws, on the
    event object or on the payload, is answered 500: the exception does
    not leave the route. *)
Lemma failing_handler_is_500 (hs : WebhookHandlers.t) (req : request)
      (bytes : list byte) (fs : list (string * value))
      (h : handler_name) :
  verifySignature secret req = Next ->
  req_body req = Buffer bytes ->
  JSON.parse (Utf8.toString bytes) = Some (VObj fs) ->
  lookup event_header (headers req) = Some (event_name h) ->
  failed (WebhookHandlers.handler_of hs h (envelope req (VObj fs)))
  \/ failed (WebhookHandlers.handler_of hs h (VObj fs)) ->
  exists t, post_webhook (make secret hs) req = (internal_error, t).
Proof.
  intros Hv Hb Hp Hn Hf.
  rewrite post_webhook_next by assumption.
  rewrite (route_parsed _ secret req (VObj fs))
    by (rewrite ?Hb; cbn [body_text]; auto).
  rewrite Hb. cbn [body_text].
  destruct (Webhooks.verify secret (Utf8.toString bytes)
              (header req sig_header)) eqn:E.
  - rewrite (verifyAndReceive_match _ secret _ _ _ _ (VObj fs) E Hp).
    unfold envelope in Hf.
    rewrite (header_lookup _ _ _ Hn) in *. rewrite receive_registered.
    destruct (convertible (field "action" fs));
      [|unfold throw; rewrite bind_err; cbn [fst snd]; eauto].
    destruct (WebhookHandlers.handler_of hs h
                (VObj [("id", header req delivery_header);
                       ("name", VStr (event_name h));
                       ("payload", VObj fs)])) as [[e|[]] t1] eqn:E1;
      cbn [fst snd].
    + rewrite bind_err. cbn [fst snd]. eauto.
    + rewrite bind_ok,
        (handleEvent_dispatch hs (VStr (event_name h)) _ (event_name h) fs
           eq_refl),
        registered_event_name.
      cbv zeta. rewrite invoke_run. cbn [fst snd].
      destruct Hf as [[e He]|[e He]]; [discriminate He|].
      unfold result in He. rewrite He. cbn [fst snd]. eauto.
  - rewrite (verifyAndReceive_mismatch _ secret _ _ _ _ E).
    rewrite bind_err. cbn [fst snd]. eauto.
Qed.

(** A well-formed delivery on which the library's dispatch does not
    fail by itself and during which no handler throws is answered 200. *)
Lemma quiet_delivery_is_200 (hs : WebhookHandlers.t) (req : request)
      (bytes : list byte) (fs : list (string * value)) (n : string) :
  secret <> EmptyString ->
  verifySignature secret req = Next ->
  req_body req = Buffer bytes ->
  utf8_text bytes ->
  JSON.parse (Utf8.toString bytes) = Some (VObj fs) ->
  lookup event_header (headers req) = Some n ->
  n <> EmptyString ->
  convertible (field "action" fs) = true ->
  poisoned n = false ->
  (forall h,
      WebhookHandlers.registered (VStr n) = Some h ->
      succeeded (WebhookHandlers.handler_of hs h (envelope req (VObj fs)))
      /\ succeeded (WebhookHandlers.handler_of hs h (VObj fs))) ->
  exists t, post_webhook (make secret hs) req = (accepted, t).
Proof.
  intros Hs Hv Hb Hu Hp Hn Hne Hc Hi Hq.
  rewrite (dispatch_object hs req bytes fs) by assumption.
  unfold envelope in Hq. rewrite (header_lookup _ _ _ Hn) in *.
  rewrite (handleEvent_dispatch hs (VStr n) _ n fs eq_refl).
  destruct (WebhookHandlers.registered (VStr n)) as [h|] eqn:R.
  - destruct (Hq h eq_refl) as [[[] H1] [[] H2]].
    apply registered_inv in R. subst n.
    rewrite receive_registered, Hc. unfold result in H1, H2.
    rewrite H1. cbn [fst snd].
    rewrite bind_ok. cbv zeta. rewrite invoke_run. cbn [fst snd].
    rewrite H2. cbn [fst snd]. eauto.
  - rewrite receive_unregistered, Hc, Hi by assumption.
    destruct (String.eqb n "error");
      [rewrite bind_ok | rewrite bind_ret_l]; cbn; eauto.
Qed.

(** The route keeps the failure of a handler to its delivery, for any
    six handlers: the failing delivery is answered 500, the process
    goes on, and a later delivery during which nothing throws is
    answered 200. *)
Lemma failure_is_isolated
      (hs : WebhookHandlers.t) (d1 d2 : request) (rest : list request)
      (bytes1 bytes2 : list byte) (fs1 fs2 : list (string * value))
      (h1 : handler_name) (n2 : string) :
  secret <> EmptyString ->
  verifySignature secret d1 = Next ->
  req_body d1 = Buffer bytes1 ->
  JSON.parse (Utf8.toString bytes1) = Some (VObj fs1) ->
  lookup event_header (headers d1) = Some (event_name h1) ->
  failed (WebhookHandlers.handler_of hs h1 (envelope d1 (VObj fs1)))
  \/ failed (WebhookHandlers.handler_of hs h1 (VObj fs1)) ->
  verifySignature secret d2 = Next ->
  req_body d2 = Buffer bytes2 ->
  utf8_text bytes2 ->
  JSON.parse (Utf8.toString bytes2) = Some (VObj fs2) ->
  lookup event_header (headers d2) = Some n2 ->
  n2 <> EmptyString ->
  convertible (field "action" fs2) = true ->
  poisoned n2 = false ->
  (forall h2,
      WebhookHandlers.registered (VStr n2) = Some h2 ->
      succeeded (WebhookHandlers.handler_of hs h2 (envelope d2 (VObj fs2)))
      /\ succeeded (WebhookHandlers.handler_of hs h2 (VObj fs2))) ->
  exists t1 t2,
    serve (make secret hs) (d1 :: d2 :: rest)
    = (internal_error, t1) :: (accepted, t2)
        :: serve (make secret hs) rest.
Proof.
  intros Hs Hv1 Hb1 Hp1 Hn1 Hf Hv2 Hb2 Hu2 Hp2 Hn2 Hne2 Hc Hi Hq.
  destruct (failing_handler_is_500 hs d1 bytes1 fs1 h1) as [t1 E1];
    try assumption.
  destruct (quiet_delivery_is_200 hs d2 bytes2 fs2 n2) as [t2 E2];
    try assumption.
  exists t1, t2. cbn [serve]. now rewrite E1, E2.
Qed.


End Deliveries.

(** ** The servers a push or a pull request affects *)

Section AffectedServers.
Import JS Op Notions.

Lemma segment_spec (s : string) :
  let (a, b) := Str.segment s in
  s = String.append a b
  /\ has_slash a = false
  /\ (b = EmptyString \/ exists r, b = String "/" r).
Proof.
  induction s as [|c s IH]; simpl; [auto|].
  destruct (Ascii.eqb_spec c "/") as [->|Hc].
  - simpl. eauto.
  - destruct (Str.segment s) as [a b]. destruct IH as (-> & Ha & Hb).
    simpl. rewrite Ha. apply Ascii.eqb_neq in Hc. rewrite Hc. auto.
Qed.

Lemma segment_append (name rest : string) :
  has_slash name = false ->
  Str.segment (String.append name (String "/" rest))
  = (name, String "/" rest).
Proof.
  induction name as [|c name IH]; simpl; [reflexivity|].
  intros H. apply orb_false_iff in H as [Hc Hn].
  rewrite Hc, IH by assumption. reflexivity.
Qed.

(** The regular expression [/^src\/([^\/]+)\//] captures [name] exactly
    on the paths of the form src/[name]/... *)
Lemma server_of_path_spec (path name : string) :
  Str.server_of_path path = Some name <-> under_server name path.
Proof.
  unfold under_server. split.
  - unfold Str.server_of_path.
    destruct path as [|c1 [|c2 [|c3 [|c4 rest]]]]; try discriminate;
      try (destruct c1 as [[] [] [] [] [] [] [] []]; discriminate).
    + destruct c1 as [[] [] [] [] [] [] [] []]; try discriminate.
      destruct c2 as [[] [] [] [] [] [] [] []]; discriminate.
    + destruct c1 as [[] [] [] [] [] [] [] []]; try discriminate.
      destruct c2 as [[] [] [] [] [] [] [] []]; try discriminate.
      destruct c3 as [[] [] [] [] [] [] [] []]; discriminate.
    + destruct c1 as [[] [] [] [] [] [] [] []]; try discriminate.
      destruct c2 as [[] [] [] [] [] [] [] []]; try discriminate.
      destruct c3 as [[] [] [] [] [] [] [] []]; try discriminate.
      destruct c4 as [[] [] [] [] [] [] [] []]; try discriminate.
      pose proof (segment_spec rest) as H.
      destruct (Str.segment rest) as [a b].
      destruct H as (-> & Ha & Hb).
      destruct a as [|c a]; [discriminate|].
      destruct b as [|d b]; [discriminate|].
      intros E. injection E as <-.
      destruct Hb as [Hb|[r Hb]]; [discriminate|]. injection Hb as -> ->.
      repeat split; [discriminate | assumption | exists r; reflexivity].
  - intros (Hne & Hs & rest & ->). cbn [String.append Str.server_of_path].
    change (String.append "/" rest) with (String "/" rest).
    rewrite segment_append by assumption.
    destruct name; [contradiction | reflexivity].
Qed.

Lemma set_add_In (name x : string) (servers : list string) :
  In x (PushHandler.set_add name servers) <-> x = name \/ In x servers.
Proof.
  unfold PushHandler.set_add.
  destruct (existsb (String.eqb name) servers) eqn:E.
  - apply existsb_exists in E as (y & Hy & Heq).
    apply String.eqb_eq in Heq. subst y.
    split; [auto | intros [->|H]; assumption].
  - rewrite in_app_iff. simpl. intuition (subst; auto).
Qed.

Lemma set_add_NoDup (name : string) (servers : list string) :
  NoDup servers -> NoDup (PushHandler.set_add name servers).
Proof.
  intros H. unfold PushHandler.set_add.
  destruct (existsb (String.eqb name) servers) eqn:E; [assumption|].
  apply NoDup_app; [assumption | repeat constructor; auto |].
  intros x Hx [<-|[]].
  assert (existsb (String.eqb name) servers = true); [|congruence].
  apply existsb_exists. exists name. split; [assumption|].
  apply String.eqb_refl.
Qed.

Lemma collect_NoDup (paths servers : list string) :
  NoDup servers -> NoDup (collect paths servers).
Proof.
  revert servers. induction paths as [|p r IH]; intros servers H; simpl;
    [assumption|].
  apply IH. destruct (Str.server_of_path p); [now apply set_add_NoDup|assumption].
Qed.

Lemma collect_In (paths servers : list string) (name : string) :
  In name (collect paths servers)
  <-> In name servers
      \/ exists path, In path paths /\ Str.server_of_path path = Some name.
Proof.
  revert servers. induction paths as [|p r IH]; intros servers; simpl.
  - split; [auto | intros [H|(path & [] & _)]; assumption].
  - rewrite IH. destruct (Str.server_of_path p) as [n|] eqn:E.
    + rewrite set_add_In. split.
      * intros [[->|H]|(path & Hp & Hs)]; eauto 6.
      * intros [H|(path & [<-|Hp] & Hs)]; eauto 6.
        left. left. congruence.
    + split.
      * intros [H|(path & Hp & Hs)]; eauto 6.
      * intros [H|(path & [<-|Hp] & Hs)]; eauto 6. congruence.
Qed.

Lemma collect_app (ps qs servers : list string) :
  collect (ps ++ qs) servers = collect qs (collect ps servers).
Proof.
  revert servers. induction ps as [|p r IH]; intros servers; simpl;
    [reflexivity | apply IH].
Qed.

Lemma scan_files_strings (paths servers : list string) :
  PushHandler.scan_files (map VStr paths) servers
  = ret (collect paths servers).
Proof.
  revert servers. induction paths as [|p r IH]; intros servers;
    cbn [PushHandler.scan_files map as_string collect]; [reflexivity|].
  rewrite bind_ret_l. apply IH.
Qed.

Lemma scan_paths_strings (paths servers : list string) :
  PullRequestHandler.scan_paths (map VStr paths) servers
  = ret (collect paths servers).
Proof.
  revert servers. induction paths as [|p r IH]; intros servers;
    cbn [PullRequestHandler.scan_paths map as_string collect];
    [reflexivity|].
  rewrite bind_ret_l. apply IH.
Qed.

Lemma strings_map (l : list value) (ss : list string) :
  strings l = Some ss -> l = map VStr ss.
Proof.
  revert ss. induction l as [|v l IH]; intros ss; simpl.
  - intros E. now injection E as <-.
  - destruct v; try discriminate.
    destruct (strings l) as [ts|]; try discriminate.
    intros E. injection E as <-. simpl. f_equal. now apply IH.
Qed.

(** [[...(v || [])]] for a key the commit lacks or lists strings under. *)
Lemma iterate_listed (v : value) (ss : list string) :
  listed v = Some ss -> iterate (or_empty v) = ret (map VStr ss).
Proof.
  destruct v; simpl; try discriminate;
    try (intros E; now injection E as <-).
  intros E. apply strings_map in E. now subst.
Qed.

Lemma changedFiles_paths (commit : value) (ps : list string) :
  commit_paths commit = Some ps ->
  PushHandler.changedFiles commit = ret (map VStr ps).
Proof.
  destruct commit as [| | | | | |fs]; try discriminate. simpl.
  destruct (listed (field "added" fs)) as [a|] eqn:Ea; try discriminate.
  destruct (listed (field "modified" fs)) as [m|] eqn:Em; try discriminate.
  destruct (listed (field "removed" fs)) as [r|] eqn:Er; try discriminate.
  intros E. injection E as <-.
  unfold PushHandler.changedFiles.
  rewrite get_object, bind_ret_l, (iterate_listed _ _ Ea), bind_ret_l.
  rewrite get_object, bind_ret_l, (iterate_listed _ _ Em), bind_ret_l.
  rewrite get_object, bind_ret_l, (iterate_listed _ _ Er), bind_ret_l.
  now rewrite !map_app.
Qed.

Lemma scan_commits_paths (commits : list value) (paths servers : list string) :
  all_paths commits = Some paths ->
  PushHandler.scan_commits commits servers = ret (collect paths servers).
Proof.
  revert paths servers.
  induction commits as [|c r IH]; intros paths servers; simpl.
  - intros E. now injection E as <-.
  - destruct (commit_paths c) as [ps|] eqn:Ec; try discriminate.
    destruct (all_paths r) as [qs|] eqn:Er; try discriminate.
    intros E. injection E as <-.
    rewrite (changedFiles_paths _ _ Ec), bind_ret_l.
    rewrite scan_files_strings, bind_ret_l.
    rewrite collect_app. now apply IH.
Qed.

Lemma all_paths_In (commits : list value) (paths : list string)
      (path : string) :
  all_paths commits = Some paths ->
  (In path paths
   <-> exists commit ps,
         In commit commits /\ commit_paths commit = Some ps /\ In path ps).
Proof.
  revert paths. induction commits as [|c r IH]; intros paths; simpl.
  - intros E. injection E as <-. split; [intros [] | intros (? & ? & [] & _)].
  - destruct (commit_paths c) as [ps|] eqn:Ec; try discriminate.
    destruct (all_paths r) as [qs|] eqn:Er; try discriminate.
    intros E. injection E as <-. rewrite in_app_iff, (IH qs eq_refl).
    split.
    + intros [H|(commit & ps' & Hc & Hp & Hi)]; eauto 8.
    + intros (commit & ps' & [<-|Hc] & Hp & Hi); eauto 8.
      left. congruence.
Qed.

(** C10. For every list of commits (objects whose added, modified and
    removed, where present, are arrays of strings),
    [getAffectedServers] returns a list without duplicates that holds
    exactly the names [name] for which some commit lists a path of the
    form src/[name]/... under one of the three keys; a commit lacking
    the arrays contributes no path; and
    [getAffectedServersFromPaths] returns the same list from the flat
    list of the commits' paths. *)
Theorem C10_affected_servers (commits : list value) (paths : list string) :
  all_paths commits = Some paths ->
  exists servers,
    PushHandler.getAffectedServers (VArr commits) = ret servers
    /\ NoDup servers
    /\ (forall name,
           In name servers
           <-> exists commit ps path,
                 In commit commits
                 /\ commit_paths commit = Some ps
                 /\ In path ps
                 /\ under_server name path)
    /\ (forall fs,
           has_field "added" fs = false ->
           has_field "modified" fs = false ->
           has_field "removed" fs = false ->
           PushHandler.getAffectedServers (VArr (commits ++ [VObj fs]))
           = ret servers)
    /\ PullRequestHandler.getAffectedServersFromPaths (map VStr paths)
       = ret servers.
Proof.
  intros Hp. exists (collect paths []).
  split; [|split; [|split; [|split]]].
  - unfold PushHandler.getAffectedServers. cbn [iterate].
    rewrite bind_ret_l. now apply scan_commits_paths.
  - apply collect_NoDup. constructor.
  - intros name. rewrite collect_In. split.
    + intros [[]|(path & Hin & Hs)].
      apply (all_paths_In commits paths path Hp) in Hin
        as (commit & ps & Hc & Hcp & Hi).
      apply server_of_path_spec in Hs. eauto 8.
    + intros (commit & ps & path & Hc & Hcp & Hi & Hu). right.
      exists path. split; [|now apply server_of_path_spec].
      apply (all_paths_In commits paths path Hp). eauto.
  - intros fs Ha Hm Hr.
    assert (Hc : commit_paths (VObj fs) = Some [])
      by (cbn [commit_paths];
          now rewrite !field_absent by assumption).
    unfold PushHandler.getAffectedServers. cbn [iterate].
    rewrite bind_ret_l. apply scan_commits_paths.
    clear -Hp Hc. revert paths Hp.
    induction commits as [|c r IH]; intros paths; simpl.
    + intros E. injection E as <-. simpl in Hc. now rewrite Hc.
    + destruct (commit_paths c) as [ps|]; try discriminate.
      destruct (all_paths r) as [qs|]; try discriminate.
      intros E. injection E as <-. now rewrite (IH qs eq_refl).
  - apply scan_paths_strings.
Qed.

End AffectedServers.

(** ** The properties at the sample deliveries *)

Section AtSamples.
Import JS Op Server Notions.

Lemma C6_witness :
  post_webhook Samples.server
    (Samples.delivery "hasOwnProperty" Samples.empty_body)
  = (internal_error,
     [received_log (Samples.delivery "hasOwnProperty" Samples.empty_body);
      webhook_error_log; error_processing_log]).
Proof.
  refine (proj1 (C6_unregistered_event_outcome
                   Samples.secret (WebhookHandlers.create None)
                   (Samples.delivery "hasOwnProperty" Samples.empty_body)
                   Samples.empty_body [] "hasOwnProperty"
                   _ _ _ _ _ _ _ _)).
  - discriminate.
  - vm_compute. reflexivity.
  - reflexivity.
  - vm_compute. reflexivity.
  - vm_compute. reflexivity.
  - reflexivity.
  - discriminate.
  - reflexivity.
Defined.

(** Deliveries of event types without a handler: one is accepted and
    only logged; one runs the error callback as a hook; one has an
    action without a text. *)
Example unregistered_deliveries :
  map (fun d => (fst (post_webhook Samples.server d),
                 Shapes.logs (snd (post_webhook Samples.server d))))
    [Samples.delivery "ping" Samples.push_body;
     Samples.delivery "error" Samples.empty_body;
     Samples.delivery "ping" Samples.odd_action_body]
  = [(accepted,
      [(Info, "Received ping event"); (Info, "Processing ping event");
       (Warn, "Unhandled event type: ping")]);
     (accepted,
      [(Info, "Received error event"); (Err, "Webhook error");
       (Info, "Processing error event");
       (Warn, "Unhandled event type: error")]);
     (internal_error,
      [(Info, "Received ping event"); (Err, "Error processing webhook")])].
Proof. vm_compute. reflexivity. Qed.

Lemma C3_witness :
  post_webhook Samples.server
    (Samples.delivery "push" Samples.malformed_body)
  = (Rejected SyntaxError, [])
  /\ forall status json,
       fst (post_webhook Samples.server
              (Samples.delivery "push" Samples.malformed_body))
       <> Sent status json.
Proof.
  refine (C3_malformed_json_is_not_answered
            Samples.secret (WebhookHandlers.create None)
            (Samples.delivery "push" Samples.malformed_body) _ _).
  - vm_compute. reflexivity.
  - vm_compute. reflexivity.
Defined.

Lemma C1_witness :
  let r := post_webhook Samples.server
             (Samples.delivery "push" Samples.push_body) in
  fst r = internal_error
  /\ handled (snd r)
     = [(Push, envelope (Samples.delivery "push" Samples.push_body)
                 (VObj Samples.push_fields))]
  /\ ~ In (Push, VObj Samples.push_fields) (handled (snd r)).
Proof.
  refine (C1_handler_gets_event_object_not_payload
            Samples.secret None
            (Samples.delivery "push" Samples.push_body)
            Samples.push_body Samples.push_fields Push _ _ _ _ _ _).
  - discriminate.
  - vm_compute. reflexivity.
  - reflexivity.
  - vm_compute. reflexivity.
  - vm_compute. reflexivity.
  - reflexivity.
Defined.

Lemma C8_witness :
  fst (post_webhook Samples.server
         (Samples.delivery "pull_request" Samples.pull_request_body))
  = internal_error
  /\ api_calls
       (snd (post_webhook Samples.server
               (Samples.delivery "pull_request"
                  Samples.pull_request_body)))
     = [].
Proof.
  refine (C8_without_client_registered_delivery_fails
            Samples.secret
            (Samples.delivery "pull_request" Samples.pull_request_body)
            Samples.pull_request_body Samples.pull_request_fields
            PullRequest _ _ _ _).
  - vm_compute. reflexivity.
  - reflexivity.
  - vm_compute. reflexivity.
  - reflexivity.
Defined.


Example push_sample_has_the_fields :
  forallb (fun k => has_field k Samples.push_fields) (required_fields Push)
  = true
  /\ result (WebhookHandlers.handleEvent (WebhookHandlers.create None)
               (VStr "push") (VObj Samples.push_fields)
               (VStr "test-delivery-id"))
     = inr tt.
Proof. split; reflexivity. Qed.

(** A push without [pusher]: [handleEvent] throws on its payload. *)
Example handleEvent_without_pusher :
  WebhookHandlers.handleEvent (WebhookHandlers.create None)
    (VStr "push") (VObj Samples.push_without_pusher_fields)
    (VStr "test-delivery-id")
  = (inl TypeError,
     [Logged Info "Processing push event";
      Handled Push (VObj Samples.push_without_pusher_fields);
      Logged Err "Error handling push event"]).
Proof. reflexivity. Qed.


Example handlers_on_sample_payloads :
  result (PushHandler.handle None (VObj Samples.push_fields)) = inr tt
  /\ result (PushHandler.handle None
               (VObj Samples.push_without_pusher_fields))
     = inl TypeError.
Proof. split; reflexivity. Qed.

Lemma C10_witness :
  exists servers,
    PushHandler.getAffectedServers (VArr Samples.commits) = ret servers
    /\ NoDup servers
    /\ (forall name,
           In name servers
           <-> exists commit ps path,
                 In commit Samples.commits
                 /\ commit_paths commit = Some ps
                 /\ In path ps
                 /\ under_server name path)
    /\ (forall fs,
           has_field "added" fs = false ->
           has_field "modified" fs = false ->
           has_field "removed" fs = false ->
           PushHandler.getAffectedServers
             (VArr (Samples.commits ++ [VObj fs]))
           = ret servers)
    /\ PullRequestHandler.getAffectedServersFromPaths
         (map VStr Samples.commits_paths)
       = ret servers.
Proof.
  apply (C10_affected_servers Samples.commits Samples.commits_paths).
  reflexivity.
Defined.

Example affected_servers_of_sample :
  PushHandler.getAffectedServers (VArr Samples.commits)
  = ret ["git"; "fetch"; "time"].
Proof. reflexivity. Qed.

(** C8, the part that holds: without a client, each operation that
    needs the API returns at once, with no request and no exception. *)
Lemma operations_skip_without_client
      (repository x : value) (names : list string) (msg : string) :
  PushHandler.triggerServerTests None repository names = ret tt
  /\ PullRequestHandler.addLabelsBasedOnChanges None repository x = ret tt
  /\ PullRequestHandler.checkAffectedServers None repository x = ret tt
  /\ PullRequestHandler.addWelcomeComment None repository x = ret tt
  /\ PullRequestHandler.requestReviewers None repository x = ret tt
  /\ IssuesHandler.autoLabelIssue None repository x = ret tt
  /\ IssuesHandler.addWelcomeComment None repository x = ret tt
  /\ IssuesHandler.add_labels_if_client None repository x names msg = ret tt
  /\ ReleaseHandler.verifyNpmPackages None repository x = ret tt
  /\ ReleaseHandler.verifyPyPIPackages None repository x = ret tt
  /\ ReleaseHandler.getPreviousReleaseTag None repository
     = ret (VStr "HEAD~10")
  /\ WorkflowHandler.analyzeWorkflowFailure None repository x = ret tt
  /\ ReleaseHandler.generateReleaseMetrics None repository x
     = bind (touch repository) (fun _ =>
       bind (touch x) (fun _ =>
       bind (Logger.info "Generating release metrics") (fun _ => ret tt)))
  /\ PushHandler.handleReleaseBranchPush None x
     = bind (get x "repository") (fun repo =>
       bind (get x "ref") (fun ref =>
       bind (as_string ref) (fun _ =>
       bind (touch repo) (fun _ =>
       bind (Logger.info "Release branch push detected")
            (fun _ => ret tt))))).
Proof. repeat split. Qed.

(** The direct path of [handleEvent], taken alone, does what C1 asks
    for: on the decoded payload of the sample delivery, [handle] is
    entered once, with that payload, and returns. *)
Example handleEvent_on_sample_payload :
  let r := WebhookHandlers.handleEvent (WebhookHandlers.create None)
             (VStr "pull_request") (VObj Samples.pull_request_fields)
             (VStr "test-delivery-id") in
  result r = inr tt
  /\ handled (trace r) = [(PullRequest, VObj Samples.pull_request_fields)].
Proof. split; reflexivity. Qed.

(** With spies for handlers, the push delivery of the tests is answered
    200, and the spy of the push handler is entered twice: by the hook of
    [webhooks.on] with the event object, and by [handleEvent] with the
    decoded payload. *)
Example spy_is_entered_twice :
  let d := Samples.delivery "push" Samples.push_body in
  let r := post_webhook (make Samples.secret Samples.spies) d in
  fst r = accepted
  /\ handled (snd r)
     = [(Push, envelope d (VObj Samples.push_fields));
        (Push, VObj Samples.push_fields)].
Proof.
  apply (tolerant_handler_runs_twice Samples.secret Samples.spies
           (Samples.delivery "push" Samples.push_body) Samples.push_body
           Samples.push_fields Push [] []).
  - discriminate.
  - vm_compute. reflexivity.
  - reflexivity.
  - vm_compute. reflexivity.
  - vm_compute. reflexivity.
  - reflexivity.
  - reflexivity.
  - reflexivity.
  - reflexivity.
  - reflexivity.
  - reflexivity.
Qed.

(** The module's start: without GITHUB_TOKEN the handlers get no
    client; without the secret the process does not start. *)
Lemma start_without_token (secret : string) (api : Octokit.client) :
  secret <> EmptyString ->
  start (Some secret) None api
  = inr (make secret (WebhookHandlers.create None)).
Proof. intros H. destruct secret; [contradiction | reflexivity]. Qed.

Lemma start_without_secret (token : option string) (api : Octokit.client) :
  start None token api
  = inl (Failure "GITHUB_WEBHOOK_SECRET environment variable is required").
Proof. reflexivity. Qed.

End AtSamples.

(* ===================================================================== *)
(** * Further properties of the code *)
(* ===================================================================== *)

(** ** Results and traces of composed computations *)

Section Composition.
Import JS Op Notions Shapes.

Lemma result_bind {A B} (m : M A) (k : A -> M B) :
  result (bind m k)
  = match result m with
    | inl e => inl e
    | inr a => result (k a)
    end.
Proof. destruct m as [[e|a] t]; cbn; [reflexivity | now destruct (k a)]. Qed.

Lemma trace_bind {A B} (m : M A) (k : A -> M B) :
  trace (bind m k)
  = trace m ++ match result m with
               | inl _ => []
               | inr a => trace (k a)
               end.
Proof.
  destruct m as [[e|a] t]; cbn; [now rewrite app_nil_r | now destruct (k a)].
Qed.

Lemma result_try_catch {A} (m : M A) (h : error -> M A) :
  result (try_catch m h)
  = match result m with
    | inl e => result (h e)
    | inr a => inr a
    end.
Proof. destruct m as [[e|a] t]; cbn; [now destruct (h e) | reflexivity]. Qed.

Lemma trace_try_catch {A} (m : M A) (h : error -> M A) :
  trace (try_catch m h)
  = trace m ++ match result m with
               | inl e => trace (h e)
               | inr _ => []
               end.
Proof.
  destruct m as [[e|a] t]; cbn; [now destruct (h e) | now rewrite app_nil_r].
Qed.

Lemma api_calls_app (t u : list event) :
  api_calls (t ++ u) = api_calls t ++ api_calls u.
Proof. apply flat_map_app. Qed.

Lemma logs_app (t u : list event) : logs (t ++ u) = logs t ++ logs u.
Proof. apply flat_map_app. Qed.

Lemma calls_bind {A B} (m : M A) (k : A -> M B) :
  calls (bind m k)
  = calls m ++ match result m with
               | inl _ => []
               | inr a => calls (k a)
               end.
Proof.
  unfold calls. rewrite trace_bind, api_calls_app.
  now destruct (result m).
Qed.

Lemma calls_try_catch {A} (m : M A) (h : error -> M A) :
  calls (try_catch m h)
  = calls m ++ match result m with
               | inl e => calls (h e)
               | inr _ => []
               end.
Proof.
  unfold calls. rewrite trace_try_catch, api_calls_app.
  now destruct (result m).
Qed.

(** *** Computations whose requests stay within given endpoints *)

Lemma no_api_within {A} (eps : list string) (m : M A) :
  no_api m -> within eps m.
Proof. unfold no_api, within. intros ->. apply incl_nil_l. Qed.

Lemma within_nil {A} (m : M A) : within [] m -> no_api m.
Proof. unfold no_api, within. apply incl_l_nil. Qed.

Lemma within_bind {A B} (eps : list string) (m : M A) (k : A -> M B) :
  within eps m -> (forall a, within eps (k a)) -> within eps (bind m k).
Proof.
  unfold within. intros Hm Hk. rewrite calls_bind.
  apply incl_app; [assumption|].
  destruct (result m); [apply incl_nil_l | apply Hk].
Qed.

Lemma within_try_catch {A} (eps : list string) (m : M A)
      (h : error -> M A) :
  within eps m -> (forall e, within eps (h e)) ->
  within eps (try_catch m h).
Proof.
  unfold within. intros Hm Hh. rewrite calls_try_catch.
  apply incl_app; [assumption|].
  destruct (result m); [apply Hh | apply incl_nil_l].
Qed.

Lemma within_request {A} (eps : list string)
      (octokit : option Octokit.client) (endpoint : string)
      (f : Octokit.client -> value -> error + A) (args : value) :
  In endpoint eps -> within eps (Octokit.request octokit endpoint f args).
Proof.
  intros Hin. destruct octokit as [c|]; [|apply incl_nil_l].
  unfold within, calls, Octokit.request.
  rewrite bind_emit. cbn [trace snd api_calls flat_map].
  destruct (f c args); cbn; intros x [<-|[]]; assumption.
Qed.

Lemma within_ret {A} (eps : list string) (a : A) : within eps (ret a).
Proof. apply incl_nil_l. Qed.

Lemma within_throw {A} (eps : list string) (e : error) :
  within eps (@throw A e).
Proof. apply incl_nil_l. Qed.

Lemma within_log (eps : list string) (l : level) (msg : string) :
  within eps (Logger.log l msg).
Proof. apply incl_nil_l. Qed.

Lemma within_info (eps : list string) (msg : string) :
  within eps (Logger.info msg).
Proof. apply incl_nil_l. Qed.

Lemma within_warn (eps : list string) (msg : string) :
  within eps (Logger.warn msg).
Proof. apply incl_nil_l. Qed.

Lemma within_error (eps : list string) (msg : string) :
  within eps (Logger.error msg).
Proof. apply incl_nil_l. Qed.

Lemma within_debug (eps : list string) (msg : string) :
  within eps (Logger.debug msg).
Proof. apply incl_nil_l. Qed.

(** Without a client the request is not sent. *)
Lemma within_request_none {A} (eps : list string) (endpoint : string)
      (f : Octokit.client -> value -> error + A) (args : value) :
  within eps (Octokit.request None endpoint f args).
Proof. apply incl_nil_l. Qed.

Lemma within_get (eps : list string) (v : value) (k : string) :
  within eps (get v k).
Proof. destruct v; apply incl_nil_l. Qed.

Lemma within_get_opt (eps : list string) (v : value) (k : string) :
  within eps (get_opt v k).
Proof. destruct v; apply incl_nil_l. Qed.

Lemma within_touch (eps : list string) (v : value) : within eps (touch v).
Proof. destruct v; apply incl_nil_l. Qed.

Lemma within_as_string (eps : list string) (v : value) :
  within eps (as_string v).
Proof. destruct v; apply incl_nil_l. Qed.

Lemma within_as_array (eps : list string) (v : value) :
  within eps (as_array v).
Proof. destruct v; apply incl_nil_l. Qed.

Lemma within_text (eps : list string) (v : value) :
  within eps (text v).
Proof. unfold text. destruct (to_text v); apply incl_nil_l. Qed.

Lemma is_str_convertible (lit : string) (v : value) :
  is_str lit v = true -> convertible v = true.
Proof. now destruct v. Qed.

(** A debug line that shows a value: [Logger.debug(`...${v}`)]. *)
Lemma result_text_log (l : level) (prefix : string) (v : value) :
  result (bind (text v)
            (fun a => Logger.log l (String.append prefix a)))
  = if convertible v then inr tt else inl TypeError.
Proof.
  unfold text, convertible. now destruct (to_text v).
Qed.

Lemma text_log (l : level) (prefix : string) (v : value) :
  bind (text v) (fun a => Logger.log l (String.append prefix a))
  = match to_text v with
    | Some a => (inr tt, [Logged l (String.append prefix a)])
    | None => (inl TypeError, [])
    end.
Proof. unfold text. now destruct (to_text v). Qed.

Lemma within_iterate (eps : list string) (v : value) :
  within eps (iterate v).
Proof. destruct v; apply incl_nil_l. Qed.

Lemma within_includes (eps : list string) (v : value) (x : string) :
  within eps (includes v x).
Proof. destruct v; apply incl_nil_l. Qed.

Lemma within_for_each {A} (eps : list string) (l : list A)
      (f : A -> M unit) :
  (forall x, within eps (f x)) -> within eps (for_each l f).
Proof.
  intros H. induction l as [|x l IH]; cbn [for_each];
    [apply within_ret | apply within_bind; auto].
Qed.

Lemma within_map_m {A B} (eps : list string) (l : list A)
      (f : A -> M B) :
  (forall x, within eps (f x)) -> within eps (map_m l f).
Proof.
  intros H. induction l as [|x l IH]; cbn [map_m]; [apply within_ret|].
  apply within_bind; [apply H | intros y].
  apply within_bind; [apply IH | intros ys; apply within_ret].
Qed.

Lemma within_filter_m {A} (eps : list string) (l : list A)
      (f : A -> M bool) :
  (forall x, within eps (f x)) -> within eps (filter_m l f).
Proof.
  intros H. induction l as [|x l IH]; cbn [filter_m]; [apply within_ret|].
  apply within_bind; [apply H | intros y].
  apply within_bind; [apply IH | intros ys; apply within_ret].
Qed.

Lemma within_some_m {A} (eps : list string) (l : list A)
      (f : A -> M bool) :
  (forall x, within eps (f x)) -> within eps (some_m l f).
Proof.
  intros H. induction l as [|x l IH]; cbn [some_m]; [apply within_ret|].
  apply within_bind; [apply H | intros [|]]; [apply within_ret | apply IH].
Qed.

Lemma within_when (eps : list string) (b : bool) (m : M unit) :
  within eps m -> within eps (when b m).
Proof. destruct b; [auto | intros _; apply within_ret]. Qed.

(** A sequence whose first part sends no request sends those of the
    rest. *)
Lemma calls_bind_quiet {A B} (m : M A) (k : A -> M B) :
  within [] m ->
  calls (bind m k)
  = match result m with
    | inl _ => []
    | inr a => calls (k a)
    end.
Proof. intros H. rewrite calls_bind. now rewrite (within_nil _ H). Qed.

(** Either no request is sent or [P] holds, along a sequence. *)
Lemma quiet_or_bind {A B} (P : Prop) (m : M A) (k : A -> M B) :
  within [] m ->
  (forall a, result m = inr a -> no_api (k a) \/ P) ->
  no_api (bind m k) \/ P.
Proof.
  intros Hm Hk. unfold no_api. rewrite calls_bind_quiet by assumption.
  destruct (result m) as [e|a]; [now left | now apply Hk].
Qed.

Lemma is_str_true (lit : string) (v : value) :
  is_str lit v = true -> v = VStr lit.
Proof.
  destruct v; try discriminate. cbn [is_str].
  now intros ->%String.eqb_eq.
Qed.

Lemma touch_ok (v : value) : nullish v = false -> touch v = ret tt.
Proof. unfold touch. now intros ->. Qed.

Lemma touch_result (v : value) :
  result (touch v) = if nullish v then inl TypeError else inr tt.
Proof. unfold touch. now destruct (nullish v). Qed.

End Composition.

Create HintDb quiet.

#[export] Hint Resolve within_ret within_throw within_log within_info
  within_warn within_error within_debug within_request_none within_get
  within_get_opt within_touch within_as_string within_as_array within_text
  within_iterate within_includes : quiet.

(** One step of a proof that the requests of a computation stay within
    given endpoints: split a sequence, a handler, a loop or a branch, or
    close a call. *)
Ltac quiet_step :=
  first
    [ solve [auto with quiet]
    | lazymatch goal with
      | |- Shapes.within _ (JS.bind _ _) =>
          apply within_bind; [|intros ?]
      | |- Shapes.within _ (JS.try_catch _ _) =>
          apply within_try_catch; [|intros ?]
      | |- Shapes.within _ (Op.for_each _ _) =>
          apply within_for_each; intros ?
      | |- Shapes.within _ (Op.map_m _ _) =>
          apply within_map_m; intros ?
      | |- Shapes.within _ (Op.filter_m _ _) =>
          apply within_filter_m; intros ?
      | |- Shapes.within _ (Op.some_m _ _) =>
          apply within_some_m; intros ?
      | |- Shapes.within _ (Op.when _ _) => apply within_when
      | |- Shapes.within _ (Octokit.request _ _ _ _) =>
          apply within_request; simpl; tauto
      | |- Shapes.within _ (if ?b then _ else _) => destruct b
      | |- Shapes.within _ (let (_, _) := ?p in _) => destruct p
      | |- Shapes.within _ (match ?x with _ => _ end) => destruct x
      end ].

Ltac quiet := repeat quiet_step.

(** Passes the first part of a sequence, which sends no request. *)
Ltac quiet_bind :=
  lazymatch goal with
  | |- Shapes.within _ (JS.bind _ _) =>
      apply within_bind; [solve [quiet] | intros ?]
  end.

(** ** The signature check and the route *)

Section Gate.
Import JS Op Server Notions Shapes.

Lemma verifySignature_cases (secret : string) (req : request) :
  verifySignature secret req = Next
  \/ exists o, verifySignature secret req = Done o /\ In o stopped.
Proof.
  unfold verifySignature, stopped.
  destruct (header req "x-hub-signature-256") as [| | | |[|c s]| |];
    try (right; eexists; split; [reflexivity | simpl; tauto]).
  destruct (req_body req) as [payload|];
    [|right; eexists; split; [reflexivity | simpl; tauto]].
  unfold timingSafeEqual.
  destruct (Nat.eqb _ _);
    [|right; eexists; split; [reflexivity | simpl; tauto]].
  destruct (Buf.eqb _ _); [now left|].
  right; eexists; split; [reflexivity | simpl; tauto].
Qed.

(** X1. A request whose signature header is not exactly the expected
    signature of its body bytes under the server's secret goes no
    further than the signature check: nothing is logged, no handler is
    entered, no API request is sent, and what comes of it is a 401
    (missing or invalid signature) or an exception thrown by the check
    itself, which the program does not answer (it is left to the error
    handling of the framework). The only status the program answers
    such a request with is 401. *)
Theorem unauthenticated_request_is_stopped (a : app) (req : request) :
  (forall bytes,
      req_body req = Buffer bytes ->
      lookup sig_header (headers req)
      <> Some (expectedSignature (webhookSecret a) bytes)) ->
  snd (post_webhook a req) = []
  /\ In (fst (post_webhook a req)) stopped
  /\ forall status json,
       fst (post_webhook a req) = Sent status json -> status = 401.
Proof.
  intros H.
  destruct (verifySignature_cases (webhookSecret a) req)
    as [Hn|(o & Ho & Hin)].
  - apply verifySignature_next in Hn as (bytes & Hb & Hl).
    now destruct (H bytes Hb).
  - rewrite (post_webhook_done a req o Ho). cbn [fst snd].
    repeat split; [assumption|].
    intros status json ->. cbn in Hin.
    repeat (destruct Hin as [Hin|Hin];
            [(injection Hin as <- _; reflexivity) || discriminate Hin|]).
    destruct Hin.
Qed.

Lemma route_null (hs : WebhookHandlers.t) (secret : string)
      (req : request) (payload : value) :
  JSON.parse (body_text (req_body req)) = Some payload ->
  nullish payload = true ->
  route (make secret hs) req = (inl TypeError, []).
Proof.
  intros Hp Hn. unfold route. rewrite Hp, bind_ret_l.
  change (text (header req "x-github-event"))
    with (text (header req event_header)).
  rewrite text_header, bind_ret_l.
  now destruct payload.
Qed.

(** X2. What comes of a delivery that passes the signature check is
    settled by its body alone: one that is not JSON is left unanswered
    with a SyntaxError, one that is the JSON null is left unanswered
    with a TypeError (in both cases before anything is logged), and
    every other one is answered, 200 or 500, whatever the library and
    the handlers do. *)
Theorem passed_delivery_outcome (hs : WebhookHandlers.t) (secret : string)
        (req : request) :
  verifySignature secret req = Next ->
  match JSON.parse (body_text (req_body req)) with
  | None => post_webhook (make secret hs) req = (Rejected SyntaxError, [])
  | Some payload =>
      if nullish payload
      then post_webhook (make secret hs) req = (Rejected TypeError, [])
      else fst (post_webhook (make secret hs) req) = accepted
           \/ fst (post_webhook (make secret hs) req) = internal_error
  end.
Proof.
  intros Hv. rewrite (post_webhook_next hs secret req Hv).
  destruct (JSON.parse _) as [payload|] eqn:Hp.
  - destruct (nullish payload) eqn:Hn.
    + now rewrite (route_null hs secret req payload Hp Hn).
    + rewrite (route_parsed hs secret req payload Hp Hn).
      cbv zeta.
      destruct (fst (bind _ _)); cbn [fst]; [now right | now left].
  - now rewrite (route_malformed hs secret req Hp).
Qed.

End Gate.

Section GateAtSamples.
Import JS Server Notions Shapes.

Lemma unauthenticated_request_is_stopped_witness :
  snd (post_webhook Samples.server Samples.wrong_signature_request) = []
  /\ In (fst (post_webhook Samples.server Samples.wrong_signature_request))
        stopped
  /\ forall status json,
       fst (post_webhook Samples.server Samples.wrong_signature_request)
       = Sent status json ->
       status = 401.
Proof.
  apply (unauthenticated_request_is_stopped Samples.server
           Samples.wrong_signature_request).
  intros bytes Hb. injection Hb as <-. vm_compute. discriminate.
Defined.

Lemma passed_delivery_outcome_witness :
  post_webhook (make Samples.secret Samples.spies) Fixtures.null_delivery
  = (Rejected TypeError, []).
Proof.
  apply (passed_delivery_outcome Samples.spies Samples.secret
           Fixtures.null_delivery).
  vm_compute. reflexivity.
Defined.

End GateAtSamples.

(** ** The dispatcher of handlers/index.ts *)

Section Dispatcher.
Import JS Op Server Notions Shapes.

Variable hs : WebhookHandlers.t.

Lemma handleEvent_body (eventName payload deliveryId : value)
      (name : string) :
  to_text eventName = Some name ->
  nullish payload = false ->
  WebhookHandlers.handleEvent hs eventName payload deliveryId
  = bind (Logger.info
            (String.append "Processing " (String.append name " event")))
      (fun _ =>
         try_catch
           match WebhookHandlers.registered eventName with
           | Some h => WebhookHandlers.invoke hs h payload
           | None =>
               Logger.warn (String.append "Unhandled event type: " name)
           end
           (fun error =>
              bind (Logger.error
                      (String.append "Error handling "
                         (String.append name " event")))
                   (fun _ => throw error))).
Proof.
  intros Ht Hn. unfold WebhookHandlers.handleEvent.
  rewrite !(text_of _ _ Ht), bind_ret_l.
  destruct (get_non_nullish payload "repository" Hn) as (r & ->).
  rewrite bind_ret_l.
  destruct (get_opt_ret r "full_name") as (f & ->).
  rewrite bind_ret_l.
  destruct (get_non_nullish payload "action" Hn) as (x & ->).
  rewrite bind_ret_l.
  destruct (WebhookHandlers.registered eventName) as [[]|];
    now rewrite ?bind_ret_l.
Qed.

(** X3. [handleEvent] on a payload that is not null, for an event name
    that has a text: for one of the six event names the handler of that
    name is entered once, with the payload itself, and [handleEvent]
    completes as the handler does: it returns when the handler returns
    and rethrows the very error the handler throws, after one error
    log; for any other name it returns after a warning, with no handler
    entered. On null it throws a TypeError before anything is logged,
    and so it does for an event name that has no text. *)
Theorem handleEvent_completes_as_handler
        (eventName payload deliveryId : value) :
  let r := WebhookHandlers.handleEvent hs eventName payload deliveryId in
  match to_text eventName with
  | None => r = (inl TypeError, [])
  | Some name =>
      if nullish payload then r = (inl TypeError, [])
      else
        match WebhookHandlers.registered eventName with
        | Some h =>
            let m := WebhookHandlers.handler_of hs h payload in
            result r = result m
            /\ trace r
               = Logged Info
                   (String.append "Processing "
                      (String.append name " event"))
                 :: Handled h payload
                 :: trace m
                 ++ match result m with
                    | inl _ =>
                        [Logged Err
                           (String.append "Error handling "
                              (String.append name " event"))]
                    | inr _ => []
                    end
        | None =>
            r = (inr tt,
                 [Logged Info
                    (String.append "Processing "
                       (String.append name " event"));
                  Logged Warn
                    (String.append "Unhandled event type: " name)])
        end
  end.
Proof.
  intros r. subst r. destruct (to_text eventName) as [name|] eqn:Ht.
  - destruct (nullish payload) eqn:Hn.
    + unfold WebhookHandlers.handleEvent.
      rewrite (text_of _ _ Ht), bind_ret_l. now destruct payload.
    + rewrite (handleEvent_body _ _ _ name Ht Hn).
      destruct (WebhookHandlers.registered eventName) as [h|];
        [|reflexivity].
      cbv zeta. rewrite invoke_run.
      destruct (WebhookHandlers.handler_of hs h payload) as [[e|[]] t];
        cbn; rewrite ?app_nil_r; split; reflexivity.
  - unfold WebhookHandlers.handleEvent, text. now rewrite Ht.
Qed.

(** The names the dispatcher knows are the six of the registrations,
    compared exactly. *)
Lemma registered_iff (n : string) (h : handler_name) :
  WebhookHandlers.registered (VStr n) = Some h <-> n = event_name h.
Proof.
  split; [apply registered_inv | intros ->; apply registered_event_name].
Qed.

End Dispatcher.

(** ** Counting requests *)

Section Requests.
Import JS Op Notions Shapes.

Lemma calls_request (c : Octokit.client) {A} (endpoint : string)
      (f : Octokit.client -> value -> error + A) (args : value) :
  calls (Octokit.request (Some c) endpoint f args) = [endpoint].
Proof.
  unfold calls, Octokit.request. rewrite bind_emit.
  now destruct (f c args).
Qed.

Lemma calls_bind_quiet_rest {A B} (m : M A) (k : A -> M B) :
  (forall a, within [] (k a)) -> calls (bind m k) = calls m.
Proof.
  intros H. rewrite calls_bind.
  destruct (result m) as [e|a]; [|rewrite (within_nil _ (H a))];
    apply app_nil_r.
Qed.

Lemma calls_try_quiet_handler {A} (m : M A) (h : error -> M A) :
  (forall e, within [] (h e)) -> calls (try_catch m h) = calls m.
Proof.
  intros H. rewrite calls_try_catch.
  destruct (result m) as [e|a]; [rewrite (within_nil _ (H e))|];
    apply app_nil_r.
Qed.

(** A property of the requests of a sequence whose first part sends
    none. *)
Lemma calls_bind_elim {A B} (Q : list string -> Prop) (m : M A)
      (k : A -> M B) :
  within [] m ->
  Q [] ->
  (forall a, result m = inr a -> Q (calls (k a))) ->
  Q (calls (bind m k)).
Proof.
  intros Hm Hnil Hk. rewrite calls_bind_quiet by assumption.
  destruct (result m) as [e|a]; [assumption | now apply Hk].
Qed.

Lemma calls_when (b : bool) (m : M unit) :
  calls (when b m) = if b then calls m else [].
Proof. now destruct b. Qed.

(** [try { m } catch { log }] returns, whatever [m] does. *)
Lemma try_log_returns (m : M unit) (l : level) (msg : string) :
  result (try_catch m (fun _ => Logger.log l msg)) = inr tt.
Proof. destruct m as [[e|[]] t]; reflexivity. Qed.

Lemma for_each_logs {A} (xs : list A) (l : level) (f : A -> string) :
  for_each xs (fun x => Logger.log l (f x))
  = (inr tt, map (fun x => Logged l (f x)) xs).
Proof.
  induction xs as [|x xs IH]; cbn [for_each map]; [reflexivity|].
  unfold Logger.log at 1. now rewrite bind_emit, IH.
Qed.

Lemma result_log_bind {B} (l : level) (msg : string) (k : unit -> M B) :
  result (bind (Logger.log l msg) k) = result (k tt).
Proof. now rewrite result_bind. Qed.

Lemma result_when (b : bool) (m : M unit) :
  result (when b m) = if b then result m else inr tt.
Proof. now destruct b. Qed.

Lemma filter_nil_existsb {A} (f : A -> bool) (l : list A) :
  existsb f l = false -> filter f l = [].
Proof.
  induction l as [|x l IH]; simpl; [reflexivity|].
  destruct (f x); [discriminate | exact IH].
Qed.

Lemma filter_cons_existsb {A} (f : A -> bool) (l : list A) :
  existsb f l = true -> exists x r, filter f l = x :: r.
Proof.
  induction l as [|x l IH]; simpl; [discriminate|].
  destruct (f x); [eauto | exact IH].
Qed.

End Requests.

(** Steps through a sequence whose first part sends no request. *)
Ltac calls_step :=
  match goal with
  | |- context [Shapes.calls (JS.bind ?m ?k)] =>
      pattern (Shapes.calls (JS.bind m k));
      apply calls_bind_elim; [solve [quiet] | | intros ? ?]
  end.

(** Runs a computation on a payload whose fields are known: property
    reads, the metadata of the logs, the logs themselves. *)
Ltac run :=
  repeat first
    [ rewrite get_object
    | rewrite bind_ret_l
    | rewrite touch_ok by (assumption || reflexivity)
    | rewrite result_log_bind
    | progress cbv beta iota zeta ].

(** ** handlers/push.ts *)

Section Pushes.
Import JS Op Octokit Notions Shapes.

Variable octokit : option client.

Lemma changedFiles_quiet (eps : list string) (commit : value) :
  within eps (PushHandler.changedFiles commit).
Proof. unfold PushHandler.changedFiles. quiet. Qed.

Lemma scan_files_quiet (eps : list string) (files : list value)
      (servers : list string) :
  within eps (PushHandler.scan_files files servers).
Proof.
  revert servers. induction files as [|f r IH]; intros servers;
    cbn [PushHandler.scan_files]; [apply within_ret|].
  apply within_bind; [apply within_as_string | intros p; apply IH].
Qed.

Lemma scan_commits_quiet (eps : list string) (commits : list value)
      (servers : list string) :
  within eps (PushHandler.scan_commits commits servers).
Proof.
  revert servers. induction commits as [|c r IH]; intros servers;
    cbn [PushHandler.scan_commits]; [apply within_ret|].
  apply within_bind; [apply changedFiles_quiet | intros fs].
  apply within_bind; [apply scan_files_quiet | intros s; apply IH].
Qed.

Lemma getAffectedServers_quiet (eps : list string) (commits : value) :
  within eps (PushHandler.getAffectedServers commits).
Proof.
  unfold PushHandler.getAffectedServers.
  apply within_bind; [apply within_iterate | intros cs].
  apply scan_commits_quiet.
Qed.

Lemma is_important_quiet (eps : list string) (file : value) :
  within eps (PushHandler.is_important file).
Proof. unfold PushHandler.is_important. quiet. Qed.

Lemma triggerServerTests_quiet (eps : list string) (repository : value)
      (servers : list string) :
  within eps (PushHandler.triggerServerTests octokit repository servers).
Proof. unfold PushHandler.triggerServerTests, Logger.info. quiet. Qed.

Lemma handleMainBranchPush_quiet (eps : list string) (payload : value) :
  within eps (PushHandler.handleMainBranchPush octokit payload).
Proof.
  pose proof getAffectedServers_quiet. pose proof triggerServerTests_quiet.
  unfold PushHandler.handleMainBranchPush, Logger.info. quiet.
Qed.

Lemma checkForImportantFileChanges_quiet (eps : list string)
      (payload : value) :
  within eps (PushHandler.checkForImportantFileChanges payload).
Proof.
  pose proof changedFiles_quiet. pose proof is_important_quiet.
  unfold PushHandler.checkForImportantFileChanges, Logger.info. quiet.
Qed.

#[local] Hint Resolve changedFiles_quiet getAffectedServers_quiet
  is_important_quiet triggerServerTests_quiet handleMainBranchPush_quiet
  checkForImportantFileChanges_quiet : quiet.

Lemma repo_args_quiet (eps : list string) (repository : value) :
  within eps (repo_args repository).
Proof. unfold repo_args. quiet. Qed.

#[local] Hint Resolve repo_args_quiet : quiet.

Lemma handleReleaseBranchPush_calls (payload : value) :
  calls (PushHandler.handleReleaseBranchPush octokit payload) = []
  \/ calls (PushHandler.handleReleaseBranchPush octokit payload)
     = ["actions.createWorkflowDispatch"]
     /\ present octokit = true.
Proof.
  destruct octokit as [c|].
  - unfold PushHandler.handleReleaseBranchPush, Logger.info.
    cbn [present].
    repeat (calls_step; [now left|]).
    rewrite calls_try_quiet_handler by (intros; unfold Logger.error; quiet).
    calls_step; [now left|].
    rewrite calls_bind_quiet_rest by (intros; quiet).
    rewrite calls_request. now right.
  - left. apply within_nil.
    unfold PushHandler.handleReleaseBranchPush, Logger.info. quiet.
Qed.

(** X4. Whatever the payload, the push handler sends at most one API
    request, the dispatch of the release workflow, and it sends it only
    with a client and for a push whose branch (the ref without its
    refs/heads/ prefix) begins with release/. *)
Theorem push_sends_at_most_a_release_dispatch (payload : value) :
  let m := PushHandler.handle octokit payload in
  (calls m = [] \/ calls m = ["actions.createWorkflowDispatch"])
  /\ (calls m <> [] ->
      present octokit = true
      /\ exists fs ref,
           payload = VObj fs
           /\ field "ref" fs = VStr ref
           /\ String.prefix "release/" (branch_of ref) = true).
Proof.
  cbv zeta.
  assert (H : calls (PushHandler.handle octokit payload) = []
              \/ calls (PushHandler.handle octokit payload)
                 = ["actions.createWorkflowDispatch"]
                 /\ present octokit = true
                 /\ exists fs ref,
                      payload = VObj fs
                      /\ field "ref" fs = VStr ref
                      /\ String.prefix "release/" (branch_of ref) = true).
  { destruct payload as [| | | | | |fs]; try (left; reflexivity).
    unfold PushHandler.handle.
    rewrite !get_object, !bind_ret_l.
    destruct (field "ref" fs) as [| | | |ref| |] eqn:Href;
      try (left; reflexivity).
    cbn [as_string]. rewrite bind_ret_l. cbv zeta.
    unfold Logger.info.
    do 5 (calls_step; [now left|]).
    rewrite calls_bind_quiet_rest by (intros; quiet).
    rewrite calls_when.
    destruct (String.prefix _ _) eqn:Hp; [|now left].
    destruct (handleReleaseBranchPush_calls (VObj fs)) as [->|[-> Hc]];
      [now left | right].
    repeat split; try assumption. now exists fs, ref. }
  split.
  - destruct H as [->|[-> _]]; [now left | now right].
  - intros Hne. destruct H as [E|[_ H]]; [contradiction | exact H].
Qed.

Lemma is_important_string (path : string) :
  PushHandler.is_important (VStr path) = ret (important path).
Proof.
  unfold PushHandler.is_important, important, PushHandler.importantFiles.
  cbn [some_m includes existsb]. rewrite !bind_ret_l.
  repeat (destruct (Str.includes _ path); [reflexivity|]).
  reflexivity.
Qed.

Lemma filter_important (paths : list string) :
  filter_m (map VStr paths) PushHandler.is_important
  = ret (map VStr (filter important paths)).
Proof.
  induction paths as [|p r IH]; cbn [map filter_m filter]; [reflexivity|].
  rewrite is_important_string, bind_ret_l, IH, bind_ret_l.
  now destruct (important p).
Qed.

Lemma commit_paths_object (commit : value) (ps : list string) :
  commit_paths commit = Some ps -> nullish commit = false.
Proof. now destruct commit. Qed.

Lemma important_loop (repository : value) (commits : list value)
      (paths : list string) :
  nullish repository = false ->
  all_paths commits = Some paths ->
  for_each commits (fun commit =>
    bind (PushHandler.changedFiles commit) (fun files =>
    bind (filter_m files PushHandler.is_important)
      (fun importantChanges =>
         match importantChanges with
         | [] => ret tt
         | _ :: _ =>
             bind (touch commit) (fun _ =>
             bind (touch repository) (fun _ =>
             Logger.info "Important files changed in commit"))
         end)))
  = (inr tt, repeat important_log (important_commits commits)).
Proof.
  intros Hr. revert paths.
  induction commits as [|c r IH]; intros paths; [reflexivity|].
  cbn [all_paths for_each important_commits].
  destruct (commit_paths c) as [ps|] eqn:Ec; try discriminate.
  destruct (all_paths r) as [qs|] eqn:Er; try discriminate.
  intros _. rewrite (IH qs eq_refl).
  rewrite (changedFiles_paths _ _ Ec), bind_ret_l.
  rewrite filter_important, bind_ret_l.
  destruct (existsb important ps) eqn:Ei.
  - destruct (filter_cons_existsb _ _ Ei) as (x & l & ->).
    cbn [map].
    rewrite (touch_ok _ (commit_paths_object _ _ Ec)), bind_ret_l.
    rewrite (touch_ok _ Hr), bind_ret_l.
    reflexivity.
  - rewrite (filter_nil_existsb _ _ Ei). cbn [map].
    now rewrite bind_ret_l.
Qed.

Lemma checkForImportantFileChanges_returns
      (fs : list (string * value)) (commits : list value)
      (paths : list string) :
  has "repository" fs ->
  field "commits" fs = VArr commits ->
  all_paths commits = Some paths ->
  result (PushHandler.checkForImportantFileChanges (VObj fs)) = inr tt.
Proof.
  intros Hr Hc Hp. unfold PushHandler.checkForImportantFileChanges.
  rewrite !get_object, !bind_ret_l, Hc.
  cbn [iterate]. rewrite bind_ret_l.
  now rewrite (important_loop _ commits paths Hr Hp).
Qed.

(** X5. On a push whose commits are as the platform sends them,
    [checkForImportantFileChanges] returns and logs one line for each
    commit that lists, under added, modified or removed, a path
    containing package.json, pyproject.toml, .github/workflows/ or
    README.md, and nothing else. *)
Theorem important_changes_logged_per_commit
        (fs : list (string * value)) (commits : list value)
        (paths : list string) :
  has "repository" fs ->
  field "commits" fs = VArr commits ->
  all_paths commits = Some paths ->
  PushHandler.checkForImportantFileChanges (VObj fs)
  = (inr tt, repeat important_log (important_commits commits)).
Proof.
  intros Hr Hc Hp. unfold PushHandler.checkForImportantFileChanges.
  rewrite !get_object, !bind_ret_l, Hc.
  cbn [iterate]. rewrite bind_ret_l.
  now apply (important_loop _ commits paths).
Qed.

Lemma triggerServerTests_returns (repository : value)
      (servers : list string) :
  nullish repository = false ->
  result (PushHandler.triggerServerTests octokit repository servers)
  = inr tt.
Proof.
  intros Hr. unfold PushHandler.triggerServerTests.
  destruct octokit; cbn [present negb]; [|reflexivity].
  rewrite (touch_ok _ Hr), bind_ret_l.
  unfold Logger.info. rewrite result_log_bind.
  now rewrite (for_each_logs servers Info
                 (fun server =>
                    String.append "Would trigger tests for server: "
                      server)).
Qed.

Lemma handleMainBranchPush_returns
      (fs : list (string * value)) (commits : list value)
      (paths : list string) :
  has "repository" fs ->
  field "commits" fs = VArr commits ->
  all_paths commits = Some paths ->
  result (PushHandler.handleMainBranchPush octokit (VObj fs)) = inr tt.
Proof.
  intros Hr Hc Hp. unfold PushHandler.handleMainBranchPush.
  rewrite !get_object, !bind_ret_l, Hc.
  rewrite (touch_ok _ Hr), bind_ret_l.
  rewrite (touch_ok (VArr commits) eq_refl), bind_ret_l.
  unfold Logger.info at 1. rewrite result_log_bind.
  unfold PushHandler.getAffectedServers. cbn [iterate].
  rewrite bind_ret_l, (scan_commits_paths _ _ _ Hp), bind_ret_l.
  destruct (collect paths []) as [|s servers]; [reflexivity|].
  rewrite bind_ret_l. unfold Logger.info at 1. rewrite result_log_bind.
  now apply triggerServerTests_returns.
Qed.

(** X6. A push to the main branch whose commits are as the platform
    sends them: [handleMainBranchPush] returns; when no commit touches
    a server it logs one line; otherwise it logs that servers are
    affected and, only with a client, announces the tests and logs one
    line for each affected server, in the order in which the servers
    first occur in the commits. *)
Theorem main_branch_push_announces_each_server
        (fs : list (string * value)) (commits : list value)
        (paths : list string) :
  has "repository" fs ->
  field "commits" fs = VArr commits ->
  all_paths commits = Some paths ->
  PushHandler.handleMainBranchPush octokit (VObj fs)
  = (inr tt,
     Logged Info "Main branch push detected"
     :: match collect paths [] with
        | [] => []
        | _ :: _ =>
            Logged Info "Server packages affected by push"
            :: (if present octokit
                then Logged Info "Triggering tests for affected servers"
                     :: map would_trigger (collect paths [])
                else [])
        end).
Proof.
  intros Hr Hc Hp. unfold PushHandler.handleMainBranchPush.
  rewrite !get_object, !bind_ret_l, Hc.
  rewrite (touch_ok _ Hr), bind_ret_l.
  rewrite (touch_ok (VArr commits) eq_refl), bind_ret_l.
  unfold Logger.info at 1. unfold Logger.log. rewrite bind_emit.
  unfold PushHandler.getAffectedServers. cbn [iterate].
  rewrite bind_ret_l, (scan_commits_paths _ _ _ Hp), bind_ret_l.
  destruct (collect paths []) as [|s servers]; [reflexivity|].
  rewrite bind_ret_l.
  unfold Logger.info at 1. unfold Logger.log. rewrite bind_emit.
  unfold PushHandler.triggerServerTests.
  destruct octokit as [c|]; cbn [present negb]; [|reflexivity].
  rewrite (touch_ok _ Hr), bind_ret_l.
  unfold Logger.info. unfold Logger.log at 1. rewrite bind_emit.
  now rewrite (for_each_logs (s :: servers) Info
                 (fun server =>
                    String.append "Would trigger tests for server: "
                      server)).
Qed.

Lemma release_branch_returns (fs : list (string * value)) (ref : string) :
  has "repository" fs ->
  field "ref" fs = VStr ref ->
  result (PushHandler.handleReleaseBranchPush octokit (VObj fs)) = inr tt.
Proof.
  intros Hr Href. unfold PushHandler.handleReleaseBranchPush.
  rewrite !get_object, !bind_ret_l, Href.
  cbn [as_string]. rewrite bind_ret_l.
  rewrite (touch_ok _ Hr), bind_ret_l.
  rewrite result_bind. cbn [Logger.info Logger.log emit result fst].
  destruct octokit as [c|]; cbn [present]; [|reflexivity].
  apply try_log_returns.
Qed.

(** X7. The push handler returns on every push that has a string ref,
    a repository, a pusher and commits as the platform sends them:
    with or without a client, and whether the API accepts or rejects
    the request. *)
Theorem push_handler_returns_on_platform_payload
        (fs : list (string * value)) (ref : string)
        (commits : list value) (paths : list string) :
  has "repository" fs ->
  has "pusher" fs ->
  field "ref" fs = VStr ref ->
  field "commits" fs = VArr commits ->
  all_paths commits = Some paths ->
  result (PushHandler.handle octokit (VObj fs)) = inr tt.
Proof.
  intros Hr Hu Href Hc Hp. unfold PushHandler.handle.
  rewrite !get_object, !bind_ret_l, Href.
  cbn [as_string]. rewrite bind_ret_l. cbv zeta.
  rewrite (touch_ok _ Hr), bind_ret_l.
  rewrite Hc, (touch_ok (VArr commits) eq_refl), bind_ret_l.
  rewrite (touch_ok _ Hu), bind_ret_l.
  rewrite result_bind. cbn [Logger.info Logger.log emit result fst].
  rewrite result_bind, result_when.
  rewrite (handleMainBranchPush_returns fs commits paths Hr Hc Hp).
  assert (E : forall b : bool, (if b then inr tt else inr tt)
                               = (inr tt : error + unit))
    by (now intros []).
  rewrite E, result_bind, result_when.
  rewrite (release_branch_returns fs ref Hr Href), E.
  apply (checkForImportantFileChanges_returns fs commits paths Hr Hc Hp).
Qed.

End Pushes.

Section PushesAtSamples.
Import JS Op Octokit Notions Shapes.

Lemma important_changes_logged_per_commit_witness :
  PushHandler.checkForImportantFileChanges (VObj Fixtures.push_fields)
  = (inr tt, [important_log]).
Proof.
  apply (important_changes_logged_per_commit Fixtures.push_fields
           Samples.commits Samples.commits_paths); reflexivity.
Defined.

Lemma main_branch_push_announces_each_server_witness :
  PushHandler.handleMainBranchPush (Some Fixtures.agreeable)
    (VObj Fixtures.push_fields)
  = (inr tt,
     [Logged Info "Main branch push detected";
      Logged Info "Server packages affected by push";
      Logged Info "Triggering tests for affected servers";
      would_trigger "git"; would_trigger "fetch"; would_trigger "time"]).
Proof.
  apply (main_branch_push_announces_each_server (Some Fixtures.agreeable)
           Fixtures.push_fields Samples.commits Samples.commits_paths);
    reflexivity.
Defined.

Lemma push_handler_returns_on_platform_payload_witness :
  result (PushHandler.handle (Some Fixtures.unreachable)
            (VObj Fixtures.release_push_fields)) = inr tt.
Proof.
  apply (push_handler_returns_on_platform_payload
           (Some Fixtures.unreachable) Fixtures.release_push_fields
           "refs/heads/release/1.2.0" [] []); reflexivity.
Defined.

End PushesAtSamples.

(** ** handlers/pullRequest.ts *)

Section PullRequests.
Import JS Op Octokit Notions Shapes.

Lemma failed_bind_l {A B} (m : M A) (k : A -> M B) :
  failed m -> failed (bind m k).
Proof. intros (e & He). exists e. now rewrite result_bind, He. Qed.

Lemma failed_bind_r {A B} (m : M A) (k : A -> M B) :
  (forall a, failed (k a)) -> failed (bind m k).
Proof.
  intros H. unfold failed. rewrite result_bind.
  destruct (result m) as [e|a]; [eauto | apply H].
Qed.

Lemma failed_get (v : value) (k : string) :
  nullish v = true -> failed (get v k).
Proof. destruct v; try discriminate; intros _; now exists TypeError. Qed.

(** [try { m } catch { log(..., x.number) }] where [m] is bound to fail
    when [x] is null: it throws exactly when [x] is null. *)
Lemma try_touch_log (m : M unit) (x : value) (msg : string) :
  (nullish x = true -> failed m) ->
  result (try_catch m (fun _ => bind (touch x)
                                  (fun _ => Logger.error msg)))
  = if nullish x then inl TypeError else inr tt.
Proof.
  intros H. rewrite result_try_catch.
  destruct (nullish x) eqn:Hn.
  - destruct (H eq_refl) as (e & ->).
    rewrite result_bind, touch_result. now rewrite Hn.
  - destruct (result m) as [e|[]]; [|reflexivity].
    rewrite result_bind, touch_result. now rewrite Hn.
Qed.

Lemma pr_args_needs_number (key : string) (repository pr : value) :
  nullish pr = true ->
  failed (PullRequestHandler.pr_args key repository pr).
Proof.
  intros Hn. unfold PullRequestHandler.pr_args.
  apply failed_bind_r. intros ra.
  apply failed_bind_l. now apply failed_get.
Qed.

(** X8. The three operations of an opened pull request that use the
    API catch every failure of theirs, and their catch clause reads
    [pullRequest.number]: each returns whatever the API answers and
    whatever the repository object holds, unless the pull request
    itself is null or undefined, in which case (with a client) a
    TypeError escapes the catch clause. Without a client each
    returns. *)
Theorem pull_request_operations_return
        (octokit : option client) (repository pullRequest : value) :
  let throws := present octokit && nullish pullRequest in
  let expected := if throws then inl TypeError else inr tt in
  result (PullRequestHandler.addLabelsBasedOnChanges octokit repository
            pullRequest) = expected
  /\ result (PullRequestHandler.checkAffectedServers octokit repository
               pullRequest) = expected
  /\ result (PullRequestHandler.addWelcomeComment octokit repository
               pullRequest) = expected.
Proof.
  cbv zeta. destruct octokit as [c|]; [|repeat split].
  cbn [present andb].
  unfold PullRequestHandler.addLabelsBasedOnChanges,
    PullRequestHandler.checkAffectedServers,
    PullRequestHandler.addWelcomeComment.
  cbn [present negb].
  repeat split; apply try_touch_log; intros Hn.
  - apply failed_bind_l. now apply pr_args_needs_number.
  - apply failed_bind_l. now apply pr_args_needs_number.
  - apply failed_bind_r. intros ra.
    apply failed_bind_l. now apply failed_get.
Qed.

Lemma scan_paths_quiet (eps : list string) (paths : list value)
      (servers : list string) :
  within eps (PullRequestHandler.scan_paths paths servers).
Proof.
  revert servers. induction paths as [|p r IH]; intros servers;
    cbn [PullRequestHandler.scan_paths]; [apply within_ret|].
  apply within_bind; [apply within_as_string | intros x; apply IH].
Qed.

Lemma getAffectedServersFromPaths_quiet (eps : list string)
      (paths : list value) :
  within eps (PullRequestHandler.getAffectedServersFromPaths paths).
Proof. apply scan_paths_quiet. Qed.

Lemma pr_args_quiet (eps : list string) (key : string)
      (repository pr : value) :
  within eps (PullRequestHandler.pr_args key repository pr).
Proof.
  pose proof repo_args_quiet. unfold PullRequestHandler.pr_args. quiet.
Qed.

#[local] Hint Resolve repo_args_quiet pr_args_quiet
  getAffectedServersFromPaths_quiet : quiet.

Lemma pr_and_repo_quiet (eps : list string) (payload : value) :
  within eps (PullRequestHandler.pr_and_repo payload).
Proof. unfold PullRequestHandler.pr_and_repo. quiet. Qed.

Lemma requestReviewers_quiet (eps : list string)
      (octokit : option client) (repository pr : value) :
  within eps (PullRequestHandler.requestReviewers octokit repository pr).
Proof. unfold PullRequestHandler.requestReviewers. quiet. Qed.

#[local] Hint Resolve pr_and_repo_quiet requestReviewers_quiet : quiet.

Lemma handlePRMerged_quiet (eps : list string) (payload : value) :
  within eps (PullRequestHandler.handlePRMerged payload).
Proof. unfold PullRequestHandler.handlePRMerged. quiet. Qed.

#[local] Hint Resolve handlePRMerged_quiet : quiet.

Lemma handlePRClosed_quiet (eps : list string) (payload : value) :
  within eps (PullRequestHandler.handlePRClosed payload).
Proof. unfold PullRequestHandler.handlePRClosed. quiet. Qed.

Lemma handlePRReadyForReview_quiet (eps : list string)
      (octokit : option client) (payload : value) :
  within eps (PullRequestHandler.handlePRReadyForReview octokit payload).
Proof. unfold PullRequestHandler.handlePRReadyForReview. quiet. Qed.

#[local] Hint Resolve handlePRClosed_quiet handlePRReadyForReview_quiet
  : quiet.

Lemma pull_request_within (octokit : option client) (payload : value) :
  within pull_request_endpoints
    (PullRequestHandler.handle octokit payload).
Proof.
  unfold PullRequestHandler.handle, PullRequestHandler.handlePROpened,
    PullRequestHandler.handlePRSynchronized,
    PullRequestHandler.addLabelsBasedOnChanges,
    PullRequestHandler.checkAffectedServers,
    PullRequestHandler.addWelcomeComment, pull_request_endpoints.
  quiet.
Qed.

Lemma pull_request_quiet_without_client (payload : value) :
  within [] (PullRequestHandler.handle None payload).
Proof.
  unfold PullRequestHandler.handle, PullRequestHandler.handlePROpened,
    PullRequestHandler.handlePRSynchronized,
    PullRequestHandler.addLabelsBasedOnChanges,
    PullRequestHandler.checkAffectedServers,
    PullRequestHandler.addWelcomeComment.
  cbn [present negb]. quiet.
Qed.

(** X9. Whatever the payload, the pull request handler sends requests
    to four endpoints only (the files and the list of pull requests, the
    labels and the comments of the issue); and it sends one only with a
    client and for the actions opened and synchronize. *)
Theorem pull_request_requests (octokit : option client) (payload : value) :
  let m := PullRequestHandler.handle octokit payload in
  within pull_request_endpoints m
  /\ (calls m <> [] ->
      present octokit = true
      /\ exists fs,
           payload = VObj fs
           /\ (field "action" fs = VStr "opened"
               \/ field "action" fs = VStr "synchronize")).
Proof.
  cbv zeta. split; [apply pull_request_within|].
  intros Hne.
  destruct octokit as [c|];
    [|destruct Hne; apply within_nil, pull_request_quiet_without_client].
  split; [reflexivity|].
  destruct payload as [| | | | | |fs]; try (now destruct Hne).
  exists fs. split; [reflexivity|].
  destruct (is_str "opened" (field "action" fs)) eqn:E1;
    [left; now apply is_str_true|].
  destruct (is_str "synchronize" (field "action" fs)) eqn:E2;
    [right; now apply is_str_true|].
  destruct Hne. apply within_nil.
  unfold PullRequestHandler.handle.
  rewrite !get_object, !bind_ret_l.
  repeat quiet_bind.
  rewrite E1, E2. quiet.
Qed.

Lemma request_eq (c : client) {A} (endpoint : string)
      (f : client -> value -> error + A) (args : value) :
  request (Some c) endpoint f args = (f c args, [ApiCall endpoint args]).
Proof. unfold request. rewrite bind_emit. now destruct (f c args). Qed.

Lemma map_m_filenames (paths : list string) :
  map_m (map file_entry paths) (fun file => get file "filename")
  = ret (map VStr paths).
Proof.
  induction paths as [|p r IH]; cbn [map map_m]; [reflexivity|].
  unfold file_entry at 1. rewrite get_object, bind_ret_l, IH.
  now rewrite bind_ret_l.
Qed.

Lemma get_ret_non_nullish (v x : value) (k : string) :
  get v k = ret x -> nullish v = false.
Proof. now destruct v. Qed.

(** X10. [checkAffectedServers] with a client, on a repository and a
    pull request that carry what the requests need: it asks for the
    files of the pull request and, exactly when some file lies under
    src/[name]/, logs and posts one comment, which lists these names
    once each in the order of their first occurrence; a rejection of
    the comment is logged and not rethrown. *)
Theorem affected_servers_are_commented
        (c : client) (repository pullRequest number : value)
        (ra : list (string * value)) (paths : list string) :
  repo_args repository = ret ra ->
  get pullRequest "number" = ret number ->
  pulls_listFiles c (VObj (ra ++ [("pull_number", number)]))
  = inr (map file_entry paths) ->
  let servers := collect paths [] in
  let comment :=
    VObj ((ra ++ [("issue_number", number)])
          ++ [("body",
               VStr (PullRequestHandler.affected_comment servers))]) in
  PullRequestHandler.checkAffectedServers (Some c) repository pullRequest
  = (inr tt,
     ApiCall "pulls.listFiles" (VObj (ra ++ [("pull_number", number)]))
     :: match servers with
        | [] => []
        | _ :: _ =>
            Logged Info "PR affects server packages"
            :: ApiCall "issues.createComment" comment
            :: match issues_createComment c comment with
               | inl _ => [Logged Err "Failed to check affected servers"]
               | inr _ => []
               end
        end).
Proof.
  intros Hra Hnum Hfiles. cbv zeta.
  pose proof (get_ret_non_nullish _ _ _ Hnum) as Hpr.
  unfold PullRequestHandler.checkAffectedServers.
  cbn [present negb]. unfold PullRequestHandler.pr_args.
  rewrite Hra, Hnum, !bind_ret_l, request_eq, Hfiles.
  rewrite bind_ok, map_m_filenames, bind_ret_l.
  unfold PullRequestHandler.getAffectedServersFromPaths.
  rewrite scan_paths_strings, bind_ret_l.
  destruct (collect paths []) as [|s servers] eqn:Es; [reflexivity|].
  rewrite (touch_ok _ Hpr), !bind_ret_l.
  unfold Logger.info, Logger.log. rewrite bind_emit, request_eq.
  destruct (issues_createComment c _) as [e|[]]; [|reflexivity].
  reflexivity.
Qed.

Lemma some_m_strings (f : value -> M bool) (g : string -> bool)
      (paths : list string) :
  (forall path, f (VStr path) = ret (g path)) ->
  some_m (map VStr paths) f = ret (existsb g paths).
Proof.
  intros H. induction paths as [|p r IH]; cbn [map some_m existsb];
    [reflexivity|].
  rewrite H, bind_ret_l. now destruct (g p).
Qed.

(** X11. [addLabelsBasedOnChanges] with a client, on a repository and
    a pull request that carry what the requests need: it asks for the
    files of the pull request and sends one request for labels exactly
    when it derives some label: documentation when a file name ends
    in .md, ci/cd when one contains .github/workflows, server:[name]
    for each server directory touched, dependencies when one contains
    package.json or pyproject.toml, in this order; a rejection is
    logged and not rethrown. *)
Theorem labels_follow_changed_files
        (c : client) (repository pullRequest number : value)
        (ra : list (string * value)) (paths : list string) :
  repo_args repository = ret ra ->
  get pullRequest "number" = ret number ->
  pulls_listFiles c (VObj (ra ++ [("pull_number", number)]))
  = inr (map file_entry paths) ->
  let labelling :=
    VObj ((ra ++ [("issue_number", number)])
          ++ [("labels", VArr (map VStr (change_labels paths)))]) in
  PullRequestHandler.addLabelsBasedOnChanges (Some c) repository
    pullRequest
  = (inr tt,
     ApiCall "pulls.listFiles" (VObj (ra ++ [("pull_number", number)]))
     :: match change_labels paths with
        | [] => []
        | _ :: _ =>
            [ApiCall "issues.addLabels" labelling;
             match issues_addLabels c labelling with
             | inr _ => Logged Info "Added labels to PR"
             | inl _ => Logged Err "Failed to add labels to PR"
             end]
        end).
Proof.
  intros Hra Hnum Hfiles. cbv zeta.
  pose proof (get_ret_non_nullish _ _ _ Hnum) as Hpr.
  unfold PullRequestHandler.addLabelsBasedOnChanges.
  cbn [present negb]. unfold PullRequestHandler.pr_args.
  rewrite Hra, Hnum, !bind_ret_l, request_eq, Hfiles.
  rewrite bind_ok, map_m_filenames, bind_ret_l.
  rewrite (some_m_strings _ (Str.ends_with ".md")), bind_ret_l
    by (intros; cbn [as_string]; now rewrite bind_ret_l).
  rewrite (some_m_strings _ (Str.includes ".github/workflows")),
    bind_ret_l by reflexivity.
  unfold PullRequestHandler.getAffectedServersFromPaths.
  rewrite scan_paths_strings, bind_ret_l.
  rewrite (some_m_strings _
             (fun path => Str.includes "package.json" path
                          || Str.includes "pyproject.toml" path)),
    bind_ret_l
    by (intros path; cbn [includes]; rewrite bind_ret_l;
        now destruct (Str.includes "package.json" path)).
  cbv zeta. fold (change_labels paths).
  destruct (change_labels paths) as [|l ls]; [reflexivity|].
  rewrite !bind_ret_l, request_eq, (touch_ok _ Hpr).
  destruct (issues_addLabels c _) as [e|[]]; reflexivity.
Qed.

Lemma operations_return_on_pull_request
      (octokit : option client) (repository : value)
      (pfs : list (string * value)) :
  result (PullRequestHandler.addLabelsBasedOnChanges octokit repository
            (VObj pfs)) = inr tt
  /\ result (PullRequestHandler.checkAffectedServers octokit repository
               (VObj pfs)) = inr tt
  /\ result (PullRequestHandler.addWelcomeComment octokit repository
               (VObj pfs)) = inr tt.
Proof.
  unfold PullRequestHandler.addLabelsBasedOnChanges,
    PullRequestHandler.checkAffectedServers,
    PullRequestHandler.addWelcomeComment.
  destruct octokit as [c|]; cbn [present negb]; [|repeat split].
  repeat split; apply (try_touch_log _ (VObj pfs)); discriminate.
Qed.

(** X12. On a payload that has a repository and a pull request with a
    user and, when a merged pull request is closed, its base, the pull
    request handler returns, with or without a client and whatever the
    API answers or rejects, for every action that has a text; for an
    action without a text (an object with a property [toString], or an
    array holding one) it throws a TypeError, from the template of the
    debug line. *)
Theorem pull_request_handler_returns
        (octokit : option client) (fs pfs : list (string * value)) :
  has "repository" fs ->
  field "pull_request" fs = VObj pfs ->
  has "user" pfs ->
  (field "action" fs = VStr "closed" ->
   truthy (field "merged" pfs) = true -> has "base" pfs) ->
  result (PullRequestHandler.handle octokit (VObj fs))
  = if convertible (field "action" fs) then inr tt else inl TypeError.
Proof.
  intros Hr Hpr Hu Hb.
  assert (K : forall lit,
             is_str lit (field "action" fs) = true ->
             (if convertible (field "action" fs)
              then inr tt else inl TypeError)
             = (inr tt : error + unit)).
  { intros lit H. now rewrite (is_str_convertible _ _ H). }
  destruct (operations_return_on_pull_request octokit
              (field "repository" fs) pfs) as (O1 & O2 & O3).
  assert (P : PullRequestHandler.pr_and_repo (VObj fs)
              = ret (VObj pfs, field "repository" fs)).
  { unfold PullRequestHandler.pr_and_repo. rewrite !get_object, Hpr.
    now run. }
  unfold PullRequestHandler.handle. rewrite !get_object, Hpr. run.
  unfold Logger.info at 1. run.
  destruct (is_str "opened" (field "action" fs)) eqn:E1.
  { rewrite (K _ E1).
    unfold PullRequestHandler.handlePROpened. rewrite P. run.
    unfold Logger.info at 1. run.
    now rewrite result_bind, O1, result_bind, O2. }
  destruct (is_str "synchronize" (field "action" fs)) eqn:E2.
  { rewrite (K _ E2).
    unfold PullRequestHandler.handlePRSynchronized. rewrite P. run.
    unfold Logger.info at 1. now run. }
  destruct (is_str "closed" (field "action" fs)) eqn:E3.
  { rewrite (K _ E3). apply is_str_true in E3.
    unfold PullRequestHandler.handlePRClosed. rewrite !get_object, Hpr.
    run. unfold Logger.info at 1. run. rewrite result_when.
    destruct (truthy (field "merged" pfs)) eqn:Em; [|reflexivity].
    specialize (Hb E3 eq_refl).
    unfold PullRequestHandler.handlePRMerged. rewrite P. run.
    unfold Logger.info at 1. run.
    destruct (get_non_nullish (field "base" pfs) "ref" Hb) as (x & ->).
    run. now rewrite result_when; destruct (is_str "main" x). }
  destruct (is_str "ready_for_review" (field "action" fs)) eqn:E4.
  { rewrite (K _ E4).
    unfold PullRequestHandler.handlePRReadyForReview. rewrite P. run.
    unfold Logger.info at 1. run.
    unfold PullRequestHandler.requestReviewers.
    destruct octokit; cbn [present negb]; [|reflexivity].
    now run. }
  apply result_text_log.
Qed.

End PullRequests.

Section PullRequestsAtSamples.
Import JS Op Octokit Notions Shapes.

Lemma affected_servers_are_commented_witness :
  PullRequestHandler.checkAffectedServers (Some Fixtures.listing)
    Fixtures.repository Fixtures.pull_request
  = (inr tt,
     [ApiCall "pulls.listFiles"
        (VObj [("owner", VStr "test"); ("repo", VStr "repo");
               ("pull_number", VNum 1 0)]);
      Logged Info "PR affects server packages";
      ApiCall "issues.createComment"
        (VObj [("owner", VStr "test"); ("repo", VStr "repo");
               ("issue_number", VNum 1 0);
               ("body",
                VStr (PullRequestHandler.affected_comment
                        ["git"; "time"]))]);
      Logged Err "Failed to check affected servers"]).
Proof.
  apply (affected_servers_are_commented Fixtures.listing
           Fixtures.repository Fixtures.pull_request (VNum 1 0)
           [("owner", VStr "test"); ("repo", VStr "repo")]
           Fixtures.changed_paths); reflexivity.
Defined.

Lemma labels_follow_changed_files_witness :
  PullRequestHandler.addLabelsBasedOnChanges (Some Fixtures.listing)
    Fixtures.repository Fixtures.pull_request
  = (inr tt,
     [ApiCall "pulls.listFiles"
        (VObj [("owner", VStr "test"); ("repo", VStr "repo");
               ("pull_number", VNum 1 0)]);
      ApiCall "issues.addLabels"
        (VObj [("owner", VStr "test"); ("repo", VStr "repo");
               ("issue_number", VNum 1 0);
               ("labels",
                VArr [VStr "documentation"; VStr "server:git";
                      VStr "server:time"])]);
      Logged Info "Added labels to PR"]).
Proof.
  apply (labels_follow_changed_files Fixtures.listing
           Fixtures.repository Fixtures.pull_request (VNum 1 0)
           [("owner", VStr "test"); ("repo", VStr "repo")]
           Fixtures.changed_paths); reflexivity.
Defined.

Lemma pull_request_handler_returns_witness :
  result (PullRequestHandler.handle (Some Fixtures.unreachable)
            (VObj Fixtures.merged_fields)) = inr tt.
Proof.
  apply (pull_request_handler_returns (Some Fixtures.unreachable)
           Fixtures.merged_fields
           [("number", VNum 7 0);
            ("user", VObj [("login", VStr "testuser")]);
            ("merged", VBool true);
            ("base", VObj [("ref", VStr "main")])]);
    reflexivity.
Defined.

End PullRequestsAtSamples.

(** ** handlers/issues.ts *)

Section IssuesEvents.
Import JS Op Octokit Notions Shapes.

Lemma title_and_body_quiet (eps : list string) (issue : value) :
  within eps (IssuesHandler.title_and_body issue).
Proof. unfold IssuesHandler.title_and_body. quiet. Qed.

Lemma issue_args_quiet (eps : list string) (repository issue : value) :
  within eps (IssuesHandler.issue_args repository issue).
Proof.
  pose proof repo_args_quiet. unfold IssuesHandler.issue_args. quiet.
Qed.

Lemma issue_and_repo_quiet (eps : list string) (payload : value) :
  within eps (IssuesHandler.issue_and_repo payload).
Proof. unfold IssuesHandler.issue_and_repo. quiet. Qed.

#[local] Hint Resolve repo_args_quiet title_and_body_quiet
  issue_args_quiet issue_and_repo_quiet : quiet.

Lemma handleIssueClosed_quiet (eps : list string) (payload : value) :
  within eps (IssuesHandler.handleIssueClosed payload).
Proof. unfold IssuesHandler.handleIssueClosed. quiet. Qed.

Lemma handleIssueLabeled_quiet (eps : list string) (payload : value) :
  within eps (IssuesHandler.handleIssueLabeled payload).
Proof. unfold IssuesHandler.handleIssueLabeled. quiet. Qed.

Lemma handleIssueAssigned_quiet (eps : list string) (payload : value) :
  within eps (IssuesHandler.handleIssueAssigned payload).
Proof. unfold IssuesHandler.handleIssueAssigned. quiet. Qed.

#[local] Hint Resolve handleIssueClosed_quiet handleIssueLabeled_quiet
  handleIssueAssigned_quiet : quiet.

Lemma issues_within (octokit : option client) (payload : value) :
  within issues_endpoints (IssuesHandler.handle octokit payload).
Proof.
  unfold IssuesHandler.handle, IssuesHandler.handleIssueOpened,
    IssuesHandler.autoLabelIssue, IssuesHandler.addWelcomeComment,
    IssuesHandler.categorizeIssue, IssuesHandler.add_labels_if_client,
    issues_endpoints.
  quiet.
Qed.

Lemma issues_quiet_without_client (payload : value) :
  within [] (IssuesHandler.handle None payload).
Proof.
  unfold IssuesHandler.handle, IssuesHandler.handleIssueOpened,
    IssuesHandler.autoLabelIssue, IssuesHandler.addWelcomeComment,
    IssuesHandler.categorizeIssue, IssuesHandler.add_labels_if_client.
  cbn [present negb]. quiet.
Qed.

(** X13. Whatever the payload, the issues handler sends requests to
    three endpoints only (the labels, the list and the comments of
    issues); and it sends one only with a client and for the action
    opened. *)
Theorem issues_requests (octokit : option client) (payload : value) :
  let m := IssuesHandler.handle octokit payload in
  within issues_endpoints m
  /\ (calls m <> [] ->
      present octokit = true
      /\ exists fs,
           payload = VObj fs /\ field "action" fs = VStr "opened").
Proof.
  cbv zeta. split; [apply issues_within|].
  intros Hne.
  destruct octokit as [c|];
    [|destruct Hne; apply within_nil, issues_quiet_without_client].
  split; [reflexivity|].
  destruct payload as [| | | | | |fs]; try (now destruct Hne).
  exists fs. split; [reflexivity|].
  destruct (is_str "opened" (field "action" fs)) eqn:E1;
    [now apply is_str_true|].
  destruct Hne. apply within_nil.
  unfold IssuesHandler.handle.
  rewrite !get_object, !bind_ret_l.
  repeat quiet_bind.
  rewrite E1. quiet.
Qed.

Lemma title_and_body_needs_issue (issue : value) (tb : string * string) :
  result (IssuesHandler.title_and_body issue) = inr tb ->
  nullish issue = false.
Proof. now destruct issue. Qed.

Lemma add_labels_if_client_returns
      (octokit : option client) (repository issue : value)
      (labels : list string) (failure : string) :
  result (IssuesHandler.add_labels_if_client octokit repository issue
            labels failure) = inr tt.
Proof.
  unfold IssuesHandler.add_labels_if_client.
  destruct octokit; cbn [present]; [apply try_log_returns | reflexivity].
Qed.

Lemma addWelcomeComment_returns
      (octokit : option client) (repository issue : value) :
  result (IssuesHandler.addWelcomeComment octokit repository issue)
  = inr tt.
Proof.
  unfold IssuesHandler.addWelcomeComment.
  destruct octokit; cbn [present negb];
    [apply try_log_returns | reflexivity].
Qed.

Lemma autoLabelIssue_result
      (c : client) (repository issue : value) :
  result (IssuesHandler.autoLabelIssue (Some c) repository issue)
  = match result (IssuesHandler.title_and_body issue) with
    | inl e => inl e
    | inr _ => inr tt
    end.
Proof.
  unfold IssuesHandler.autoLabelIssue. cbn [present negb].
  rewrite result_bind.
  destruct (result (IssuesHandler.title_and_body issue)) as [e|[t b]];
    [reflexivity|].
  destruct (IssuesHandler.labels_for t b);
    [reflexivity | apply try_log_returns].
Qed.

Lemma categorizeIssue_result
      (octokit : option client) (repository issue : value) :
  result (IssuesHandler.categorizeIssue octokit repository issue)
  = match result (IssuesHandler.title_and_body issue) with
    | inl e => inl e
    | inr _ => inr tt
    end.
Proof.
  unfold IssuesHandler.categorizeIssue. rewrite result_bind.
  destruct (result (IssuesHandler.title_and_body issue)) as [e|[t b]]
    eqn:E; [reflexivity|].
  apply title_and_body_needs_issue in E.
  rewrite result_bind.
  assert (S : result
                match
                  match Str.server_mention t with
                  | Some m => Some m
                  | None => Str.server_mention b
                  end
                with
                | Some serverName =>
                    bind (touch issue) (fun _ =>
                    bind (Logger.info "Issue relates to specific server")
                      (fun _ =>
                         IssuesHandler.add_labels_if_client octokit
                           repository issue
                           [String.append "server:" serverName]
                           "Failed to add server label"))
                | None => ret tt
                end = inr tt).
  { destruct (match Str.server_mention t with
              | Some m => Some m
              | None => Str.server_mention b
              end); [|reflexivity].
    rewrite (touch_ok _ E), bind_ret_l.
    unfold Logger.info. rewrite result_log_bind.
    apply add_labels_if_client_returns. }
  rewrite S. rewrite result_when.
  destruct (_ || _); [|reflexivity].
  rewrite (touch_ok _ E), bind_ret_l.
  unfold Logger.info. rewrite result_log_bind.
  apply add_labels_if_client_returns.
Qed.

(** X14. The operations of an opened issue never pass on a failure of
    the API or of building a request: [addWelcomeComment] always
    returns, and [autoLabelIssue] (with a client) and [categorizeIssue]
    throw only what reading the texts throws, that is, when the title
    is not a string or the body is neither empty nor a string. *)
Theorem issue_operations_fail_only_on_texts
        (octokit : option client) (repository issue : value) :
  let texts :=
    match result (IssuesHandler.title_and_body issue) with
    | inl e => inl e
    | inr _ => inr tt
    end in
  result (IssuesHandler.addWelcomeComment octokit repository issue)
  = inr tt
  /\ result (IssuesHandler.autoLabelIssue octokit repository issue)
     = (if present octokit then texts else inr tt)
  /\ result (IssuesHandler.categorizeIssue octokit repository issue)
     = texts.
Proof.
  cbv zeta. split; [apply addWelcomeComment_returns | split].
  - destruct octokit as [c|]; cbn [present]; [|reflexivity].
    apply autoLabelIssue_result.
  - apply categorizeIssue_result.
Qed.

(** X15. The issues handler returns on an opened issue that has a
    repository, a user, a string title and a body that is a string or
    empty: with or without a client, and whatever the API answers or
    rejects. *)
Theorem opened_issue_is_handled
        (octokit : option client) (fs ifs : list (string * value))
        (title : string) :
  field "action" fs = VStr "opened" ->
  has "repository" fs ->
  field "issue" fs = VObj ifs ->
  has "user" ifs ->
  field "title" ifs = VStr title ->
  (truthy (field "body" ifs) = true ->
   exists body, field "body" ifs = VStr body) ->
  result (IssuesHandler.handle octokit (VObj fs)) = inr tt.
Proof.
  intros Ha Hr Hi Hu Ht Hb.
  assert (T : exists tb, IssuesHandler.title_and_body (VObj ifs) = ret tb).
  { unfold IssuesHandler.title_and_body. rewrite !get_object, Ht. run.
    cbn [as_string]. run.
    destruct (truthy (field "body" ifs)) eqn:E.
    - destruct (Hb eq_refl) as (body & ->). cbn [as_string]. run. eauto.
    - cbn [as_string]. run. eauto. }
  destruct T as (tb & T).
  pose proof (addWelcomeComment_returns octokit (field "repository" fs)
                (VObj ifs)) as O1.
  pose proof (categorizeIssue_result octokit (field "repository" fs)
                (VObj ifs)) as O3.
  rewrite T in O3. cbn [result fst] in O3.
  assert (O2' : result (IssuesHandler.autoLabelIssue octokit
                          (field "repository" fs) (VObj ifs)) = inr tt).
  { destruct octokit as [c|]; [|reflexivity].
    rewrite autoLabelIssue_result. now rewrite T. }
  unfold IssuesHandler.handle. rewrite !get_object, Hi, Ha. run.
  unfold Logger.info at 1. run. cbn [is_str String.eqb Ascii.eqb Bool.eqb].
  unfold IssuesHandler.handleIssueOpened, IssuesHandler.issue_and_repo.
  rewrite !get_object, Hi. run. unfold Logger.info at 1. run.
  now rewrite result_bind, O2', result_bind, O1.
Qed.

End IssuesEvents.

Section IssuesAtSamples.
Import JS Op Octokit Notions Shapes.

Lemma opened_issue_is_handled_witness :
  result (IssuesHandler.handle (Some Fixtures.unreachable)
            (VObj Fixtures.issue_fields)) = inr tt.
Proof.
  apply (opened_issue_is_handled (Some Fixtures.unreachable)
           Fixtures.issue_fields
           [("number", VNum 3 0);
            ("title", VStr "Urgent: server: git crashes");
            ("body", VNull);
            ("user", VObj [("login", VStr "testuser")])]
           "Urgent: server: git crashes"); try reflexivity.
  discriminate.
Defined.

End IssuesAtSamples.

(** ** No delivery reaches the API *)

Section NoRequest.
Import JS Op Server Notions Shapes.

Variable octokit : option Octokit.client.
Variable secret : string.

Local Notation "'the_handlers'" := (WebhookHandlers.create octokit).
Local Notation "'the_library'" :=
  (register (WebhookHandlers.create octokit) (Webhooks.create secret)).

(** What the table of the library holds under a key sends no request
    when it is run on an event object: a handler of the program throws
    on it at once, the error callback logs, a member of
    Object.prototype returns or throws. *)
Lemma hook_quiet (key : string) (id name p : value)
      (hook : value -> M unit) :
  In hook (Webhooks.hooks_for the_library key) ->
  within [] (hook (VObj [("id", id); ("name", name); ("payload", p)])).
Proof.
  unfold Webhooks.hooks_for.
  set (own := map snd (filter _ (Webhooks.hooks the_library))).
  assert (O : forall f, In f own ->
                        exists h, f = WebhookHandlers.invoke the_handlers h).
  { intros f H. unfold own in H.
    apply in_map_iff in H as ((n & g) & <- & Hin).
    apply filter_In in Hin as [Hin _]. cbn in Hin.
    repeat (destruct Hin as [E|Hin];
            [injection E as _ <-; eexists; reflexivity|]).
    destruct Hin. }
  destruct own as [|f own'].
  - destruct (String.eqb key "error").
    + intros [<-|[]]. apply within_error.
    + unfold Webhooks.inherited.
      destruct (existsb _ Webhooks.returning);
        [intros [<-|[]]; apply within_ret|].
      destruct (existsb _ Webhooks.throwing);
        [intros [<-|[]]; apply within_throw | intros []].
  - intros H. destruct (O hook H) as (h & ->). apply no_api_within.
    unfold no_api, calls. rewrite invoke_run, handler_on_event_object.
    reflexivity.
Qed.

Lemma getHooks_cases (action name id p : value) :
  Webhooks.getHooks the_library action name = throw TypeError
  \/ exists hooks,
       Webhooks.getHooks the_library action name = ret hooks
       /\ forall hook,
            In hook hooks ->
            within []
              (hook (VObj [("id", id); ("name", name); ("payload", p)])).
Proof.
  unfold Webhooks.getHooks, text.
  destruct (to_text name) as [n|]; [|now left].
  rewrite bind_ret_l.
  destruct (truthy action).
  - destruct (to_text action) as [a|]; [|now left].
    right. rewrite !bind_ret_l. eexists. split; [reflexivity|].
    intros hook H. rewrite !in_app_iff in H.
    destruct H as [H|[H|H]]; exact (hook_quiet _ _ _ _ _ H).
  - right. rewrite !bind_ret_l. eexists. split; [reflexivity|].
    intros hook H. rewrite !in_app_iff in H.
    destruct H as [[]|[H|H]]; exact (hook_quiet _ _ _ _ _ H).
Qed.

Lemma run_hooks_quiet (hooks : list (value -> M unit)) (event : value) :
  (forall hook, In hook hooks -> within [] (hook event)) ->
  within [] (Webhooks.run_hooks hooks event).
Proof.
  induction hooks as [|f r IH]; intros H; cbn [Webhooks.run_hooks];
    [apply within_ret|].
  apply within_bind.
  - apply within_try_catch; [|intros; apply within_ret].
    apply within_bind; [apply H; now left | intros; apply within_ret].
  - intros e. apply within_bind; [|intros; apply within_ret].
    apply IH. intros hook Hin. apply H. now right.
Qed.

Lemma notify_quiet (err : error) :
  within [] (Webhooks.notify the_library err).
Proof. rewrite notify_registered. apply no_api_within. reflexivity. Qed.

Lemma receive_quiet (id name p : value) :
  within [] (Webhooks.receive the_library id name p).
Proof.
  unfold Webhooks.receive.
  destruct (negb (truthy name)); [apply within_throw|].
  destruct (negb (truthy p)); [apply within_throw|].
  apply within_bind; [destruct p; quiet | intros action].
  destruct (getHooks_cases action name id p) as [-> | (hooks & -> & H)];
    [apply within_throw|].
  rewrite bind_ret_l.
  apply within_bind; [now apply run_hooks_quiet | intros errors].
  destruct errors; [apply within_ret|].
  apply within_bind; [apply notify_quiet | intros; apply within_throw].
Qed.

Lemma verifyAndReceive_quiet (id name signature : value) (text : string) :
  within [] (Webhooks.verifyAndReceive the_library id name signature text).
Proof.
  unfold Webhooks.verifyAndReceive.
  destruct (negb (Webhooks.verify _ text signature)).
  - apply within_bind; [apply notify_quiet | intros; apply within_throw].
  - destruct (JSON.parse text); [apply receive_quiet | apply within_throw].
Qed.

(** For a registered event the library's dispatch fails: the hook gets
    the event object. *)
Lemma receive_registered_fails (id : value) (h : handler_name)
      (p : value) :
  failed (Webhooks.receive the_library id (VStr (event_name h)) p).
Proof.
  unfold Webhooks.receive.
  replace (truthy (VStr (event_name h))) with true by now destruct h.
  cbn [negb].
  destruct p; cbn [truthy negb];
    try (eexists; reflexivity);
    try (destruct (negb _); eexists; reflexivity);
    rewrite bind_ret_l, getHooks_name;
    (destruct (convertible _); [|eexists; reflexivity]);
    rewrite bind_ret_l, hooks_for_registered, run_single_hook, invoke_run;
    cbn [fst snd]; rewrite handler_on_event_object;
    eexists; reflexivity.
Qed.

Lemma verifyAndReceive_registered_fails
      (id signature : value) (h : handler_name) (text : string) :
  failed (Webhooks.verifyAndReceive the_library id (VStr (event_name h))
            signature text).
Proof.
  unfold Webhooks.verifyAndReceive.
  destruct (negb (Webhooks.verify _ text signature)).
  - rewrite notify_registered. eexists; reflexivity.
  - destruct (JSON.parse text);
      [apply receive_registered_fails | eexists; reflexivity].
Qed.

Lemma handleEvent_unregistered_quiet (name payload id : value) :
  WebhookHandlers.registered name = None ->
  within [] (WebhookHandlers.handleEvent the_handlers name payload id).
Proof.
  intros R. unfold WebhookHandlers.handleEvent. rewrite R. quiet.
Qed.

Lemma registered_value (name : value) (h : handler_name) :
  WebhookHandlers.registered name = Some h -> name = VStr (event_name h).
Proof.
  destruct name; try discriminate.
  intros H. f_equal. now apply registered_inv.
Qed.

Lemma dispatch_quiet (id name signature payload : value) (text : string) :
  within []
    (bind (Webhooks.verifyAndReceive the_library id name signature text)
       (fun _ =>
          WebhookHandlers.handleEvent the_handlers name payload id)).
Proof.
  destruct (WebhookHandlers.registered name) as [h|] eqn:R.
  - apply registered_value in R. subst name.
    destruct (verifyAndReceive_registered_fails id signature h text)
      as (e & He).
    apply no_api_within. unfold no_api.
    rewrite calls_bind_quiet by apply verifyAndReceive_quiet.
    now rewrite He.
  - apply within_bind; [apply verifyAndReceive_quiet | intros _].
    now apply handleEvent_unregistered_quiet.
Qed.

(** X16. The server as it is assembled (the six handlers registered
    with the library under the event names, and called again by
    [handleEvent]) sends no API request for any request whatever: with
    or without a client, whatever the headers and the body. A delivery
    of a registered event fails in the library's dispatch before
    [handleEvent] is reached, and the other ones have no handler. *)
Theorem no_delivery_reaches_the_api (req : request) :
  api_calls
    (snd (post_webhook (make secret (WebhookHandlers.create octokit)) req))
  = [].
Proof.
  destruct (verifySignature_cases secret req) as [Hn|(o & Ho & _)].
  - rewrite (post_webhook_next _ _ _ Hn).
    destruct (JSON.parse (body_text (req_body req))) as [payload|] eqn:Hp.
    + destruct (nullish payload) eqn:Hnull.
      * now rewrite (route_null _ _ _ _ Hp Hnull).
      * rewrite (route_parsed _ _ _ _ Hp Hnull). cbv zeta.
        pose proof (dispatch_quiet (header req delivery_header)
                      (header req event_header) (header req sig_header)
                      payload (body_text (req_body req))) as Q.
        apply within_nil in Q. unfold no_api, calls, trace in Q.
        set (r := bind _ (fun _ => _)) in *. clearbody r.
        unfold received_log, error_processing_log.
        destruct (fst r); simpl; rewrite ?api_calls_app, Q; reflexivity.
    + now rewrite (route_malformed _ _ _ Hp).
  - now rewrite (post_webhook_done
                   (make secret (WebhookHandlers.create octokit)) req o Ho).
Qed.

End NoRequest.

(** ** handlers/release.ts *)

Section Releases.
Import JS Op Octokit Notions Shapes.

Lemma repo_args_cases (repository : value) :
  repo_args repository = throw TypeError
  \/ exists ra, repo_args repository = ret ra.
Proof.
  unfold repo_args.
  destruct repository as [| | | | | |fs]; try (now left);
    try (right; eexists; reflexivity).
  rewrite !get_object, !bind_ret_l.
  destruct (field "owner" fs); try (now left);
    right; eexists; reflexivity.
Qed.

Lemma getPreviousReleaseTag_cases
      (octokit : option client) (repository : value) :
  exists tag,
    result (ReleaseHandler.getPreviousReleaseTag octokit repository)
    = inr tag
    /\ (tag = VStr "HEAD~10"
        \/ exists c ra latest previous older,
             octokit = Some c
             /\ repo_args repository = ret ra
             /\ repos_listReleases c
                  (VObj (ra ++ [("per_page", VNum 2 0)]))
                = inr (latest :: previous :: older)
             /\ get previous "tag_name" = ret tag).
Proof.
  unfold ReleaseHandler.getPreviousReleaseTag.
  destruct octokit as [c|]; cbn [present negb];
    [|exists (VStr "HEAD~10"); now split; [|left]].
  destruct (repo_args_cases repository) as [->|(ra & Hra)];
    [exists (VStr "HEAD~10"); now split; [|left]|].
  rewrite Hra, bind_ret_l, request_eq.
  destruct (repos_listReleases c _)
    as [e|[|latest [|previous older]]] eqn:El;
    try (exists (VStr "HEAD~10"); now split; [|left]).
  destruct (nullish previous) eqn:Hn.
  - exists (VStr "HEAD~10"). split; [|now left].
    now destruct previous.
  - destruct (get_non_nullish previous "tag_name" Hn) as (tag & Ht).
    exists tag. split; [rewrite bind_ok; now rewrite Ht|].
    right. now exists c, ra, latest, previous, older.
Qed.

Lemma getPreviousReleaseTag_calls (c : client) (repository : value)
      (ra : list (string * value)) :
  repo_args repository = ret ra ->
  calls (ReleaseHandler.getPreviousReleaseTag (Some c) repository)
  = ["repos.listReleases"].
Proof.
  intros Hra. unfold ReleaseHandler.getPreviousReleaseTag.
  cbn [present negb].
  rewrite calls_try_quiet_handler by (intros; quiet).
  rewrite Hra, bind_ret_l.
  rewrite calls_bind_quiet_rest by (intros; quiet).
  apply calls_request.
Qed.

(** X17. [getPreviousReleaseTag] never throws and sends at most one
    request, for the two latest releases. Without a client it returns
    'HEAD~10' and sends nothing; so it does when the request cannot be
    built from the repository. Otherwise it sends exactly the one
    request and returns the tag name of the second release listed when
    the API lists two or more and the second one is not null, and
    'HEAD~10' in every other case: when the request is rejected, when
    fewer than two releases are listed, when the second one is null. *)
Theorem previous_release_tag_or_fallback
        (octokit : option client) (repository : value) :
  let m := ReleaseHandler.getPreviousReleaseTag octokit repository in
  (exists tag, result m = inr tag)
  /\ (List.length (calls m) <= 1)%nat
  /\ within ["repos.listReleases"] m
  /\ (octokit = None -> m = ret (VStr "HEAD~10"))
  /\ (failed (repo_args repository) ->
      result m = inr (VStr "HEAD~10") /\ calls m = [])
  /\ (forall c ra,
         octokit = Some c ->
         repo_args repository = ret ra ->
         calls m = ["repos.listReleases"]
         /\ match repos_listReleases c
                   (VObj (ra ++ [("per_page", VNum 2 0)])) with
            | inr (_ :: previous :: _) =>
                if nullish previous
                then result m = inr (VStr "HEAD~10")
                else exists tag,
                       get previous "tag_name" = ret tag
                       /\ result m = inr tag
            | _ => result m = inr (VStr "HEAD~10")
            end).
Proof.
  cbv zeta.
  assert (W : within ["repos.listReleases"]
                (ReleaseHandler.getPreviousReleaseTag octokit repository)).
  { pose proof repo_args_quiet.
    unfold ReleaseHandler.getPreviousReleaseTag. quiet. }
  destruct octokit as [c|].
  - destruct (repo_args_cases repository) as [E|(ra & Hra)].
    + assert (Q : ReleaseHandler.getPreviousReleaseTag (Some c) repository
                  = (inr (VStr "HEAD~10"),
                     [Logged Err "Failed to get previous release tag"])).
      { unfold ReleaseHandler.getPreviousReleaseTag. cbn [present negb].
        now rewrite E. }
      rewrite Q.
      split; [eexists; reflexivity|].
      split; [simpl; lia|].
      split; [now rewrite <- Q|].
      split; [discriminate|].
      split; [now split|].
      intros c0 ra _ H. rewrite E in H. discriminate H.
    + pose proof (getPreviousReleaseTag_calls c repository ra Hra) as C.
      rewrite C.
      assert (Q : match repos_listReleases c
                          (VObj (ra ++ [("per_page", VNum 2 0)])) with
                  | inr (_ :: previous :: _) =>
                      if nullish previous
                      then result (ReleaseHandler.getPreviousReleaseTag
                                     (Some c) repository)
                           = inr (VStr "HEAD~10")
                      else exists tag,
                             get previous "tag_name" = ret tag
                             /\ result (ReleaseHandler.getPreviousReleaseTag
                                          (Some c) repository)
                                = inr tag
                  | _ => result (ReleaseHandler.getPreviousReleaseTag
                                   (Some c) repository)
                         = inr (VStr "HEAD~10")
                  end).
      { unfold ReleaseHandler.getPreviousReleaseTag. cbn [present negb].
        rewrite Hra, bind_ret_l, request_eq.
        destruct (repos_listReleases c _)
          as [e|[|latest [|previous older]]]; try reflexivity.
        destruct (nullish previous) eqn:Hn;
          [destruct previous; try discriminate Hn; reflexivity|].
        destruct (get_non_nullish previous "tag_name" Hn) as (tag & Ht).
        exists tag. split; [assumption|].
        rewrite bind_ok. now rewrite Ht. }
      split.
      { destruct (repos_listReleases c _)
          as [e|[|latest [|previous older]]]; eauto.
        destruct (nullish previous); [eauto|].
        destruct Q as (tag & _ & Q). eauto. }
      split; [simpl; lia|].
      split; [assumption|].
      split; [discriminate|].
      split; [intros (e & He); rewrite Hra in He; discriminate He|].
      intros c0 ra0 H0 Hra0. injection H0 as <-.
      rewrite Hra in Hra0. injection Hra0 as <-. split; [reflexivity|].
      exact Q.
  - split; [eexists; reflexivity|].
    split; [simpl; lia|].
    split; [assumption|].
    split; [reflexivity|].
    split; [now split|].
    discriminate.
Qed.

Lemma generateReleaseMetrics_result
      (octokit : option client) (repository release : value) :
  result (ReleaseHandler.generateReleaseMetrics octokit repository release)
  = (if nullish repository || nullish release then inl TypeError
     else inr tt).
Proof.
  unfold ReleaseHandler.generateReleaseMetrics.
  destruct (nullish repository) eqn:Hr; [now destruct repository|].
  destruct (nullish release) eqn:Hl;
    [rewrite (touch_ok _ Hr), bind_ret_l; now destruct release|].
  rewrite (touch_ok _ Hr), (touch_ok _ Hl), !bind_ret_l.
  unfold Logger.info at 1. rewrite result_log_bind.
  destruct octokit; cbn [present orb];
    [apply try_log_returns | reflexivity].
Qed.

(** X18. [generateReleaseMetrics] throws only when the repository or
    the release is null or undefined, never for what the API does; and
    it sends either no request or the two requests, for the latest
    releases and then for the comparison, in this order. *)
Theorem release_metrics_requests
        (octokit : option client) (repository release : value) :
  let m := ReleaseHandler.generateReleaseMetrics octokit repository
             release in
  result m
  = (if nullish repository || nullish release then inl TypeError
     else inr tt)
  /\ (calls m = []
      \/ calls m = ["repos.listReleases"; "repos.compareCommits"]).
Proof.
  cbv zeta. split; [apply generateReleaseMetrics_result|].
  unfold ReleaseHandler.generateReleaseMetrics.
  destruct (nullish repository) eqn:Hr; [left; now destruct repository|].
  destruct (nullish release) eqn:Hl;
    [left; rewrite (touch_ok _ Hr), bind_ret_l; now destruct release|].
  rewrite (touch_ok _ Hr), (touch_ok _ Hl), !bind_ret_l.
  rewrite calls_bind_quiet by quiet.
  cbn [result fst Logger.info Logger.log emit].
  destruct octokit as [c|]; cbn [present]; [|now left].
  rewrite calls_try_quiet_handler by (intros; quiet).
  destruct (repo_args_cases repository) as [->|(ra & Hra)]; [now left|].
  rewrite Hra, bind_ret_l, calls_bind.
  rewrite (getPreviousReleaseTag_calls c repository ra Hra).
  destruct (getPreviousReleaseTag_cases (Some c) repository)
    as (tag & -> & _).
  destruct (get_non_nullish release "tag_name" Hl) as (head & ->).
  rewrite bind_ret_l.
  rewrite calls_bind_quiet_rest by (intros; quiet).
  rewrite calls_request. now right.
Qed.

Lemma missing_sections (notes : string) :
  filter_m ReleaseHandler.requiredSections
    (fun section =>
       bind (includes (VStr notes) section) (fun b => ret (negb b)))
  = ret (filter (fun section => negb (Str.includes section notes))
           ReleaseHandler.requiredSections).
Proof.
  unfold ReleaseHandler.requiredSections.
  cbn [filter_m filter includes]. rewrite !bind_ret_l.
  repeat (destruct (Str.includes _ notes); cbn [negb]); reflexivity.
Qed.

Lemma validateReleaseNotes_returns
      (repository : value) (rfs : list (string * value)) (notes : string) :
  nullish repository = false ->
  notes_of (field "body" rfs) = VStr notes ->
  result (ReleaseHandler.validateReleaseNotes repository (VObj rfs))
  = inr tt.
Proof.
  intros Hr Hb. unfold ReleaseHandler.validateReleaseNotes.
  unfold notes_of in Hb. rewrite get_object, bind_ret_l, Hb.
  rewrite (touch_ok _ Hr), bind_ret_l.
  unfold Logger.info at 1. rewrite result_log_bind.
  rewrite missing_sections, bind_ret_l. cbn [as_string].
  destruct (filter _ ReleaseHandler.requiredSections);
    rewrite ?bind_ret_l; unfold Logger.warn; rewrite ?result_log_bind;
    rewrite ?bind_ret_l, result_when; now destruct (_ && _).
Qed.

(** X19. [validateReleaseNotes] on a release whose body is a string or
    empty: it returns, and it warns that recommended sections are
    missing exactly when the notes lack one of the three headings. *)
Theorem release_notes_warning
        (repository : value) (rfs : list (string * value))
        (notes : string) :
  nullish repository = false ->
  notes_of (field "body" rfs) = VStr notes ->
  let m := ReleaseHandler.validateReleaseNotes repository (VObj rfs) in
  result m = inr tt
  /\ (In missing_sections_log (logs (trace m))
      <-> exists section,
            In section ReleaseHandler.requiredSections
            /\ Str.includes section notes = false).
Proof.
  intros Hr Hb. cbv zeta.
  unfold ReleaseHandler.validateReleaseNotes.
  unfold notes_of in Hb. rewrite get_object, bind_ret_l, Hb.
  rewrite (touch_ok _ Hr), bind_ret_l.
  unfold Logger.info at 1. unfold Logger.log at 1. rewrite bind_emit.
  rewrite missing_sections, bind_ret_l.
  cbn [as_string]. 
  set (missing := filter _ ReleaseHandler.requiredSections).
  assert (M : missing <> []
              <-> exists section,
                    In section ReleaseHandler.requiredSections
                    /\ Str.includes section notes = false).
  { split.
    - intros Hne. destruct missing as [|x r] eqn:E; [contradiction|].
      exists x.
      assert (Hin : In x missing) by (rewrite E; now left).
      apply filter_In in Hin as [Hin Hx].
      split; [exact Hin | now apply negb_true_iff in Hx].
    - intros (x & Hin & Hx) E.
      assert (Hm : In x missing)
        by (apply filter_In; split; [exact Hin | now rewrite Hx]).
      now rewrite E in Hm. }
  rewrite <- M. clearbody missing.
  destruct missing as [|x r]; rewrite ?bind_ret_l;
    unfold Logger.warn, Logger.log; rewrite ?bind_emit, ?bind_ret_l;
    destruct (_ && _); cbn; (split; [reflexivity|]); split;
      try discriminate; try tauto;
      try (intros H; exfalso; now apply H);
      intros H; repeat (destruct H as [H|H]; [discriminate H|]);
      destruct H.
Qed.

Lemma release_and_repo_quiet (eps : list string) (payload : value) :
  within eps (ReleaseHandler.release_and_repo payload).
Proof. unfold ReleaseHandler.release_and_repo. quiet. Qed.

Lemma validateReleaseNotes_quiet (eps : list string)
      (repository release : value) :
  within eps (ReleaseHandler.validateReleaseNotes repository release).
Proof. unfold ReleaseHandler.validateReleaseNotes. quiet. Qed.

Lemma notifyNewRelease_quiet (eps : list string)
      (repository release : value) :
  within eps (ReleaseHandler.notifyNewRelease repository release).
Proof. unfold ReleaseHandler.notifyNewRelease. quiet. Qed.

Lemma updatePackageRegistries_quiet (eps : list string)
      (octokit : option client) (repository release : value) :
  within eps
    (ReleaseHandler.updatePackageRegistries octokit repository release).
Proof.
  unfold ReleaseHandler.updatePackageRegistries,
    ReleaseHandler.verifyNpmPackages, ReleaseHandler.verifyPyPIPackages.
  quiet.
Qed.

#[local] Hint Resolve repo_args_quiet release_and_repo_quiet
  validateReleaseNotes_quiet notifyNewRelease_quiet
  updatePackageRegistries_quiet : quiet.

Lemma handleReleaseCreated_quiet (eps : list string) (payload : value) :
  within eps (ReleaseHandler.handleReleaseCreated payload).
Proof. unfold ReleaseHandler.handleReleaseCreated. quiet. Qed.

Lemma handleReleaseEdited_quiet (eps : list string) (payload : value) :
  within eps (ReleaseHandler.handleReleaseEdited payload).
Proof. unfold ReleaseHandler.handleReleaseEdited. quiet. Qed.

Lemma handleReleaseDeleted_quiet (eps : list string) (payload : value) :
  within eps (ReleaseHandler.handleReleaseDeleted payload).
Proof. unfold ReleaseHandler.handleReleaseDeleted. quiet. Qed.

#[local] Hint Resolve handleReleaseCreated_quiet
  handleReleaseEdited_quiet handleReleaseDeleted_quiet : quiet.

Lemma release_within (octokit : option client) (payload : value) :
  within release_endpoints (ReleaseHandler.handle octokit payload).
Proof.
  unfold ReleaseHandler.handle, ReleaseHandler.handleReleasePublished,
    ReleaseHandler.generateReleaseMetrics,
    ReleaseHandler.getPreviousReleaseTag, release_endpoints.
  quiet.
Qed.

Lemma release_quiet_without_client (payload : value) :
  within [] (ReleaseHandler.handle None payload).
Proof.
  unfold ReleaseHandler.handle, ReleaseHandler.handleReleasePublished,
    ReleaseHandler.generateReleaseMetrics.
  cbn [present negb]. quiet.
Qed.

(** X20. Whatever the payload, the release handler sends requests to
    two endpoints only (the list of releases and the comparison of
    commits); and it sends one only with a client and for the action
    published. The checks of the npm and PyPI packages send none. *)
Theorem release_requests (octokit : option client) (payload : value) :
  let m := ReleaseHandler.handle octokit payload in
  within release_endpoints m
  /\ (calls m <> [] ->
      present octokit = true
      /\ exists fs,
           payload = VObj fs /\ field "action" fs = VStr "published")
  /\ forall repository release,
       calls (ReleaseHandler.updatePackageRegistries octokit repository
                release) = [].
Proof.
  cbv zeta. split; [apply release_within|].
  split; [|intros; apply within_nil, updatePackageRegistries_quiet].
  intros Hne.
  destruct octokit as [c|];
    [|destruct Hne; apply within_nil, release_quiet_without_client].
  split; [reflexivity|].
  destruct payload as [| | | | | |fs]; try (now destruct Hne).
  exists fs. split; [reflexivity|].
  destruct (is_str "published" (field "action" fs)) eqn:E1;
    [now apply is_str_true|].
  destruct Hne. apply within_nil.
  unfold ReleaseHandler.handle.
  rewrite !get_object, !bind_ret_l.
  repeat quiet_bind.
  rewrite E1. quiet.
Qed.

Lemma notifyNewRelease_returns (repository release : value) :
  nullish repository = false ->
  nullish release = false ->
  result (ReleaseHandler.notifyNewRelease repository release) = inr tt.
Proof.
  intros Hr Hl. unfold ReleaseHandler.notifyNewRelease.
  rewrite (touch_ok _ Hr), (touch_ok _ Hl), !bind_ret_l.
  unfold Logger.info at 1. rewrite result_log_bind.
  destruct (get_non_nullish release "prerelease" Hl) as (p & ->).
  rewrite bind_ret_l. now destruct (negb (truthy p)).
Qed.

Lemma updatePackageRegistries_returns
      (octokit : option client) (repository release : value) :
  nullish repository = false ->
  nullish release = false ->
  result (ReleaseHandler.updatePackageRegistries octokit repository
            release) = inr tt.
Proof.
  intros Hr Hl. unfold ReleaseHandler.updatePackageRegistries.
  rewrite (touch_ok _ Hr), (touch_ok _ Hl), !bind_ret_l.
  unfold Logger.info at 1. rewrite result_log_bind.
  unfold ReleaseHandler.verifyNpmPackages,
    ReleaseHandler.verifyPyPIPackages.
  destruct octokit; cbn [present negb]; [|reflexivity].
  rewrite result_bind.
  replace (result (try_catch _ _)) with (inr tt : error + unit)
    by (symmetry; apply try_log_returns).
  apply try_log_returns.
Qed.

(** X21. On a payload that has a repository and a release whose body
    is a string or empty, the release handler returns, with or without
    a client and whatever the API answers or rejects, for every action
    that has a text; for an action without a text (an object with a
    property [toString], or an array holding one) it throws a
    TypeError, from the template of the debug line. *)
Theorem release_handler_returns
        (octokit : option client) (fs rfs : list (string * value))
        (notes : string) :
  has "repository" fs ->
  field "release" fs = VObj rfs ->
  notes_of (field "body" rfs) = VStr notes ->
  result (ReleaseHandler.handle octokit (VObj fs))
  = if convertible (field "action" fs) then inr tt else inl TypeError.
Proof.
  intros Hr Hl Hb.
  assert (K : forall lit,
             is_str lit (field "action" fs) = true ->
             (if convertible (field "action" fs)
              then inr tt else inl TypeError)
             = (inr tt : error + unit)).
  { intros lit H. now rewrite (is_str_convertible _ _ H). }
  assert (P : ReleaseHandler.release_and_repo (VObj fs)
              = ret (VObj rfs, field "repository" fs)).
  { unfold ReleaseHandler.release_and_repo. rewrite !get_object, Hl.
    now run. }
  pose proof (validateReleaseNotes_returns (field "repository" fs) rfs
                notes Hr Hb) as V.
  unfold ReleaseHandler.handle. rewrite !get_object, Hl. run.
  unfold Logger.info at 1. run.
  destruct (is_str "published" (field "action" fs)) eqn:E1.
  { rewrite (K _ E1).
    unfold ReleaseHandler.handleReleasePublished. rewrite P. run.
    unfold Logger.info at 1. run.
    rewrite result_bind, notifyNewRelease_returns by easy.
    rewrite result_bind, updatePackageRegistries_returns by easy.
    rewrite generateReleaseMetrics_result.
    unfold has in Hr. now rewrite Hr. }
  destruct (is_str "created" (field "action" fs)) eqn:E2.
  { rewrite (K _ E2).
    unfold ReleaseHandler.handleReleaseCreated. rewrite P. run.
    unfold Logger.info at 1. run. exact V. }
  destruct (is_str "edited" (field "action" fs)) eqn:E3.
  { rewrite (K _ E3).
    unfold ReleaseHandler.handleReleaseEdited. rewrite P. run.
    unfold Logger.info at 1. run. exact V. }
  destruct (is_str "deleted" (field "action" fs)) eqn:E4.
  { rewrite (K _ E4).
    unfold ReleaseHandler.handleReleaseDeleted. rewrite P. now run. }
  apply result_text_log.
Qed.

End Releases.

Section ReleasesAtSamples.
Import JS Op Octokit Notions Shapes.

Lemma release_notes_warning_witness :
  let m := ReleaseHandler.validateReleaseNotes Fixtures.repository
             (VObj [("tag_name", VStr "v1.2.0");
                    ("body", VStr Fixtures.release_notes)]) in
  result m = inr tt
  /\ (In missing_sections_log (logs (trace m))
      <-> exists section,
            In section ReleaseHandler.requiredSections
            /\ Str.includes section Fixtures.release_notes = false).
Proof.
  apply (release_notes_warning Fixtures.repository
           [("tag_name", VStr "v1.2.0");
            ("body", VStr Fixtures.release_notes)]
           Fixtures.release_notes); reflexivity.
Defined.

Lemma release_handler_returns_witness :
  result (ReleaseHandler.handle (Some Fixtures.released)
            (VObj Fixtures.published_fields)) = inr tt.
Proof.
  apply (release_handler_returns (Some Fixtures.released)
           Fixtures.published_fields
           [("tag_name", VStr "v1.2.0"); ("prerelease", VBool false)]
           EmptyString); reflexivity.
Defined.

End ReleasesAtSamples.

(** ** handlers/repository.ts *)

Section Repositories.
Import JS Op Octokit Notions Shapes.

(** X22. The repository handler only logs: whatever the payload it
    sends no API request. On an object payload without a repository it
    throws a TypeError before any log. With a repository, it returns
    after three log lines for each of its six actions; for any other
    action it returns after two lines, the second showing the action,
    unless the action has no text: then it throws a TypeError after
    the first line. *)
Theorem repository_events_are_only_logged (payload : value) :
  let m := RepositoryHandler.handle payload in
  within [] m
  /\ forall fs,
       payload = VObj fs ->
       if nullish (field "repository" fs)
       then m = (inl TypeError, [])
       else
         List.length (trace m) = List.length (logs (trace m))
         /\ if existsb (fun a => is_str a (field "action" fs))
                 repository_actions
            then result m = inr tt /\ List.length (trace m) = 3%nat
            else
              match to_text (field "action" fs) with
              | Some a =>
                  m = (inr tt,
                       [Logged Info "Processing repository event";
                        Logged Debug
                          (String.append "Unhandled repository action: "
                             a)])
              | None =>
                  m = (inl TypeError,
                       [Logged Info "Processing repository event"])
              end.
Proof.
  cbv zeta. split.
  - unfold RepositoryHandler.handle,
      RepositoryHandler.handleRepositoryCreated,
      RepositoryHandler.handleRepositoryDeleted,
      RepositoryHandler.handleRepositoryArchived,
      RepositoryHandler.handleRepositoryUnarchived,
      RepositoryHandler.handleRepositoryPublicized,
      RepositoryHandler.handleRepositoryPrivatized,
      RepositoryHandler.two_logs.
    quiet.
  - intros fs ->.
    unfold RepositoryHandler.handle,
      RepositoryHandler.handleRepositoryCreated,
      RepositoryHandler.handleRepositoryDeleted,
      RepositoryHandler.handleRepositoryArchived,
      RepositoryHandler.handleRepositoryUnarchived,
      RepositoryHandler.handleRepositoryPublicized,
      RepositoryHandler.handleRepositoryPrivatized,
      RepositoryHandler.two_logs, repository_actions.
    rewrite !get_object, !bind_ret_l.
    destruct (nullish (field "repository" fs)) eqn:Hr.
    + unfold touch. now rewrite Hr.
    + rewrite (touch_ok _ Hr). cbn [existsb].
      repeat (destruct (is_str _ (field "action" fs));
              [cbn [orb]; repeat split|]).
      cbn [orb]. unfold text.
      destruct (to_text (field "action" fs)); split; reflexivity.
Qed.

End Repositories.

(** ** handlers/workflow.ts *)

Section Workflows.
Import JS Op Octokit Notions Shapes.

Lemma run_and_repo_quiet (eps : list string) (payload : value) :
  within eps (WorkflowHandler.run_and_repo payload).
Proof. unfold WorkflowHandler.run_and_repo. quiet. Qed.

Lemma duration_of_quiet (eps : list string) (workflowRun : value) :
  within eps (WorkflowHandler.duration_of workflowRun).
Proof.
  unfold WorkflowHandler.duration_of, WorkflowHandler.calculateDuration.
  quiet.
Qed.

#[local] Hint Resolve duration_of_quiet : quiet.

Lemma trackWorkflowMetrics_quiet (eps : list string)
      (repository workflowRun : value) (status : string) :
  within eps
    (WorkflowHandler.trackWorkflowMetrics repository workflowRun status).
Proof.
  unfold WorkflowHandler.trackWorkflowMetrics, WorkflowHandler.actor_login.
  quiet.
Qed.

Lemma notifyWorkflowFailure_quiet (eps : list string)
      (repository workflowRun : value) :
  within eps (WorkflowHandler.notifyWorkflowFailure repository workflowRun).
Proof. unfold WorkflowHandler.notifyWorkflowFailure. quiet. Qed.

#[local] Hint Resolve repo_args_quiet run_and_repo_quiet
  trackWorkflowMetrics_quiet notifyWorkflowFailure_quiet : quiet.

Lemma handleWorkflowSuccess_quiet (eps : list string) (payload : value) :
  within eps (WorkflowHandler.handleWorkflowSuccess payload).
Proof.
  unfold WorkflowHandler.handleWorkflowSuccess,
    WorkflowHandler.handleReleaseWorkflowSuccess,
    WorkflowHandler.handleTestWorkflowSuccess.
  quiet.
Qed.

Lemma handleWorkflowCancelled_quiet (eps : list string) (payload : value) :
  within eps (WorkflowHandler.handleWorkflowCancelled payload).
Proof. unfold WorkflowHandler.handleWorkflowCancelled. quiet. Qed.

Lemma handleWorkflowTimedOut_quiet (eps : list string) (payload : value) :
  within eps (WorkflowHandler.handleWorkflowTimedOut payload).
Proof. unfold WorkflowHandler.handleWorkflowTimedOut. quiet. Qed.

Lemma handleWorkflowRequested_quiet (eps : list string) (payload : value) :
  within eps (WorkflowHandler.handleWorkflowRequested payload).
Proof.
  unfold WorkflowHandler.handleWorkflowRequested,
    WorkflowHandler.actor_login.
  quiet.
Qed.

Lemma handleWorkflowInProgress_quiet (eps : list string)
      (payload : value) :
  within eps (WorkflowHandler.handleWorkflowInProgress payload).
Proof. unfold WorkflowHandler.handleWorkflowInProgress. quiet. Qed.

#[local] Hint Resolve handleWorkflowSuccess_quiet
  handleWorkflowCancelled_quiet handleWorkflowTimedOut_quiet
  handleWorkflowRequested_quiet handleWorkflowInProgress_quiet : quiet.

Lemma analyzeWorkflowFailure_calls
      (octokit : option client) (repository workflowRun : value) :
  calls (WorkflowHandler.analyzeWorkflowFailure octokit repository
           workflowRun) = []
  \/ calls (WorkflowHandler.analyzeWorkflowFailure octokit repository
              workflowRun) = ["actions.listJobsForWorkflowRun"]
     /\ present octokit = true.
Proof.
  unfold WorkflowHandler.analyzeWorkflowFailure.
  destruct octokit as [c|]; cbn [present negb]; [|now left].
  rewrite calls_try_quiet_handler by (intros; quiet).
  do 2 (calls_step; [now left|]).
  rewrite calls_bind_quiet_rest by (intros; quiet).
  rewrite calls_request. now right.
Qed.

Lemma handleWorkflowFailure_calls
      (octokit : option client) (payload : value) :
  calls (WorkflowHandler.handleWorkflowFailure octokit payload) = []
  \/ calls (WorkflowHandler.handleWorkflowFailure octokit payload)
     = ["actions.listJobsForWorkflowRun"]
     /\ present octokit = true.
Proof.
  unfold WorkflowHandler.handleWorkflowFailure.
  calls_step; [now left|]. destruct a as [workflow_run repository].
  unfold WorkflowHandler.actor_login.
  do 2 (calls_step; [now left|]).
  rewrite calls_bind_quiet_rest by (intros; quiet).
  apply analyzeWorkflowFailure_calls.
Qed.

(** X23. Whatever the payload, the workflow handler sends at most one
    API request, the list of the jobs of the run, and it sends it only
    with a client and for a completed run whose conclusion is
    failure. *)
Theorem workflow_requests (octokit : option client) (payload : value) :
  let m := WorkflowHandler.handle octokit payload in
  (calls m = [] \/ calls m = ["actions.listJobsForWorkflowRun"])
  /\ (calls m <> [] ->
      present octokit = true
      /\ exists fs wfs,
           payload = VObj fs
           /\ field "action" fs = VStr "completed"
           /\ field "workflow_run" fs = VObj wfs
           /\ field "conclusion" wfs = VStr "failure").
Proof.
  cbv zeta.
  assert (H : calls (WorkflowHandler.handle octokit payload) = []
              \/ calls (WorkflowHandler.handle octokit payload)
                 = ["actions.listJobsForWorkflowRun"]
                 /\ present octokit = true
                 /\ exists fs wfs,
                      payload = VObj fs
                      /\ field "action" fs = VStr "completed"
                      /\ field "workflow_run" fs = VObj wfs
                      /\ field "conclusion" wfs = VStr "failure").
  { destruct payload as [| | | | | |fs]; try (left; reflexivity).
    unfold WorkflowHandler.handle.
    rewrite !get_object, !bind_ret_l.
    destruct (nullish (field "repository" fs)) eqn:Hr;
      [left; unfold touch; now rewrite Hr|].
    rewrite (touch_ok _ Hr), bind_ret_l.
    destruct (nullish (field "workflow_run" fs)) eqn:Hw;
      [left; unfold touch; now rewrite Hw|].
    rewrite (touch_ok _ Hw), bind_ret_l.
    calls_step; [now left|].
    destruct (is_str "completed" (field "action" fs)) eqn:E1;
      [|left; apply within_nil; quiet].
    apply is_str_true in E1.
    unfold WorkflowHandler.handleWorkflowCompleted,
      WorkflowHandler.run_and_repo.
    rewrite !get_object. run.
    do 2 (calls_step; [now left|]).
    destruct (get_non_nullish _ "conclusion" Hw) as (conclusion & Hc).
    rewrite Hc, bind_ret_l.
    destruct (is_str "success" conclusion);
      [left; apply within_nil; quiet|].
    destruct (is_str "failure" conclusion) eqn:E2;
      [|left; apply within_nil; quiet].
    apply is_str_true in E2. subst conclusion.
    destruct (field "workflow_run" fs) as [| | | | | |wfs] eqn:Ew;
      try discriminate.
    rewrite get_object in Hc. injection Hc as Hc.
    destruct (handleWorkflowFailure_calls octokit (VObj fs))
      as [->|[-> Hp]]; [now left | right].
    repeat split; try assumption. now exists fs, wfs. }
  split.
  - destruct H as [->|[-> _]]; [now left | now right].
  - intros Hne. destruct H as [E|[_ H]]; [contradiction | exact H].
Qed.

Lemma notifyWorkflowFailure_returns (repository : value)
      (wfs : list (string * value)) :
  nullish repository = false ->
  result (WorkflowHandler.notifyWorkflowFailure repository (VObj wfs))
  = inr tt.
Proof.
  intros Hr. unfold WorkflowHandler.notifyWorkflowFailure.
  rewrite (touch_ok _ Hr), !get_object, !bind_ret_l.
  destruct (is_str "Automatic Release Creation" _ || _);
    destruct (is_str "main" _ || _); reflexivity.
Qed.

Lemma duration_of_dated (wfs : list (string * value)) :
  WorkflowHandler.duration_of (VObj wfs)
  = if dated wfs then ret tt else throw TypeError.
Proof.
  unfold WorkflowHandler.duration_of, WorkflowHandler.calculateDuration,
    dated, convertible, text.
  rewrite !get_object, !bind_ret_l.
  destruct (to_text (field "created_at" wfs)); [|reflexivity].
  now destruct (to_text (field "updated_at" wfs)).
Qed.

Lemma trackWorkflowMetrics_result (repository : value)
      (wfs : list (string * value)) (status : string) :
  nullish repository = false ->
  result (WorkflowHandler.trackWorkflowMetrics repository (VObj wfs)
            status)
  = if negb (dated wfs) || nullish (field "actor" wfs)
    then inl TypeError else inr tt.
Proof.
  intros Hr. unfold WorkflowHandler.trackWorkflowMetrics,
    WorkflowHandler.actor_login.
  run. rewrite duration_of_dated.
  destruct (dated wfs); [|reflexivity].
  run. rewrite result_bind, touch_result.
  now destruct (nullish (field "actor" wfs)).
Qed.

(** X24. On a payload with a repository and a workflow run, the
    workflow handler throws, a TypeError, in exactly these cases, and
    returns in every other one, with or without a client and whatever
    the API answers: for the actions completed, requested and
    in_progress, when [created_at] or [updated_at] of the run has no
    text (the duration cannot be computed); when it comes to read the
    actor of the run and the run has none, which it does for the
    actions requested and in_progress and for a completed run
    concluded as success, failure, cancelled or timed_out; for a
    completed run concluded as success, when the name of the run has
    no text; and for an action that has no text. *)
Theorem workflow_handler_throws_exactly
        (octokit : option client) (fs wfs : list (string * value)) :
  has "repository" fs ->
  field "workflow_run" fs = VObj wfs ->
  result (WorkflowHandler.handle octokit (VObj fs))
  = if (reads_dates (field "action" fs) && negb (dated wfs))
       || (reads_actor (field "action" fs) (field "conclusion" wfs)
           && nullish (field "actor" wfs))
       || (is_str "completed" (field "action" fs)
           && is_str "success" (field "conclusion" wfs)
           && negb (convertible (field "name" wfs)))
       || negb (convertible (field "action" fs))
    then inl TypeError else inr tt.
Proof.
  intros Hr Hw.
  assert (P : WorkflowHandler.run_and_repo (VObj fs)
              = ret (VObj wfs, field "repository" fs)).
  { unfold WorkflowHandler.run_and_repo. rewrite !get_object, Hw.
    now run. }
  pose proof (trackWorkflowMetrics_result (field "repository" fs) wfs)
    as T.
  unfold reads_dates, reads_actor, WorkflowHandler.handle.
  rewrite !get_object, Hw. run. unfold Logger.info at 1. run.
  destruct (is_str "completed" (field "action" fs)) eqn:E1.
  { apply is_str_true in E1. rewrite E1.
    cbn [is_str String.eqb Ascii.eqb Bool.eqb orb andb convertible
         to_text negb].
    rewrite orb_false_r.
    unfold WorkflowHandler.handleWorkflowCompleted. rewrite P. run.
    rewrite duration_of_dated.
    destruct (dated wfs) eqn:Dt; [|reflexivity].
    cbn [negb orb]. run.
    unfold Logger.info at 1. run.
    destruct (is_str "success" (field "conclusion" wfs)) eqn:C1.
    { cbn [orb andb].
      unfold WorkflowHandler.handleWorkflowSuccess,
        WorkflowHandler.handleReleaseWorkflowSuccess,
        WorkflowHandler.handleTestWorkflowSuccess.
      rewrite P. run. unfold Logger.info at 1. run.
      rewrite result_bind.
      destruct (convertible (field "name" wfs)) eqn:Cn.
      - replace (result (if is_str "Automatic Release Creation"
                              (field "name" wfs) then _ else _))
          with (inr tt : error + unit).
        + rewrite T by assumption. cbn [negb orb].
          rewrite orb_false_r.
          now destruct (nullish (field "actor" wfs)).
        + repeat (destruct (is_str _ (field "name" wfs));
                  cbn [orb]; try reflexivity).
          unfold Logger.debug. now rewrite result_text_log, Cn.
      - replace (result (if is_str "Automatic Release Creation"
                              (field "name" wfs) then _ else _))
          with (inl TypeError : error + unit).
        + now rewrite orb_true_r.
        + destruct (is_str "Automatic Release Creation"
                      (field "name" wfs)) eqn:N1;
            [apply is_str_convertible in N1; congruence|].
          destruct (is_str "TypeScript" (field "name" wfs)) eqn:N2;
            [apply is_str_convertible in N2; congruence|].
          destruct (is_str "Python" (field "name" wfs)) eqn:N3;
            [apply is_str_convertible in N3; congruence|].
          cbn [orb]. unfold Logger.debug.
          now rewrite result_text_log, Cn. }
    cbn [andb]. rewrite orb_false_r.
    destruct (is_str "failure" (field "conclusion" wfs)) eqn:C2.
    { cbn [orb andb].
      unfold WorkflowHandler.handleWorkflowFailure,
        WorkflowHandler.actor_login.
      rewrite P. run. rewrite result_bind, touch_result.
      destruct (nullish (field "actor" wfs)) eqn:Ha; [reflexivity|].
      unfold Logger.error at 1. run.
      rewrite result_bind.
      replace (result (WorkflowHandler.analyzeWorkflowFailure octokit
                         (field "repository" fs) (VObj wfs)))
        with (inr tt : error + unit)
        by (unfold WorkflowHandler.analyzeWorkflowFailure;
            destruct octokit; cbn [present negb];
            [symmetry; apply try_log_returns | reflexivity]).
      rewrite result_bind, notifyWorkflowFailure_returns by assumption.
      rewrite T by assumption. now rewrite ?Ha. }
    destruct (is_str "cancelled" (field "conclusion" wfs)) eqn:C3.
    { cbn [orb andb].
      unfold WorkflowHandler.handleWorkflowCancelled.
      rewrite P. run. unfold Logger.info at 1. run.
      rewrite T by assumption.
      now destruct (nullish (field "actor" wfs)). }
    destruct (is_str "timed_out" (field "conclusion" wfs)) eqn:C4.
    { cbn [orb andb].
      unfold WorkflowHandler.handleWorkflowTimedOut.
      rewrite P. run. rewrite duration_of_dated, Dt. run.
      unfold Logger.warn at 1. run.
      rewrite T by assumption.
      now destruct (nullish (field "actor" wfs)). }
    reflexivity. }
  destruct (is_str "requested" (field "action" fs)) eqn:E2.
  { rewrite (is_str_convertible _ _ E2).
    cbn [orb andb negb]. rewrite !orb_false_r.
    unfold WorkflowHandler.handleWorkflowRequested,
      WorkflowHandler.actor_login.
    rewrite P. run. rewrite result_bind, touch_result.
    destruct (nullish (field "actor" wfs)) eqn:Ha;
      [now rewrite orb_true_r|].
    unfold Logger.info at 1. run.
    rewrite T by assumption. now rewrite ?Ha. }
  destruct (is_str "in_progress" (field "action" fs)) eqn:E3.
  { rewrite (is_str_convertible _ _ E3).
    cbn [orb andb negb]. rewrite !orb_false_r.
    unfold WorkflowHandler.handleWorkflowInProgress.
    rewrite P. run. unfold Logger.info at 1. run.
    now rewrite T by assumption. }
  cbn [orb andb]. unfold Logger.debug. rewrite result_text_log.
  now destruct (convertible (field "action" fs)).
Qed.

Lemma job_ok_object (job : value) :
  job_ok job = true -> exists js, job = VObj js.
Proof. destruct job; try discriminate. eauto. Qed.

Lemma failed_jobs_filtered (jobs : list value) :
  forallb job_ok jobs = true ->
  filter_m jobs (fun job =>
    bind (get job "conclusion") (fun c => ret (is_str "failure" c)))
  = ret (filter failed_job jobs).
Proof.
  induction jobs as [|job r IH]; cbn [forallb filter_m filter];
    [reflexivity|].
  intros [Hj Hr]%andb_prop.
  destruct (job_ok_object _ Hj) as (js & ->).
  rewrite get_object, !bind_ret_l, (IH Hr), bind_ret_l.
  reflexivity.
Qed.

Lemma steps_are_read (steps : list value) :
  forallb (fun step => negb (nullish step)) steps = true ->
  for_each steps (fun step =>
    bind (get step "conclusion") (fun _ => ret tt))
  = ret tt.
Proof.
  induction steps as [|s r IH]; cbn [forallb for_each]; [reflexivity|].
  intros [Hs Hr]%andb_prop. apply negb_true_iff in Hs.
  destruct (get_non_nullish s "conclusion" Hs) as (x & ->).
  now rewrite !bind_ret_l, (IH Hr).
Qed.

Lemma failed_jobs_logged (jobs : list value) :
  forallb job_ok jobs = true ->
  for_each jobs (fun job =>
    bind (get job "name") (fun name =>
    bind (text name) (fun n =>
    bind (get job "steps") (fun steps =>
    bind (if nullish steps then ret tt
          else bind (as_array steps) (fun l =>
               for_each l (fun step =>
                 bind (get step "conclusion") (fun _ => ret tt))))
      (fun _ => Logger.error (String.append "Failed job: " n))))))
  = (inr tt, map failed_job_log jobs).
Proof.
  induction jobs as [|job r IH]; cbn [forallb for_each map];
    [reflexivity|].
  intros [Hj Hr]%andb_prop. rewrite (IH Hr).
  destruct (job_ok_object _ Hj) as (js & ->).
  rewrite !get_object, !bind_ret_l.
  cbn [job_ok] in Hj. unfold failed_job_log, job_name, text.
  destruct (to_text (field "name" js)) as [n|]; [|discriminate Hj].
  rewrite !bind_ret_l.
  destruct (field "steps" js) as [| | | | |steps|]; try discriminate;
    cbn [nullish as_array]; rewrite ?bind_ret_l, ?(steps_are_read _ Hj),
      ?bind_ret_l; reflexivity.
Qed.

Lemma forallb_filter {A} (p f : A -> bool) (l : list A) :
  forallb p l = true -> forallb p (filter f l) = true.
Proof.
  induction l as [|x l IH]; cbn [forallb filter]; [reflexivity|].
  intros [Hx Hl]%andb_prop.
  destruct (f x); cbn [forallb]; rewrite ?Hx; auto.
Qed.

(** X25. [analyzeWorkflowFailure] with a client, on a repository and a
    run that carry what the request needs and for jobs as the platform
    lists them (objects whose name has a text and whose steps, where
    present, are an array without null): it sends the one request,
    logs the analysis, and then logs one line for each job whose
    conclusion is failure, in the order of the list, naming the job. *)
Theorem failed_jobs_are_logged
        (c : client) (repository workflowRun id answer : value)
        (ra : list (string * value)) (jobs : list value) :
  repo_args repository = ret ra ->
  get workflowRun "id" = ret id ->
  actions_listJobsForWorkflowRun c (VObj (ra ++ [("run_id", id)]))
  = inr answer ->
  get answer "jobs" = ret (VArr jobs) ->
  forallb job_ok jobs = true ->
  WorkflowHandler.analyzeWorkflowFailure (Some c) repository workflowRun
  = (inr tt,
     ApiCall "actions.listJobsForWorkflowRun"
       (VObj (ra ++ [("run_id", id)]))
     :: Logged Err "Workflow failure analysis"
     :: map failed_job_log (filter failed_job jobs)).
Proof.
  intros Hra Hid Hlist Hjobs Hok.
  pose proof (get_ret_non_nullish _ _ _ Hid) as Hrun.
  unfold WorkflowHandler.analyzeWorkflowFailure. cbn [present negb].
  rewrite Hra, Hid, !bind_ret_l, request_eq, Hlist, bind_ok.
  rewrite Hjobs, bind_ret_l. cbn [as_array]. rewrite bind_ret_l.
  rewrite (failed_jobs_filtered _ Hok), bind_ret_l.
  rewrite (touch_ok _ Hrun), bind_ret_l.
  unfold Logger.error at 1. unfold Logger.log at 1. rewrite bind_emit.
  rewrite (failed_jobs_logged _ (forallb_filter _ failed_job _ Hok)).
  reflexivity.
Qed.

End Workflows.

Section WorkflowsAtSamples.
Import JS Op Octokit Notions Shapes.

Lemma workflow_handler_throws_exactly_witness :
  result (WorkflowHandler.handle (Some Fixtures.agreeable)
            (VObj Fixtures.failed_run_fields)) = inl TypeError.
Proof.
  apply (workflow_handler_throws_exactly (Some Fixtures.agreeable)
           Fixtures.failed_run_fields
           [("id", VNum 42 0); ("name", VStr "TypeScript");
            ("conclusion", VStr "failure");
            ("head_branch", VStr "main")]); reflexivity.
Defined.

Lemma failed_jobs_are_logged_witness :
  WorkflowHandler.analyzeWorkflowFailure (Some Fixtures.with_jobs)
    Fixtures.repository (VObj [("id", VNum 42 0)])
  = (inr tt,
     [ApiCall "actions.listJobsForWorkflowRun"
        (VObj [("owner", VStr "test"); ("repo", VStr "repo");
               ("run_id", VNum 42 0)]);
      Logged Err "Workflow failure analysis";
      Logged Err "Failed job: test";
      Logged Err "Failed job: lint"]).
Proof.
  apply (failed_jobs_are_logged Fixtures.with_jobs Fixtures.repository
           (VObj [("id", VNum 42 0)]) (VNum 42 0)
           (VObj [("total_count", VNum 3 0);
                  ("jobs", VArr Fixtures.jobs)])
           [("owner", VStr "test"); ("repo", VStr "repo")]
           Fixtures.jobs); reflexivity.
Defined.

End WorkflowsAtSamples.

(** ** Welcoming a first contribution *)

Section Welcome.
Import JS Op Octokit Notions Shapes.

Variable c : client.
Variables repository user login number : value.
Variable ra : list (string * value).
Hypothesis repository_ok : repo_args repository = ret ra.
Hypothesis login_ok : get user "login" = ret login.

(** X26. [addWelcomeComment] of the issues handler, with a client and
    an issue that has a number and a user with a login: it asks for
    all issues of the author in the repository and, exactly when the
    answer lists one issue, goes on to welcome the author: it posts
    the welcome comment, addressed to the login as a template shows
    it, unless the login has no text, in which case nothing is posted
    and the failure is logged. Whether the comment is accepted or
    rejected, it returns. *)
Theorem first_issue_is_welcomed (issue : value) (listed : list value) :
  get issue "user" = ret user ->
  get issue "number" = ret number ->
  issues_listForRepo c
    (VObj (ra ++ [("creator", login); ("state", VStr "all")]))
  = inr listed ->
  let comment author :=
    VObj ((ra ++ [("issue_number", number)])
          ++ [("body", VStr (IssuesHandler.welcome_comment author))]) in
  IssuesHandler.addWelcomeComment (Some c) repository issue
  = (inr tt,
     ApiCall "issues.listForRepo"
       (VObj (ra ++ [("creator", login); ("state", VStr "all")]))
     :: match listed with
        | [_] =>
            match to_text login with
            | Some author =>
                [ApiCall "issues.createComment" (comment author);
                 match issues_createComment c (comment author) with
                 | inr _ =>
                     Logged Info
                       "Added welcome comment for first-time issue creator"
                 | inl _ =>
                     Logged Err "Failed to add welcome comment to issue"
                 end]
            | None => [Logged Err "Failed to add welcome comment to issue"]
            end
        | _ => []
        end).
Proof.
  intros Hu Hn Hl. cbv zeta.
  pose proof (get_ret_non_nullish _ _ _ Hu) as Hi.
  pose proof (get_ret_non_nullish _ _ _ login_ok) as Hus.
  unfold IssuesHandler.addWelcomeComment. cbn [present negb].
  repeat first [rewrite repository_ok | rewrite Hu | rewrite login_ok
               | rewrite bind_ret_l].
  rewrite request_eq, Hl, bind_ok.
  destruct listed as [|x [|y r]]; try reflexivity.
  unfold text. destruct (to_text login) as [author|]; [|reflexivity].
  unfold IssuesHandler.issue_args.
  repeat first [rewrite repository_ok | rewrite Hn | rewrite bind_ret_l].
  rewrite request_eq, (touch_ok _ Hi), (touch_ok _ Hus).
  destruct (issues_createComment c _) as [e|[]]; reflexivity.
Qed.

(** X27. [addWelcomeComment] of the pull request handler, under the
    same conditions: it asks for all pull requests of the author and,
    exactly when the answer lists one, goes on to welcome the author:
    it posts the welcome comment, addressed to the login as a template
    shows it, unless the login has no text, in which case nothing is
    posted and the failure is logged. It returns whether the comment
    is accepted or rejected. *)
Theorem first_pull_request_is_welcomed
        (pullRequest : value) (listed : list value) :
  get pullRequest "user" = ret user ->
  get pullRequest "number" = ret number ->
  pulls_list c (VObj (ra ++ [("creator", login); ("state", VStr "all")]))
  = inr listed ->
  let comment author :=
    VObj ((ra ++ [("issue_number", number)])
          ++ [("body",
               VStr (PullRequestHandler.welcome_comment author))]) in
  PullRequestHandler.addWelcomeComment (Some c) repository pullRequest
  = (inr tt,
     ApiCall "pulls.list"
       (VObj (ra ++ [("creator", login); ("state", VStr "all")]))
     :: match listed with
        | [_] =>
            match to_text login with
            | Some author =>
                [ApiCall "issues.createComment" (comment author);
                 match issues_createComment c (comment author) with
                 | inr _ =>
                     Logged Info
                       "Added welcome comment for first-time contributor"
                 | inl _ => Logged Err "Failed to add welcome comment"
                 end]
            | None => [Logged Err "Failed to add welcome comment"]
            end
        | _ => []
        end).
Proof.
  intros Hu Hn Hl. cbv zeta.
  pose proof (get_ret_non_nullish _ _ _ Hu) as Hi.
  pose proof (get_ret_non_nullish _ _ _ login_ok) as Hus.
  unfold PullRequestHandler.addWelcomeComment. cbn [present negb].
  repeat first [rewrite repository_ok | rewrite Hu | rewrite login_ok
               | rewrite bind_ret_l].
  rewrite request_eq, Hl, bind_ok.
  destruct listed as [|x [|y r]]; try reflexivity.
  unfold text.
  destruct (to_text login) as [author|];
    [|now rewrite (touch_ok _ Hi)].
  unfold PullRequestHandler.pr_args.
  repeat first [rewrite repository_ok | rewrite Hn | rewrite bind_ret_l].
  rewrite request_eq, (touch_ok _ Hi), (touch_ok _ Hus).
  destruct (issues_createComment c _) as [e|[]]; reflexivity.
Qed.

(** X28. [handleReleaseBranchPush] with a client: the workflow it
    dispatches is release.yml, on the pushed branch (the ref without
    its refs/heads/ prefix), in the repository of the push; a rejection
    is logged and not rethrown. *)
Theorem release_branch_dispatches_release_workflow
        (fs : list (string * value)) (ref : string) :
  field "repository" fs = repository ->
  field "ref" fs = VStr ref ->
  let dispatch :=
    VObj (ra ++ [("workflow_id", VStr "release.yml");
                 ("ref", VStr (branch_of ref))]) in
  PushHandler.handleReleaseBranchPush (Some c) (VObj fs)
  = (inr tt,
     [Logged Info "Release branch push detected";
      ApiCall "actions.createWorkflowDispatch" dispatch;
      match actions_createWorkflowDispatch c dispatch with
      | inr _ => Logged Info "Triggered release workflow"
      | inl _ => Logged Err "Failed to trigger release workflow"
      end]).
Proof.
  intros Hr Href. cbv zeta.
  assert (Hn : nullish repository = false).
  { destruct repository; try reflexivity; discriminate repository_ok. }
  unfold PushHandler.handleReleaseBranchPush.
  rewrite !get_object, Hr, Href, !bind_ret_l.
  cbn [as_string present]. rewrite bind_ret_l.
  rewrite (touch_ok _ Hn), bind_ret_l, repository_ok, bind_ret_l.
  rewrite request_eq. unfold branch_of.
  destruct (actions_createWorkflowDispatch c _) as [e|[]]; reflexivity.
Qed.

End Welcome.

Section WelcomeAtSamples.
Import JS Op Octokit Notions Shapes.

Lemma first_issue_is_welcomed_witness :
  IssuesHandler.addWelcomeComment (Some Fixtures.first_time)
    Fixtures.repository
    (VObj [("number", VNum 3 0);
           ("user", VObj [("login", VStr "testuser")])])
  = (inr tt,
     [ApiCall "issues.listForRepo"
        (VObj [("owner", VStr "test"); ("repo", VStr "repo");
               ("creator", VStr "testuser"); ("state", VStr "all")]);
      ApiCall "issues.createComment"
        (VObj [("owner", VStr "test"); ("repo", VStr "repo");
               ("issue_number", VNum 3 0);
               ("body",
                VStr (IssuesHandler.welcome_comment "testuser"))]);
      Logged Info "Added welcome comment for first-time issue creator"]).
Proof.
  apply (first_issue_is_welcomed Fixtures.first_time Fixtures.repository
           (VObj [("login", VStr "testuser")]) (VStr "testuser")
           (VNum 3 0) [("owner", VStr "test"); ("repo", VStr "repo")]
           eq_refl eq_refl
           (VObj [("number", VNum 3 0);
                  ("user", VObj [("login", VStr "testuser")])])
           [VObj Fixtures.issue_fields]); reflexivity.
Defined.

Lemma first_pull_request_is_welcomed_witness :
  PullRequestHandler.addWelcomeComment (Some Fixtures.first_time)
    Fixtures.repository Fixtures.pull_request
  = (inr tt,
     [ApiCall "pulls.list"
        (VObj [("owner", VStr "test"); ("repo", VStr "repo");
               ("creator", VStr "testuser"); ("state", VStr "all")]);
      ApiCall "issues.createComment"
        (VObj [("owner", VStr "test"); ("repo", VStr "repo");
               ("issue_number", VNum 1 0);
               ("body",
                VStr (PullRequestHandler.welcome_comment "testuser"))]);
      Logged Info "Added welcome comment for first-time contributor"]).
Proof.
  apply (first_pull_request_is_welcomed Fixtures.first_time
           Fixtures.repository (VObj [("login", VStr "testuser")])
           (VStr "testuser") (VNum 1 0)
           [("owner", VStr "test"); ("repo", VStr "repo")]
           eq_refl eq_refl Fixtures.pull_request
           [Fixtures.pull_request]); reflexivity.
Defined.

Lemma release_branch_dispatches_release_workflow_witness :
  PushHandler.handleReleaseBranchPush (Some Fixtures.first_time)
    (VObj Fixtures.release_push_fields)
  = (inr tt,
     [Logged Info "Release branch push detected";
      ApiCall "actions.createWorkflowDispatch"
        (VObj [("owner", VStr "test"); ("repo", VStr "repo");
               ("workflow_id", VStr "release.yml");
               ("ref", VStr "release/1.2.0")]);
      Logged Err "Failed to trigger release workflow"]).
Proof.
  apply (release_branch_dispatches_release_workflow Fixtures.first_time
           Fixtures.repository
           [("owner", VStr "test"); ("repo", VStr "repo")]
           eq_refl Fixtures.release_push_fields
           "refs/heads/release/1.2.0"); reflexivity.
Defined.

End WelcomeAtSamples.
